(** * Call-signature resolution: binding tree, access table, call cache

    A shallow embedding of [kernelfunctions/core/boundvariable.py],
    [kernelfunctions/calldata.py] and [kernelfunctions/function.py].

    Python objects mutated in place are modelled by explicit state passing,
    Python exceptions by the [result] type, Python dictionaries whose
    iteration order is observable by association lists, and the process-wide
    call cache by a [gmap] keyed by the signature string. *)

From Stdlib Require Import ZArith List Bool Ascii Lia.
From stdpp Require Import gmap strings list fin_maps pretty.

Set Warnings "-register-all".
Local Open Scope string_scope.
Local Open Scope list_scope.
Local Open Scope Z_scope.

(** ** Enumerations *)

Module AccessType.
Inductive t := none | read | write | readwrite.

Definition eqb (a b : t) : bool :=
  match a, b with
  | none, none | read, read | write, write | readwrite, readwrite => true
  | _, _ => false
  end.
End AccessType.

Module PrimType.
Inductive t := primal | derivative.

(** [prim.value] *)
Definition value (p : t) : nat :=
  match p with primal => 0%nat | derivative => 1%nat end.

(** [prim.name] *)
Definition name (p : t) : string :=
  match p with primal => "primal" | derivative => "derivative" end.

(** [for prim in PrimType] iterates in declaration order. *)
Definition all : list t := [primal; derivative].
End PrimType.

Module IOType.
(** Modelled from the spec: the enum is declared in [core/enums.py]; the data
    model gives its members as in / out / inout ([inn] in the code, [in]
    being a Python keyword). *)
Inductive t := inn | out | inout.
End IOType.

Module CallMode.
(** Modelled from the spec: declared in [core/native.py]; members primal,
    forward and backward ([prim], [fwds], [bwds] in the code). *)
Inductive t := prim | bwds | fwds.

Definition eqb (a b : t) : bool :=
  match a, b with
  | prim, prim | bwds, bwds | fwds, fwds => true
  | _, _ => false
  end.
End CallMode.

(** ** Exceptions *)

(** The exceptions that the code raises or catches. [KeyboardInterrupt] and
    [SystemExit] derive from [BaseException] alone; all the others derive
    from [Exception]. *)
Inductive exn :=
| AssertionError
| KeyError (key : string)
| IndexError (message : string)
| ValueError (message : string)
| AttributeError (message : string)
| UnboundLocalError (name : string)
| ImportError (message : string)
| TypeError (message : string)
| KernelGenException (message : string)
| PythonVariableException (message : string) (variable : string)
| BoundVariableException (message : string) (variable : string)
| SlangCompileError (message : string)
| OtherException (message : string)
| KeyboardInterrupt
| SystemExit.

Inductive result (A : Type) :=
| Ok (a : A)
| Raise (e : exn).
Arguments Ok {A} a.
Arguments Raise {A} e.

Definition is_ok {A} (r : result A) : bool :=
  match r with Ok _ => true | Raise _ => false end.

Definition rbind {A B} (r : result A) (k : A -> result B) : result B :=
  match r with
  | Ok a => k a
  | Raise e => Raise e
  end.

Declare Scope result_scope.
Delimit Scope result_scope with result.
Notation "x <- c ;; k" := (rbind c (fun x => k))
  (at level 100, c at next level, right associativity) : result_scope.
Notation "'assert!' b ;; k" := (if b then k else Raise AssertionError)
  (at level 100, b at next level, right associativity) : result_scope.

(** State that survives an exception: a Python object mutated before a
    [raise] stays mutated. *)
Definition SE (S A : Type) := S -> S * result A.

Definition sret {S A} (a : A) : SE S A := fun s => (s, Ok a).
Definition sraise {S A} (e : exn) : SE S A := fun s => (s, Raise e).
Definition sbind {S A B} (c : SE S A) (k : A -> SE S B) : SE S B :=
  fun s => match c s with
           | (s', Ok a) => k a s'
           | (s', Raise e) => (s', Raise e)
           end.
Definition sget {S} : SE S S := fun s => (s, Ok s).
Definition smodify {S} (f : S -> S) : SE S unit := fun s => (f s, Ok tt).
Definition slift {S A} (r : result A) : SE S A := fun s => (s, r).

Declare Scope se_scope.
Delimit Scope se_scope with se.
Notation "x <- c ;; k" := (sbind c (fun x => k))
  (at level 100, c at next level, right associativity) : se_scope.
Notation "c1 ;;; c2" := (sbind c1 (fun _ => c2))
  (at level 100, right associativity) : se_scope.

(** ** Python dictionaries with string keys, in insertion order *)

Definition dict (V : Type) := list (string * V).

Fixpoint dict_get {V} (k : string) (d : dict V) : option V :=
  match d with
  | [] => None
  | (k', v) :: r => if String.eqb k k' then Some v else dict_get k r
  end.

(** [k in d] *)
Definition dict_mem {V} (k : string) (d : dict V) : bool :=
  match dict_get k d with Some _ => true | None => false end.

(** [d[k]], raising [KeyError] on a missing key *)
Definition dict_getitem {V} (k : string) (d : dict V) : result V :=
  match dict_get k d with
  | Some v => Ok v
  | None => Raise (KeyError k)
  end.

(** [d[k] = v]: replaces in place when the key is present, appends otherwise *)
Fixpoint dict_set {V} (k : string) (v : V) (d : dict V) : dict V :=
  match d with
  | [] => [(k, v)]
  | (k', v') :: r =>
      if String.eqb k k' then (k', v) :: r else (k', v') :: dict_set k v r
  end.

Definition dict_keys {V} (d : dict V) : list string := map fst d.
Definition dict_values {V} (d : dict V) : list V := map snd d.

(** ** Shapes and vector mappings *)

Module Shape.
(** Modelled from the spec: [Shape] is declared in [core/native.py]. A
    vector mapping is an ordered sequence of integers with a [valid] flag;
    an invalid shape carries no sequence. *)
Definition t := option (list Z).

Definition valid (s : t) : bool :=
  match s with Some _ => true | None => false end.

(** [Shape( *m )] *)
Definition make (m : list Z) : t := Some m.

Definition as_tuple (s : t) : result (list Z) :=
  match s with
  | Some l => Ok l
  | None => Raise (ValueError "Shape is invalid")
  end.

(** [len(shape)] *)
Definition len (s : t) : result Z :=
  (l <- as_tuple s ;; Ok (Z.of_nat (length l)))%result.
End Shape.

(** [range(n)] *)
Definition range (n : Z) : list Z := map Z.of_nat (seq 0 (Z.to_nat n)).

(** [max(xs)] on a non-empty sequence ([ValueError] on an empty one) *)
Definition py_max (xs : list Z) : result Z :=
  match xs with
  | [] => Raise (ValueError "max() arg is an empty sequence")
  | x :: r => Ok (fold_left Z.max r x)
  end.

(** [str(x)] and [",".join(str(x) for x in xs)] *)
Definition str (x : Z) : string := pretty x.
Definition join_ints (xs : list Z) : string := String.concat "," (map str xs).

(** ** Binding context *)

(** A reference to an object owned by a collaborator (reflection provider,
    device, compiler session): never inspected, only passed back. *)
Definition handle := positive.

(** Modelled from the spec: [BindContext] is declared next to [BaseType],
    outside the files at hand. It is built as
    [BindContext(layout, call_mode, device_module, options)] and carries the
    call mode, the type layout handle and the call dimensionality, which is
    assigned once the call shape is known. *)
Record BindContext := {
  layout : handle;
  call_mode : CallMode.t;
  device_module : handle;
  options : handle;
  ctx_call_dimensionality : Z
}.

Definition set_ctx_call_dimensionality (d : Z) (c : BindContext) : BindContext :=
  {| layout := layout c; call_mode := call_mode c;
     device_module := device_module c; options := options c;
     ctx_call_dimensionality := d |}.

(** ** Marshalling types *)

(** The methods of the [BaseType] interface that the binding engine calls on
    [python.primal], as an interface over the type [T] of marshalling types;
    each may raise, and the two type-valued ones may return [None]. *)
Class BaseType (T : Type) := {
  type_name : T -> string;
  reduce_type : T -> Z -> result (option T);
  resolve_type : T -> BindContext -> T -> result (option T);
  resolve_dimensionality : T -> BindContext -> T -> result Z
}.

(** ** Code emission target *)

(** Modelled from the spec: [CodeGen] and [CodeGenBlock] are declared in
    [core/codegen.py]. A block accepts, in order, type aliases, struct
    begin/end, declarations, raw lines and statements, block begin/end; it
    is modelled by the sequence of calls it has received. *)
Inductive CodeGenOp :=
| begin_struct (name : string)
| end_struct
| declare (type name : string)
| assign (lhs rhs : string)
| type_alias (name value : string)
| append_statement (s : string)
| append_line (s : string)
| empty_line
| begin_block
| end_block
| add_import (name : string)
| add_snippet (name text : string).

Definition CodeGenBlock := list CodeGenOp.

Record CodeGen := {
  call_data_structs : CodeGenBlock;
  call_data : CodeGenBlock
}.

(** ** Host-side and kernel-side signature nodes *)

Section Binding.

(** The marshalling types ([BaseType]) are opaque to the binding engine. *)
Context {T : Type}.

(** Modelled from the spec: [PythonVariable] and [SlangVariable] are declared
    in [core/pythonvariable.py] and [core/slangvariable.py]. A host-side node
    holds its vector mapping, its resolved vector type, its marshalling
    type, whether it is writable and differentiable, and named children when
    composite; a kernel-side node holds its name, direction, no-derivative
    flag, primal and derivative types, and named children when composite.
    These are the attributes that [boundvariable.py] reads. [py_fields] is
    read by [BoundVariable.__init__] alone, which binds each field to a
    child; from then on the host-side node of a field is [python] of that
    child, the object that the later phases assign to; [py_fields] of the
    parent keeps the fields as they were when bound and is not kept in
    step with them. *)
Inductive PythonVariable := mkPythonVariable {
  py_name : string;
  parameter_index : option Z;
  py_vector_mapping : Shape.t;
  py_vector_type : option T;
  py_primal : T;
  py_differentiable : bool;
  py_writable : bool;
  py_fields : option (dict PythonVariable)
}.

Inductive SlangVariable := mkSlangVariable {
  sl_name : string;
  io_type : IOType.t;
  no_diff : bool;
  sl_primal : T;
  sl_derivative : option T;
  primal_type_name : string;
  derivative_type_name : option string;
  sl_fields : option (dict SlangVariable)
}.

Definition set_vector_type (vt : option T) (p : PythonVariable) : PythonVariable :=
  mkPythonVariable (py_name p) (parameter_index p) (py_vector_mapping p) vt
    (py_primal p) (py_differentiable p) (py_writable p) (py_fields p).

Definition set_vector_mapping (m : Shape.t) (p : PythonVariable) : PythonVariable :=
  mkPythonVariable (py_name p) (parameter_index p) m (py_vector_type p)
    (py_primal p) (py_differentiable p) (py_writable p) (py_fields p).

(** ** Bound variables *)

Inductive BoundVariable := mkBoundVariable {
  python : PythonVariable;
  slang : SlangVariable;
  path : string;
  variable_name : string;
  access : AccessType.t * AccessType.t;
  differentiable : bool;
  call_dimensionality : option Z;
  children : option (dict BoundVariable)
}.

Definition set_python (p : PythonVariable) (b : BoundVariable) : BoundVariable :=
  mkBoundVariable p (slang b) (path b) (variable_name b) (access b)
    (differentiable b) (call_dimensionality b) (children b).

Definition set_access (a : AccessType.t * AccessType.t) (b : BoundVariable) :=
  mkBoundVariable (python b) (slang b) (path b) (variable_name b) a
    (differentiable b) (call_dimensionality b) (children b).

Definition set_differentiable (d : bool) (b : BoundVariable) :=
  mkBoundVariable (python b) (slang b) (path b) (variable_name b) (access b)
    d (call_dimensionality b) (children b).

Definition set_call_dimensionality (k : option Z) (b : BoundVariable) :=
  mkBoundVariable (python b) (slang b) (path b) (variable_name b) (access b)
    (differentiable b) k (children b).

Definition set_children (c : option (dict BoundVariable)) (b : BoundVariable) :=
  mkBoundVariable (python b) (slang b) (path b) (variable_name b) (access b)
    (differentiable b) (call_dimensionality b) c.

(** [vector_mapping] and [vector_type] properties *)
Definition vector_mapping (b : BoundVariable) : Shape.t := py_vector_mapping (python b).
Definition vector_type (b : BoundVariable) : option T := py_vector_type (python b).

(** *** Induction over the binding tree *)

Section BoundVariable_ind.
Variable P : BoundVariable -> Prop.
Hypothesis Hleaf : forall py sl p vn a d k,
  P (mkBoundVariable py sl p vn a d k None).
Hypothesis Hnode : forall py sl p vn a d k cs,
  Forall (fun nc => P (snd nc)) cs ->
  P (mkBoundVariable py sl p vn a d k (Some cs)).

Fixpoint BoundVariable_tree_ind (b : BoundVariable) : P b :=
  match b with
  | mkBoundVariable py sl p vn a d k None => Hleaf py sl p vn a d k
  | mkBoundVariable py sl p vn a d k (Some cs) =>
      Hnode py sl p vn a d k cs
        ((fix go (l : dict BoundVariable) : Forall (fun nc => P (snd nc)) l :=
            match l with
            | [] => @List.Forall_nil _ _
            | (n, c) :: r =>
                @List.Forall_cons _ (fun nc => P (snd nc)) (n, c) r
                  (BoundVariable_tree_ind c) (go r)
            end) cs)
  end.
End BoundVariable_ind.

(** All nodes of a binding tree, the root first. *)
Fixpoint nodes (b : BoundVariable) : list BoundVariable :=
  b :: match children b with
       | None => []
       | Some cs => flat_map (fun nc => nodes (snd nc)) cs
       end.

(** ** Differentiability and the access table *)

(** [BoundVariable._calculate_differentiability] *)
Definition _calculate_differentiability (self : BoundVariable) (mode : CallMode.t)
  : BoundVariable :=
  match mode with
  | CallMode.prim =>
      if differentiable self then
        match io_type (slang self) with
        | IOType.inout => set_access (AccessType.readwrite, AccessType.none) self
        | IOType.out => set_access (AccessType.write, AccessType.none) self
        | _ => set_access (AccessType.read, AccessType.none) self
        end
      else
        match io_type (slang self) with
        | IOType.inout => set_access (AccessType.readwrite, AccessType.none) self
        | IOType.out => set_access (AccessType.write, AccessType.none) self
        | _ => set_access (AccessType.read, AccessType.none) self
        end
  | CallMode.bwds =>
      if differentiable self then
        match io_type (slang self) with
        | IOType.inout => set_access (AccessType.read, AccessType.readwrite) self
        | IOType.out => set_access (AccessType.none, AccessType.read) self
        | _ => set_access (AccessType.read, AccessType.write) self
        end
      else
        match io_type (slang self) with
        | IOType.inout => set_access (AccessType.read, AccessType.none) self
        | IOType.out => set_access (AccessType.none, AccessType.none) self
        | _ => set_access (AccessType.read, AccessType.none) self
        end
  | _ => set_access (AccessType.none, AccessType.none) self
  end.

(** [BoundVariable.calculate_differentiability]: the node first, then its
    children in dictionary order. *)
Fixpoint calculate_differentiability (context : BindContext) (self : BoundVariable)
  : BoundVariable :=
  let self1 :=
    set_differentiable
      (negb (no_diff (slang self))
       && (match sl_derivative (slang self) with Some _ => true | None => false end)
       && py_differentiable (python self)) self in
  let self2 := _calculate_differentiability self1 (call_mode context) in
  match children self with
  | None => self2
  | Some cs =>
      set_children
        (Some (map (fun nc => (fst nc, calculate_differentiability context (snd nc))) cs))
        self2
  end.

(** ** Construction of the binding tree *)

(** [BoundVariable.__init__]. [self.children[name] = ...] is a dictionary
    assignment, so the children are accumulated with [dict_set]. *)
Fixpoint BoundVariable_init (python : PythonVariable) (slang : SlangVariable)
    (output_transforms : option (dict Shape.t)) (path : option string)
  : result BoundVariable :=
  let self_path :=
    match path with
    | None => sl_name slang
    | Some p => p ++ "." ++ sl_name slang
    end%string in
  let self := mkBoundVariable python slang self_path (sl_name slang)
                (AccessType.none, AccessType.none) false None None in
  match py_fields python with
  | None => Ok self
  | Some fields =>
      match sl_fields slang with
      | None => Raise AssertionError
      | Some slang_fields =>
          (cs <- (fix items (l : dict PythonVariable) (acc : dict BoundVariable)
                    : result (dict BoundVariable) :=
                    match l with
                    | [] => Ok acc
                    | (name, child_python) :: r =>
                        child_slang <- dict_getitem name slang_fields ;;
                        child <- BoundVariable_init child_python child_slang
                                   output_transforms (Some self_path) ;;
                        items r (dict_set name child acc)
                    end) fields [] ;;
           Ok (set_children (Some cs) self))%result
      end
  end.

(** ** Implicit vectorization *)

Context {BT : BaseType T}.

(** [for child in d.values(): child.f(...)] where [f] may raise: the children
    are rebuilt in order, stopping at the first exception. *)
Definition dict_mapM {A B} (f : A -> result B) : dict A -> result (dict B) :=
  fix go (l : dict A) : result (dict B) :=
    match l with
    | [] => Ok []
    | (n, a) :: r => (b <- f a ;; r' <- go r ;; Ok ((n, b) :: r'))%result
    end.

(** [BoundVariable._apply_implicit_vectorization] *)
Definition _apply_implicit_vectorization (context : BindContext)
    (self : BoundVariable) : result BoundVariable :=
  (let mapping := py_vector_mapping (python self) in
   py1 <- (if Shape.valid mapping then
             n <- Shape.len mapping ;;
             vt <- reduce_type (py_primal (python self)) n ;;
             Ok (set_vector_type vt (python self))
           else Ok (python self)) ;;
   py2 <- match py_vector_type py1 with
          | Some _ => Ok py1
          | None =>
              if String.eqb (path self) "_result" then Ok py1
              else
                vt <- resolve_type (py_primal py1) context (sl_primal (slang self)) ;;
                Ok (set_vector_type vt py1)
          end ;;
   py3 <- (if negb (Shape.valid mapping)
              && match py_vector_type py2 with None => true | Some _ => false end
           then
             assert! (String.eqb (path self) "_result") ;;
             Ok (set_vector_type (Some (sl_primal (slang self))) py2)
           else Ok py2) ;;
   k <- (if Shape.valid mapping then
           n <- Shape.len mapping ;;
           if 0 <? n then
             t <- Shape.as_tuple mapping ;;
             m <- py_max t ;;
             Ok (m + 1)
           else Ok 0
         else
           match py_vector_type py3 with
           | None => Raise AssertionError
           | Some vt => resolve_dimensionality (py_primal py3) context vt
           end) ;;
   Ok (set_call_dimensionality (Some k) (set_python py3 self)))%result.

(** [BoundVariable.apply_implicit_vectorization]: children first. *)
Fixpoint apply_implicit_vectorization (context : BindContext) (self : BoundVariable)
  : result BoundVariable :=
  match children self with
  | None => _apply_implicit_vectorization context self
  | Some cs =>
      (cs' <- dict_mapM (apply_implicit_vectorization context) cs ;;
       _apply_implicit_vectorization context (set_children (Some cs') self))%result
  end.

(** ** Finalization of the mappings *)

(** [BoundVariable._finalize_mappings] *)
Definition _finalize_mappings (context : BindContext) (self : BoundVariable)
  : BoundVariable :=
  let k :=
    match call_dimensionality self with
    | None => ctx_call_dimensionality context
    | Some k => k
    end in
  let self1 := set_call_dimensionality (Some k) self in
  if negb (Shape.valid (py_vector_mapping (python self1))) then
    let m := map (fun i => ctx_call_dimensionality context - i - 1) (range k) in
    let m := rev m in
    set_python (set_vector_mapping (Shape.make m) (python self1)) self1
  else self1.

(** [BoundVariable.finalize_mappings]: children first. *)
Fixpoint finalize_mappings (context : BindContext) (self : BoundVariable)
  : BoundVariable :=
  match children self with
  | None => _finalize_mappings context self
  | Some cs =>
      _finalize_mappings context
        (set_children
           (Some (map (fun nc => (fst nc, finalize_mappings context (snd nc))) cs))
           self)
  end.

(** ** Code generation *)

(** [python.primal.gen_calldata(cgb, context, binding)]: implemented per
    marshalling type; it appends to the block it is given and may raise. *)
Variable gen_calldata :
  T -> CodeGenBlock -> BindContext -> BoundVariable -> CodeGenBlock * result unit.

(** Calls on [cg.call_data_structs] and on [cg.call_data]. *)
Definition emit (ops : list CodeGenOp) : SE CodeGen unit :=
  smodify (fun cg => {| call_data_structs := call_data_structs cg ++ ops;
                        call_data := call_data cg |}).

Definition emit_call_data (ops : list CodeGenOp) : SE CodeGen unit :=
  smodify (fun cg => {| call_data_structs := call_data_structs cg;
                        call_data := call_data cg ++ ops |}).

Fixpoint sforeach {S A} (f : A -> SE S unit) (l : list A) : SE S unit :=
  match l with
  | [] => sret tt
  | a :: r => (f a ;;; sforeach f r)%se
  end.

(** [BoundVariable._get_access]: [self.access[prim.value]] *)
Definition _get_access (self : BoundVariable) (prim : PrimType.t) : AccessType.t :=
  match PrimType.value prim with
  | O => fst (access self)
  | _ => snd (access self)
  end.

(** An entry of [names]:
    [(field, variable_name, primal_type_name, derivative_type_name)] *)
Definition name_entry := (string * string * string * option string)%type.
Definition name0 (n : name_entry) : string := fst (fst (fst n)).
Definition name1 (n : name_entry) : string := snd (fst (fst n)).
Definition name2 (n : name_entry) : string := snd (fst n).

(** The body of [for prim in PrimType] in the composite branch. *)
Definition gen_aggregate_accessors (self : BoundVariable) (names : list name_entry)
    (prim : PrimType.t) : SE CodeGen unit :=
  if AccessType.eqb (_get_access self prim) AccessType.none then sret tt
  else
    match vector_type self with
    | None => sraise (AttributeError "'NoneType' object has no attribute 'name'")
    | Some vt =>
        let prim_name := PrimType.name prim in
        let prim_type_name :=
          match prim with
          | PrimType.primal => type_name vt
          | _ => type_name vt ++ ".Differential"
          end%string in
        emit
          ([ empty_line; empty_line;
             append_line ("void load_" ++ prim_name ++ "(IContext context, out "
                          ++ prim_type_name ++ " value)")%string;
             begin_block ]
           ++ flat_map (fun name =>
                [ declare (name2 name) (name0 name);
                  append_statement
                    ("this." ++ name1 name ++ ".load_" ++ prim_name
                     ++ "(ctx(context, _m_" ++ name1 name ++ ")," ++ name0 name ++ ")")%string;
                  assign ("value." ++ name0 name)%string (name0 name) ]) names
           ++ [ end_block; empty_line;
                append_line ("void store_" ++ prim_name ++ "(IContext context, in "
                             ++ prim_type_name ++ " value)")%string;
                begin_block ]
           ++ map (fun name =>
                append_statement
                  ("this." ++ name1 name ++ ".store_" ++ prim_name
                   ++ "(ctx(context, _m_" ++ name1 name ++ "),value." ++ name0 name ++ ")")%string)
                names
           ++ [ end_block ])
    end.

(** The [static const] line declaring the mapping of a variable. *)
Definition mapping_statement (variable_name : string) (m : list Z) : CodeGenOp :=
  if (0 <? Z.of_nat (length m)) then
    append_statement ("static const int[] _m_" ++ variable_name ++ " = { "
                      ++ join_ints m ++ " }")%string
  else
    append_statement ("static const int _m_" ++ variable_name ++ " = 0")%string.

Definition is_write_access (a : AccessType.t) : bool :=
  AccessType.eqb a AccessType.write || AccessType.eqb a AccessType.readwrite.

(** The leaf branch after the writability check. *)
Definition gen_leaf_call_data (self : BoundVariable) (context : BindContext)
  : SE CodeGen unit :=
  ((fun cg =>
      let '(cgb, r) := gen_calldata (py_primal (python self))
                         (call_data_structs cg) context self in
      ({| call_data_structs := cgb; call_data := call_data cg |}, r)) ;;;
   m <- slift (Shape.as_tuple (vector_mapping self)) ;;
   emit [mapping_statement (variable_name self) m])%se.

(** [BoundVariable.gen_call_data_code]; the result is [self.variable_name],
    which the caller tests against [None]. *)
Fixpoint gen_call_data_code (self : BoundVariable) (context : BindContext)
    (depth : Z) : SE CodeGen (option string) :=
  (match children self with
   | Some cs =>
       emit [begin_struct ("_t_" ++ variable_name self)%string] ;;;
       names <- (fix items (l : dict BoundVariable) : SE CodeGen (list name_entry) :=
                   match l with
                   | [] => sret []
                   | (field, variable) :: r =>
                       variable_name <- gen_call_data_code variable context (depth + 1) ;;
                       rest <- items r ;;
                       sret match variable_name with
                            | Some vn =>
                                (field, vn, primal_type_name (slang variable),
                                 derivative_type_name (slang variable)) :: rest
                            | None => rest
                            end
                   end) cs ;;
       emit (map (fun name => declare ("_t_" ++ name1 name)%string (name1 name)) names) ;;;
       sforeach (gen_aggregate_accessors self names) PrimType.all ;;;
       emit [end_struct] ;;;
       emit [mapping_statement (variable_name self)
               (range (ctx_call_dimensionality context))]
   | None =>
       (if is_write_access (fst (access self)) && negb (py_writable (python self)) then
          if depth =? 0 then
            sraise (ValueError "Cannot read back value for non-writable type")
          else sret tt
        else sret tt) ;;;
       gen_leaf_call_data self context
   end ;;;
   (if depth =? 0 then
      emit_call_data [declare ("_t_" ++ variable_name self)%string (variable_name self)]
    else sret tt) ;;;
   sret (Some (variable_name self)))%se.

End Binding.

Arguments PythonVariable : clear implicits.
Arguments SlangVariable : clear implicits.
Arguments BoundVariable : clear implicits.

(** ** Bound calls *)

Section BoundCall.
Context {T : Type} {BT : BaseType T}.

Record BoundCall := {
  bc_args : list (BoundVariable T);
  bc_kwargs : dict (BoundVariable T)
}.

(** [BoundCall.values] *)
Definition values (self : BoundCall) : list (BoundVariable T) :=
  bc_args self ++ dict_values (bc_kwargs self).

Fixpoint list_mapM {A B} (f : A -> result B) (l : list A) : result (list B) :=
  match l with
  | [] => Ok []
  | a :: r => (b <- f a ;; r' <- list_mapM f r ;; Ok (b :: r'))%result
  end.

(** [BoundCall.apply_implicit_vectorization] *)
Definition BoundCall_apply_implicit_vectorization (context : BindContext)
    (self : BoundCall) : result BoundCall :=
  (args <- list_mapM (apply_implicit_vectorization context) (bc_args self) ;;
   kwargs <- dict_mapM (apply_implicit_vectorization context) (bc_kwargs self) ;;
   Ok {| bc_args := args; bc_kwargs := kwargs |})%result.

(** [BoundCall.finalize_mappings] *)
Definition BoundCall_finalize_mappings (context : BindContext) (self : BoundCall)
  : BoundCall :=
  {| bc_args := map (finalize_mappings context) (bc_args self);
     bc_kwargs := map (fun nc => (fst nc, finalize_mappings context (snd nc)))
                      (bc_kwargs self) |}.

End BoundCall.

Arguments BoundCall : clear implicits.

(** ** Host values and function chains *)

(** A host value as the pipeline sees it: an opaque object (with what its
    [get_this()] returns, when it has that attribute), a dictionary or a
    list. *)
Inductive PyValue :=
| PyObject (h : handle) (this : option PyValue)
| PyDict (d : list (string * PyValue))
| PyList (l : list PyValue).

(** [unpack_arg] *)
Fixpoint unpack_arg (arg : PyValue) : PyValue :=
  let arg :=
    match arg with
    | PyObject _ (Some this) => this
    | _ => arg
    end in
  match arg with
  | PyDict d => PyDict (map (fun kv => (fst kv, unpack_arg (snd kv))) d)
  | PyList l => PyList (map unpack_arg l)
  | _ => arg
  end.

(** A [Function] object, with the attributes set by [Function.__init__]
    that [CallData] reads: [module] and [name]. The constructor also sets
    [type_parent], [overloads] and [slangpy_signature] ([Function_init]
    below), which [CallData] does not read. *)
Record FunctionObj := {
  fn_module : handle;
  fn_name : string
}.

(** [function.options], [function.reflections] and
    [function.type_reflection], which [CallData] reads: [Function.__init__]
    sets no such attribute, and [function.py] declares no class derived from
    [Function], so the lookup raises. *)
Definition Function_getattr (attr : string) : result handle :=
  Raise (AttributeError ("'Function' object has no attribute '" ++ attr ++ "'")).

(** The names that [function.py] binds at module level, in order. *)
Definition function_module : list string :=
  ["Any"; "Callable"; "Optional"; "Protocol"; "TYPE_CHECKING"; "SlangFunction";
   "SlangModule"; "DeclReflection"; "TypeReflection"; "FunctionReflection";
   "slangpynative"; "TConcreteShape"; "PYTHON_SIGNATURES";
   "ENABLE_CALLDATA_CACHE"; "CALL_DATA_CACHE"; "_cache_value_to_id"; "IThis";
   "FunctionChainBase"; "FunctionChainSet"; "FunctionChainInputTransform";
   "FunctionChainOutputTransform"; "FunctionChainThis"; "FunctionChainBwdsDiff";
   "Function"].

(** The names that [CallData.__init__] imports from [function.py] at the
    head of its [try] block. *)
Definition imported_names : list string :=
  ["Function"; "FunctionChainBwdsDiff"; "FunctionChainOutputTransform";
   "FunctionChainSet"; "FunctionChainHook"; "FunctionChainReturnType";
   "FunctionChainMap"].

(** [from module import names]: each name is looked up in turn among those
    the module binds; the first one missing raises [ImportError] (the
    message of the interpreter goes on with the path of the file). *)
Fixpoint import_from (module : string) (bound names : list string) : result unit :=
  match names with
  | [] => Ok tt
  | n :: r =>
      if existsb (String.eqb n) bound then import_from module bound r
      else Raise (ImportError ("cannot import name '" ++ n ++ "' from '"
                               ++ module ++ "'"))
  end.

(** The classes of chain entries; [FunctionChainHook], [FunctionChainReturnType]
    and [FunctionChainMap] are the ones [CallData] tests for besides those
    declared in [function.py], which declares none of the three. *)
Inductive ChainKind :=
| Function (f : FunctionObj)
| FunctionChainSet (props : option (dict PyValue)) (callback : option handle)
| FunctionChainInputTransform (transforms : dict Shape.t)
| FunctionChainOutputTransform (transforms : dict Shape.t)
| FunctionChainThis (this : PyValue)
| FunctionChainBwdsDiff
| FunctionChainHook (before_dispatch after_dispatch : option handle)
| FunctionChainReturnType (return_type : handle)
| FunctionChainMap (args : list PyValue) (kwargs : dict PyValue)
| FunctionChainOther.

Inductive FunctionChainBase := mkFunctionChain {
  kind : ChainKind;
  parent : option FunctionChainBase
}.

(** [current = self; while current is not None: ...; current = current.parent] *)
Fixpoint ancestors (self : FunctionChainBase) : list FunctionChainBase :=
  self :: match parent self with
          | None => []
          | Some p => ancestors p
          end.

(** The first [FunctionChainThis] on the way to the root. *)
Fixpoint find_this (self : FunctionChainBase) : option PyValue :=
  match kind self with
  | FunctionChainThis this => Some this
  | _ => match parent self with
         | None => None
         | Some p => find_this p
         end
  end.

(** [d.update(other)] *)
Definition dict_update {V} (d other : dict V) : dict V :=
  fold_left (fun acc kv => dict_set (fst kv) (snd kv) acc) other d.

Definition nl : string := String (ascii_of_nat 10) EmptyString.

(** [re.sub(r"[<>, ]", "_", name)] *)
Fixpoint sanitize (s : string) : string :=
  match s with
  | EmptyString => EmptyString
  | String c r =>
      String (if (Ascii.eqb c "<" || Ascii.eqb c ">" || Ascii.eqb c "," || Ascii.eqb c " ")%char
              then "_"%char else c)
             (sanitize r)
  end.

(** ** Specialization results *)

(** Modelled from the spec: [SlangFunction] and [MismatchReason] are declared
    in [core/slangvariable.py] and [callsignature.py]; a chosen overload
    carries its differentiable modifier, its return type and its reflection,
    a mismatch carries a human-readable reason. *)
Record SlangFunction := {
  sf_differentiable : bool;
  return_type_full_name : string;
  sf_reflection : handle
}.

Record MismatchReason := { reason : string }.

Section Pipeline.
Context {W T : Type} {BT : BaseType T}.

(** Modelled from the spec: [PythonFunctionCall] is declared in
    [core/pythonvariable.py]; the host-side signature mirrors the call's
    positional and keyword arguments. *)
Record PythonFunctionCall := {
  pc_args : list (PythonVariable T);
  pc_kwargs : dict (PythonVariable T)
}.

Definition set_pc_kwargs (k : dict (PythonVariable T)) (pc : PythonFunctionCall) :=
  {| pc_args := pc_args pc; pc_kwargs := k |}.

(** [CallData] objects; [cd_id] is the identity of the object. *)
Record CallData := {
  cd_id : nat;
  cd_call_mode : CallMode.t;
  cd_vars : dict PyValue;
  cd_layout : option handle;
  cd_call_dimensionality : option Z;
  before_dispatch_hooks : list handle;
  after_dispatch_hooks : list handle;
  cd_kernel : option handle;
  cd_device : option handle;
  debug_only_bindings : option (BoundCall T);
  cd_runtime : option handle
}.

(** [NativeCallData.__init__]: a fresh object with nothing set. *)
Definition CallData_empty (id : nat) : CallData :=
  {| cd_id := id; cd_call_mode := CallMode.prim; cd_vars := [];
     cd_layout := None; cd_call_dimensionality := None;
     before_dispatch_hooks := []; after_dispatch_hooks := [];
     cd_kernel := None; cd_device := None; debug_only_bindings := None;
     cd_runtime := None |}.

End Pipeline.

Arguments PythonFunctionCall : clear implicits.
Arguments CallData : clear implicits.

(** The phases of [kernelfunctions.callsignature]. Each acts on the world of
    the collaborators and may raise. The phases that run on the binding tree
    mutate host-side nodes shared with [python_call]; they receive and return
    both. *)
Module callsignature.
Class t (W T : Type) := {
  apply_explicit_vectorization :
    BindContext -> PythonFunctionCall T -> list PyValue -> dict PyValue ->
    SE W (PythonFunctionCall T);
  specialize :
    BindContext -> PythonFunctionCall T -> handle -> handle ->
    SE W (PythonFunctionCall T * (SlangFunction + MismatchReason));
  bind :
    BindContext -> PythonFunctionCall T -> SlangFunction -> SE W (BoundCall T);
  apply_implicit_vectorization :
    BindContext -> PythonFunctionCall T * BoundCall T ->
    SE W (PythonFunctionCall T * BoundCall T);
  calculate_call_dimensionality : BoundCall T -> SE W Z;
  create_return_value_binding :
    BindContext -> PythonFunctionCall T * BoundCall T -> option handle ->
    SE W (PythonFunctionCall T * BoundCall T);
  finalize_mappings :
    BindContext -> PythonFunctionCall T * BoundCall T ->
    SE W (PythonFunctionCall T * BoundCall T);
  validate_specialize :
    BindContext -> PythonFunctionCall T -> SlangFunction -> SE W unit;
  calculate_differentiability :
    BindContext -> PythonFunctionCall T * BoundCall T ->
    SE W (PythonFunctionCall T * BoundCall T);
  generate_code :
    BindContext -> FunctionObj -> BoundCall T -> CodeGen -> SE W CodeGen
}.
End callsignature.

(** The remaining collaborators of [calldata.py] and [function.py]. *)
Class Collaborators (W T : Type) := {
  (* function.py *)
  PYTHON_SIGNATURES : PyValue -> result (option (PyValue -> result string));
  hash_signature :
    (PyValue -> result string) -> FunctionChainBase -> option PyValue ->
    list PyValue -> dict PyValue -> result string;
  (* host-side signature *)
  PythonFunctionCall_new :
    BindContext -> list PyValue -> dict PyValue -> SE W (PythonFunctionCall T);
  PythonVariable_new :
    BindContext -> option PyValue -> option Z -> option string ->
    SE W (PythonVariable T);
  has_implicit_args : PythonFunctionCall T -> bool;
  has_implicit_mappings : PythonFunctionCall T -> bool;
  (* chain callbacks *)
  run_callback : handle -> CallData T -> SE W (dict PyValue);
  (* reflection, session and device *)
  SlangProgramLayout_new : handle -> SE W handle;
  module_name : handle -> string;
  module_session : handle -> handle;
  session_device : handle -> handle;
  load_module_from_source : handle -> string -> string -> SE W handle;
  entry_point : handle -> string -> SE W handle;
  link_program : handle -> list handle -> list handle -> SE W handle;
  create_compute_kernel : handle -> handle -> SE W handle;
  BoundCallRuntime_new : BoundCall T -> SE W handle;
  (* code emission and the debug copy of the shader *)
  codegen_finish : CodeGen -> SE W string;
  sha256_hexdigest16 : string -> string;
  makedirs : string -> SE W unit;
  write_file : string -> list string -> SE W unit;
  (* diagnostics *)
  mismatch_info : PythonFunctionCall T -> handle -> string;
  bound_call_table : BoundCall T -> string;
  python_exception_info :
    option (PythonFunctionCall T) -> handle -> option string -> string;
  bound_exception_info :
    option (BoundCall T) -> handle -> option string -> string
}.

(** ** [CallData.__init__] *)

Section CallData.
Context {W T : Type} {CS : callsignature.t W T} {CO : Collaborators W T}.

(** The world of the collaborators, the object under construction, and the
    local variables that the [except] clauses read. *)
Record InitState := {
  world : W;
  self : CallData T;
  l_function : option FunctionObj;
  l_python_call : option (PythonFunctionCall T);
  l_bindings : option (BoundCall T);
  l_slang_function : option SlangFunction
}.

Definition ext {A} (c : SE W A) : SE InitState A :=
  fun st =>
    let '(w, r) := c (world st) in
    ({| world := w; self := self st; l_function := l_function st;
        l_python_call := l_python_call st; l_bindings := l_bindings st;
        l_slang_function := l_slang_function st |}, r).

Definition update_self (f : CallData T -> CallData T) : SE InitState unit :=
  smodify (fun st =>
    {| world := world st; self := f (self st); l_function := l_function st;
       l_python_call := l_python_call st; l_bindings := l_bindings st;
       l_slang_function := l_slang_function st |}).

Definition assign_function (f : FunctionObj) : SE InitState unit :=
  smodify (fun st =>
    {| world := world st; self := self st; l_function := Some f;
       l_python_call := l_python_call st; l_bindings := l_bindings st;
       l_slang_function := l_slang_function st |}).

Definition assign_python_call (pc : PythonFunctionCall T) : SE InitState unit :=
  smodify (fun st =>
    {| world := world st; self := self st; l_function := l_function st;
       l_python_call := Some pc; l_bindings := l_bindings st;
       l_slang_function := l_slang_function st |}).

Definition assign_bindings (b : BoundCall T) : SE InitState unit :=
  smodify (fun st =>
    {| world := world st; self := self st; l_function := l_function st;
       l_python_call := l_python_call st; l_bindings := Some b;
       l_slang_function := l_slang_function st |}).

Definition assign_slang_function (sf : SlangFunction) : SE InitState unit :=
  smodify (fun st =>
    {| world := world st; self := self st; l_function := l_function st;
       l_python_call := l_python_call st; l_bindings := l_bindings st;
       l_slang_function := Some sf |}).

(** Attribute assignments on [self]. *)
Definition with_call_mode (m : CallMode.t) (c : CallData T) : CallData T :=
  {| cd_id := cd_id c; cd_call_mode := m; cd_vars := cd_vars c;
     cd_layout := cd_layout c; cd_call_dimensionality := cd_call_dimensionality c;
     before_dispatch_hooks := before_dispatch_hooks c;
     after_dispatch_hooks := after_dispatch_hooks c;
     cd_kernel := cd_kernel c; cd_device := cd_device c;
     debug_only_bindings := debug_only_bindings c; cd_runtime := cd_runtime c |}.

Definition with_vars (v : dict PyValue) (c : CallData T) : CallData T :=
  {| cd_id := cd_id c; cd_call_mode := cd_call_mode c; cd_vars := v;
     cd_layout := cd_layout c; cd_call_dimensionality := cd_call_dimensionality c;
     before_dispatch_hooks := before_dispatch_hooks c;
     after_dispatch_hooks := after_dispatch_hooks c;
     cd_kernel := cd_kernel c; cd_device := cd_device c;
     debug_only_bindings := debug_only_bindings c; cd_runtime := cd_runtime c |}.

Definition with_layout (l : handle) (c : CallData T) : CallData T :=
  {| cd_id := cd_id c; cd_call_mode := cd_call_mode c; cd_vars := cd_vars c;
     cd_layout := Some l; cd_call_dimensionality := cd_call_dimensionality c;
     before_dispatch_hooks := before_dispatch_hooks c;
     after_dispatch_hooks := after_dispatch_hooks c;
     cd_kernel := cd_kernel c; cd_device := cd_device c;
     debug_only_bindings := debug_only_bindings c; cd_runtime := cd_runtime c |}.

Definition with_call_dimensionality (d : Z) (c : CallData T) : CallData T :=
  {| cd_id := cd_id c; cd_call_mode := cd_call_mode c; cd_vars := cd_vars c;
     cd_layout := cd_layout c; cd_call_dimensionality := Some d;
     before_dispatch_hooks := before_dispatch_hooks c;
     after_dispatch_hooks := after_dispatch_hooks c;
     cd_kernel := cd_kernel c; cd_device := cd_device c;
     debug_only_bindings := debug_only_bindings c; cd_runtime := cd_runtime c |}.

Definition add_before_dispatch_hook (h : handle) (c : CallData T) : CallData T :=
  {| cd_id := cd_id c; cd_call_mode := cd_call_mode c; cd_vars := cd_vars c;
     cd_layout := cd_layout c; cd_call_dimensionality := cd_call_dimensionality c;
     before_dispatch_hooks := before_dispatch_hooks c ++ [h];
     after_dispatch_hooks := after_dispatch_hooks c;
     cd_kernel := cd_kernel c; cd_device := cd_device c;
     debug_only_bindings := debug_only_bindings c; cd_runtime := cd_runtime c |}.

Definition add_after_dispatch_hook (h : handle) (c : CallData T) : CallData T :=
  {| cd_id := cd_id c; cd_call_mode := cd_call_mode c; cd_vars := cd_vars c;
     cd_layout := cd_layout c; cd_call_dimensionality := cd_call_dimensionality c;
     before_dispatch_hooks := before_dispatch_hooks c;
     after_dispatch_hooks := after_dispatch_hooks c ++ [h];
     cd_kernel := cd_kernel c; cd_device := cd_device c;
     debug_only_bindings := debug_only_bindings c; cd_runtime := cd_runtime c |}.

Definition with_kernel (k d : handle) (b : BoundCall T) (c : CallData T) : CallData T :=
  {| cd_id := cd_id c; cd_call_mode := cd_call_mode c; cd_vars := cd_vars c;
     cd_layout := cd_layout c; cd_call_dimensionality := cd_call_dimensionality c;
     before_dispatch_hooks := before_dispatch_hooks c;
     after_dispatch_hooks := after_dispatch_hooks c;
     cd_kernel := Some k; cd_device := Some d;
     debug_only_bindings := Some b; cd_runtime := cd_runtime c |}.

Definition with_runtime (r : handle) (c : CallData T) : CallData T :=
  {| cd_id := cd_id c; cd_call_mode := cd_call_mode c; cd_vars := cd_vars c;
     cd_layout := cd_layout c; cd_call_dimensionality := cd_call_dimensionality c;
     before_dispatch_hooks := before_dispatch_hooks c;
     after_dispatch_hooks := after_dispatch_hooks c;
     cd_kernel := cd_kernel c; cd_device := cd_device c;
     debug_only_bindings := debug_only_bindings c; cd_runtime := Some r |}.

(** The locals filled by the loop over the chain. *)
Record ChainSettings := {
  sets : dict PyValue;
  outut_transforms : dict Shape.t;
  return_type : option handle;
  positional_mapping : list PyValue;
  keyword_mapping : dict PyValue
}.

Definition ChainSettings_initial : ChainSettings :=
  {| sets := []; outut_transforms := []; return_type := None;
     positional_mapping := []; keyword_mapping := [] |}.

(** One iteration of [for item in chain]. *)
Definition scan_item (item : FunctionChainBase) (cs : ChainSettings)
  : SE InitState ChainSettings :=
  match kind item with
  | FunctionChainSet props callback =>
      match props, callback with
      | Some p, _ =>
          sret {| sets := dict_update (sets cs) p;
                  outut_transforms := outut_transforms cs;
                  return_type := return_type cs;
                  positional_mapping := positional_mapping cs;
                  keyword_mapping := keyword_mapping cs |}
      | None, Some cb =>
          (st <- sget ;;
           r <- ext (run_callback cb (self st)) ;;
           sret {| sets := dict_update (sets cs) r;
                   outut_transforms := outut_transforms cs;
                   return_type := return_type cs;
                   positional_mapping := positional_mapping cs;
                   keyword_mapping := keyword_mapping cs |})%se
      | None, None =>
          sraise (KernelGenException
                    "FunctionChainSet must have either a props or callback")
      end
  | FunctionChainOutputTransform transforms =>
      sret {| sets := sets cs;
              outut_transforms := dict_update (outut_transforms cs) transforms;
              return_type := return_type cs;
              positional_mapping := positional_mapping cs;
              keyword_mapping := keyword_mapping cs |}
  | FunctionChainBwdsDiff =>
      (update_self (with_call_mode CallMode.bwds) ;;; sret cs)%se
  | FunctionChainHook before_dispatch after_dispatch =>
      (match before_dispatch with
       | Some h => update_self (add_before_dispatch_hook h)
       | None => sret tt
       end ;;;
       match after_dispatch with
       | Some h => update_self (add_after_dispatch_hook h)
       | None => sret tt
       end ;;;
       sret cs)%se
  | FunctionChainReturnType rt =>
      sret {| sets := sets cs; outut_transforms := outut_transforms cs;
              return_type := Some rt;
              positional_mapping := positional_mapping cs;
              keyword_mapping := keyword_mapping cs |}
  | FunctionChainMap args kwargs =>
      sret {| sets := sets cs; outut_transforms := outut_transforms cs;
              return_type := return_type cs;
              positional_mapping := args; keyword_mapping := kwargs |}
  | _ => sret cs
  end.

Fixpoint scan_chain (chain : list FunctionChainBase) (cs : ChainSettings)
  : SE InitState ChainSettings :=
  match chain with
  | [] => sret cs
  | item :: r => (cs' <- scan_item item cs ;; scan_chain r cs')%se
  end.

(** What the later stages need from the first one. *)
Record Resolved := {
  r_function : FunctionObj;
  r_context : BindContext;
  r_python_call : PythonFunctionCall T;
  r_slang_function : SlangFunction;
  r_return_type : option handle
}.

(** From [bindings = None] in the [try] block to the chosen overload. *)
Definition CallData_resolve (chain : list FunctionChainBase)
    (args : list PyValue) (kwargs : dict PyValue) : SE InitState Resolved :=
  (match chain with
   | {| kind := Function function |} :: _ =>
       update_self (with_call_mode CallMode.prim) ;;;
       assign_function function ;;;
       cs <- scan_chain chain ChainSettings_initial ;;
       update_self (with_vars (sets cs)) ;;;
       layout <- ext (SlangProgramLayout_new (fn_module function)) ;;
       update_self (with_layout layout) ;;;
       let unpacked_args := map unpack_arg args in
       let unpacked_kwargs := map (fun kv => (fst kv, unpack_arg (snd kv))) kwargs in
       st <- sget ;;
       options <- slift (Function_getattr "options") ;;
       let context :=
         {| layout := layout; call_mode := cd_call_mode (self st);
            device_module := fn_module function; options := options;
            ctx_call_dimensionality := 0 |} in
       python_call <- ext (PythonFunctionCall_new context unpacked_args unpacked_kwargs) ;;
       assign_python_call python_call ;;;
       python_call <- ext (callsignature.apply_explicit_vectorization context python_call
                             (positional_mapping cs) (keyword_mapping cs)) ;;
       assign_python_call python_call ;;;
       reflections <- slift (Function_getattr "reflections") ;;
       type_reflection <- slift (Function_getattr "type_reflection") ;;
       sp <- ext (callsignature.specialize context python_call
                    reflections type_reflection) ;;
       assign_python_call (fst sp) ;;;
       match snd sp with
       | inr mismatch =>
           reflections <- slift (Function_getattr "reflections") ;;
           sraise (KernelGenException
                     ("Function signature mismatch: " ++ reason mismatch ++ nl ++ nl
                      ++ mismatch_info (fst sp) reflections ++ nl))
       | inl slang_function =>
           assign_slang_function slang_function ;;;
           sret {| r_function := function; r_context := context;
                   r_python_call := fst sp; r_slang_function := slang_function;
                   r_return_type := return_type cs |}
       end
   | [] => sraise (IndexError "list index out of range")
   | _ :: _ =>
       sraise (KernelGenException "First entry in chain should be a function")
   end)%se%string.

(** [# Check for differentiability error] *)
Definition check_differentiable (r : Resolved) : SE InitState unit :=
  (st <- sget ;;
   if negb (sf_differentiable (r_slang_function r))
      && negb (CallMode.eqb (cd_call_mode (self st)) CallMode.prim)
   then
     reflections <- slift (Function_getattr "reflections") ;;
     sraise (KernelGenException
               ("Could not call function 'polynomial': Function is not differentiable"
                ++ nl ++ nl
                ++ mismatch_info (r_python_call r) reflections
                ++ nl))
   else sret tt)%se%string.

(** [# Inject a dummy node into the Python signature if we need a result back] *)
Definition inject_result (kwargs : dict PyValue) (r : Resolved)
  : SE InitState (PythonFunctionCall T) :=
  (st <- sget ;;
   if CallMode.eqb (cd_call_mode (self st)) CallMode.prim
      && negb (dict_mem "_result" kwargs)
      && negb (String.eqb (return_type_full_name (r_slang_function r)) "void")
   then
     rvalnode <- ext (PythonVariable_new (r_context r) None None (Some "_result")) ;;
     let python_call :=
       set_pc_kwargs (dict_set "_result" rvalnode (pc_kwargs (r_python_call r)))
                     (r_python_call r) in
     assign_python_call python_call ;;;
     sret python_call
   else sret (r_python_call r))%se.

Definition sync (pb : PythonFunctionCall T * BoundCall T) : SE InitState unit :=
  (assign_python_call (fst pb) ;;; assign_bindings (snd pb))%se.

(** From [bind] to the end of the [try] block. *)
Definition CallData_generate (r : Resolved) (python_call : PythonFunctionCall T)
  : SE InitState unit :=
  (let function := r_function r in
   let context := r_context r in
   let slang_function := r_slang_function r in
   bindings <- ext (callsignature.bind context python_call slang_function) ;;
   assign_bindings bindings ;;;
   pb <- ext (callsignature.apply_implicit_vectorization context (python_call, bindings)) ;;
   sync pb ;;;
   (if has_implicit_args (fst pb) then sraise AssertionError else sret tt) ;;;
   d <- ext (callsignature.calculate_call_dimensionality (snd pb)) ;;
   update_self (with_call_dimensionality d) ;;;
   let context := set_ctx_call_dimensionality d context in
   pb <- ext (callsignature.create_return_value_binding context pb (r_return_type r)) ;;
   sync pb ;;;
   pb <- ext (callsignature.finalize_mappings context pb) ;;
   sync pb ;;;
   (if has_implicit_mappings (fst pb) then sraise AssertionError else sret tt) ;;;
   ext (callsignature.validate_specialize context (fst pb) slang_function) ;;;
   pb <- ext (callsignature.calculate_differentiability context pb) ;;
   sync pb ;;;
   let bindings := snd pb in
   codegen <- ext (callsignature.generate_code context function bindings
                     {| call_data_structs := []; call_data := [] |}) ;;
   code <- ext (codegen_finish codegen) ;;
   ext (makedirs ".temp") ;;;
   let sanitized := sanitize (fn_name function) in
   st <- sget ;;
   let fn := (".temp/" ++ module_name (fn_module function) ++ "_" ++ sanitized
              ++ (if CallMode.eqb (cd_call_mode (self st)) CallMode.bwds
                  then "_backwards" else "")
              ++ ".slang")%string in
   ext (write_file fn [("/*" ++ nl)%string; bound_call_table bindings;
                       (nl ++ "*/" ++ nl)%string; code]) ;;;
   let session := module_session (fn_module function) in
   let device := session_device session in
   module <- ext (load_module_from_source session (sha256_hexdigest16 code) code) ;;
   ep <- ext (entry_point module "main") ;;
   program <- ext (link_program session [module; fn_module function] [ep]) ;;
   kernel <- ext (create_compute_kernel device program) ;;
   update_self (with_kernel kernel device bindings) ;;;
   runtime <- ext (BoundCallRuntime_new bindings) ;;
   update_self (with_runtime runtime))%se.

(** The [try] block. *)
Definition CallData_try (chain : list FunctionChainBase)
    (args : list PyValue) (kwargs : dict PyValue) : SE InitState unit :=
  (r <- CallData_resolve chain args kwargs ;;
   check_differentiable r ;;;
   python_call <- inject_result kwargs r ;;
   CallData_generate r python_call)%se.

(** [str(e)]: the message the exception was raised with; the [repr] of the
    key for a [KeyError]; for an [UnboundLocalError] the message of the
    interpreter (as of CPython 3.11). *)
Definition exn_str (e : exn) : string :=
  match e with
  | AssertionError | KeyboardInterrupt | SystemExit => ""
  | KeyError k => "'" ++ k ++ "'"
  | ValueError m | AttributeError m | KernelGenException m | IndexError m
  | SlangCompileError m | ImportError m | TypeError m | OtherException m => m
  | UnboundLocalError n =>
      "cannot access local variable '" ++ n
      ++ "' where it is not associated with a value"
  | PythonVariableException m _ | BoundVariableException m _ => m
  end%string.

Definition local_function : SE InitState FunctionObj :=
  (st <- sget ;;
   match l_function st with
   | Some f => sret f
   | None => sraise (UnboundLocalError "function")
   end)%se.

Definition local_slang_function : SE InitState SlangFunction :=
  (st <- sget ;;
   match l_slang_function st with
   | Some f => sret f
   | None => sraise (UnboundLocalError "slang_function")
   end)%se.

(** The [except] clauses, in order, for an exception raised after
    [bindings = None] and [python_call = None]; each re-raises, and an
    exception that is no [Exception] is caught by none. *)
Definition CallData_except (e : exn) : SE InitState unit :=
  (st <- sget ;;
   match e with
   | PythonVariableException message variable =>
       function <- local_function ;;
       reflections <- slift (Function_getattr "reflections") ;;
       sraise (ValueError
                 (message ++ nl ++ nl
                  ++ python_exception_info (l_python_call st)
                       reflections (Some variable) ++ nl))
   | BoundVariableException message variable =>
       slang_function <- local_slang_function ;;
       sraise (ValueError
                 (message ++ nl ++ nl
                  ++ bound_exception_info (l_bindings st)
                       (sf_reflection slang_function) (Some variable) ++ nl))
   | SlangCompileError message =>
       slang_function <- local_slang_function ;;
       sraise (ValueError
                 ("Slang compilation error: " ++ message ++ nl
                  ++ ". See .temp directory for generated shader." ++ nl
                  ++ "This most commonly occurs as a result of an invalid explicit type cast, or bug in implicit casting logic."
                  ++ nl
                  ++ bound_exception_info (l_bindings st)
                       (sf_reflection slang_function) None ++ nl))
   | KernelGenException message =>
       match l_bindings st with
       | None =>
           function <- local_function ;;
           reflections <- slift (Function_getattr "reflections") ;;
           sraise (ValueError
                     ("Exception in kernel generation: " ++ message ++ nl ++ "."
                      ++ python_exception_info (l_python_call st)
                           reflections None ++ nl))
       | Some _ =>
           slang_function <- local_slang_function ;;
           sraise (ValueError
                     ("Exception in kernel generation: " ++ message ++ nl ++ "."
                      ++ bound_exception_info (l_bindings st)
                           (sf_reflection slang_function) None ++ nl))
       end
   | KeyboardInterrupt | SystemExit => sraise e
   | _ =>
       match l_bindings st, l_python_call st with
       | Some _, _ =>
           slang_function <- local_slang_function ;;
           sraise (ValueError
                     ("Exception in kernel generation: " ++ exn_str e ++ nl ++ "."
                      ++ bound_exception_info (l_bindings st)
                           (sf_reflection slang_function) None ++ nl))
       | None, Some _ =>
           function <- local_function ;;
           reflections <- slift (Function_getattr "reflections") ;;
           sraise (ValueError
                     ("Exception in kernel generation: " ++ exn_str e ++ nl ++ "."
                      ++ python_exception_info (l_python_call st)
                           reflections None ++ nl))
       | None, None => sraise e
       end
   end)%se%string.

(** The [except] clauses for an exception of the import, which is raised
    before [bindings = None] and [python_call = None]: the clause that
    catches it reads a local that is not bound yet, [python_call] in the
    first clause and [bindings] in the others. *)
Definition CallData_except_import (e : exn) : SE InitState unit :=
  match e with
  | PythonVariableException _ _ => sraise (UnboundLocalError "python_call")
  | KeyboardInterrupt | SystemExit => sraise e
  | _ => sraise (UnboundLocalError "bindings")
  end.

(** [CallData.__init__]: the import at the head of the [try] block, the
    rest of the block, and the [except] clauses. *)
Definition CallData_init (chain : list FunctionChainBase)
    (args : list PyValue) (kwargs : dict PyValue) : SE InitState unit :=
  fun st =>
    match import_from "kernelfunctions.function" function_module imported_names with
    | Raise e => CallData_except_import e st
    | Ok tt =>
        match CallData_try chain args kwargs st with
        | (st', Ok tt) => (st', Ok tt)
        | (st', Raise e) => CallData_except e st'
        end
    end.

(** ** The call cache ([function.py]) *)

(** The process: the module-level cache, the world of the collaborators and
    the number of [CallData] objects constructed so far, which names the
    next one. *)
Record Process := {
  CALL_DATA_CACHE : gmap string (CallData T);
  proc_world : W;
  constructed : nat
}.

Definition ENABLE_CALLDATA_CACHE : bool := true.

(** [_cache_value_to_id] *)
Definition _cache_value_to_id (val : PyValue) : result string :=
  (cb <- PYTHON_SIGNATURES val ;;
   match cb with
   | None => Ok ""
   | Some cb => cb val
   end)%result.

(** [CallData(chain, *args, **kwargs)]: allocate the object, run
    [__init__] on it. *)
Definition InitState_initial (p : Process) : InitState :=
  {| world := proc_world p; self := CallData_empty (constructed p);
     l_function := None; l_python_call := None;
     l_bindings := None; l_slang_function := None |}.

Definition CallData_new (chain : list FunctionChainBase)
    (args : list PyValue) (kwargs : dict PyValue) : SE Process (CallData T) :=
  fun p =>
    let '(st, r) := CallData_init chain args kwargs (InitState_initial p) in
    ({| CALL_DATA_CACHE := CALL_DATA_CACHE p; proc_world := world st;
        constructed := S (constructed p) |},
     match r with
     | Ok _ => Ok (self st)
     | Raise e => Raise e
     end).

Definition cache_store (sig : string) (res : CallData T) : SE Process unit :=
  smodify (fun p =>
    {| CALL_DATA_CACHE := <[sig := res]> (CALL_DATA_CACHE p);
       proc_world := proc_world p; constructed := constructed p |}).

(** [FunctionChainBase._build_call_data] *)
Definition _build_call_data (self : FunctionChainBase)
    (args : list PyValue) (kwargs : dict PyValue) : SE Process (CallData T) :=
  (let this := find_this self in
   sig <- slift (hash_signature _cache_value_to_id self this args kwargs) ;;
   p <- sget ;;
   if ENABLE_CALLDATA_CACHE && bool_decide (is_Some (CALL_DATA_CACHE p !! sig)) then
     match CALL_DATA_CACHE p !! sig with
     | Some res => sret res
     | None => sraise (KeyError sig)
     end
   else
     let chain := rev (ancestors self) in
     res <- CallData_new chain args kwargs ;;
     (if ENABLE_CALLDATA_CACHE then cache_store sig res else sret tt) ;;;
     sret res)%se.

(** The part of [_build_call_data] that follows a cache miss. *)
Definition build_on_miss (self : FunctionChainBase) (args : list PyValue)
    (kwargs : dict PyValue) (sig : string) : SE Process (CallData T) :=
  (res <- CallData_new (rev (ancestors self)) args kwargs ;;
   cache_store sig res ;;;
   sret res)%se.

(** A call made through a chain object. *)
Record Call := {
  callee : FunctionChainBase;
  call_args : list PyValue;
  call_kwargs : dict PyValue
}.

Definition signature_of (c : Call) : result string :=
  hash_signature _cache_value_to_id (callee c) (find_this (callee c))
    (call_args c) (call_kwargs c).

(** The process after a sequence of calls, whatever each one returned or
    raised. *)
Fixpoint run_calls (cs : list Call) (p : Process) : Process :=
  match cs with
  | [] => p
  | c :: r =>
      run_calls r (fst (_build_call_data (callee c) (call_args c) (call_kwargs c) p))
  end.

(** Whether a call entered the constructor of [CallData], which holds the
    pipeline. *)
Definition pipeline_ran (p p' : Process) : bool :=
  negb (constructed p' =? constructed p)%nat.

Definition has_signature (c : Call) (sig : string) : bool :=
  match signature_of c with
  | Ok s => String.eqb s sig
  | Raise _ => false
  end.

(** The number of calls of a sequence, with a given signature, for which the
    constructor was entered and returned. *)
Fixpoint completed_runs (sig : string) (cs : list Call) (p : Process) : nat :=
  match cs with
  | [] => 0%nat
  | c :: r =>
      let '(p', res) := _build_call_data (callee c) (call_args c) (call_kwargs c) p in
      ((if has_signature c sig && pipeline_ran p p' && is_ok res then 1 else 0)
       + completed_runs sig r p')%nat
  end.

End CallData.


(** ** The statements of the specification

    Definitions that follow the words of the specification, to be compared
    with the code, and the names of the loops that the proofs reason about. *)

(** The access table of the specification, row by row; forward mode is
    reserved and gives [none] twice. *)
Definition spec_access_table (mode : CallMode.t) (differentiable : bool)
    (io : IOType.t) : AccessType.t * AccessType.t :=
  match mode, differentiable, io with
  | CallMode.prim, _, IOType.inn => (AccessType.read, AccessType.none)
  | CallMode.prim, _, IOType.out => (AccessType.write, AccessType.none)
  | CallMode.prim, _, IOType.inout => (AccessType.readwrite, AccessType.none)
  | CallMode.bwds, true, IOType.inn => (AccessType.read, AccessType.write)
  | CallMode.bwds, true, IOType.out => (AccessType.none, AccessType.read)
  | CallMode.bwds, true, IOType.inout => (AccessType.read, AccessType.readwrite)
  | CallMode.bwds, false, IOType.inn => (AccessType.read, AccessType.none)
  | CallMode.bwds, false, IOType.out => (AccessType.none, AccessType.none)
  | CallMode.bwds, false, IOType.inout => (AccessType.read, AccessType.none)
  | CallMode.fwds, _, _ => (AccessType.none, AccessType.none)
  end.

(** [m] is the largest element of [l]. *)
Definition is_max (m : Z) (l : list Z) : Prop :=
  In m l /\ Forall (fun x => x <= m) l.

Section Statements.
Context {T : Type} {BT : BaseType T}.
Implicit Types (b : BoundVariable T) (context : BindContext).

(** The differentiability rule of the specification: the kernel side does
    not mark the node no-derivative, it exposes a derivative type, and the
    host side reports its value as differentiable. *)
Definition spec_differentiable (sl : SlangVariable T) (py : PythonVariable T) : Prop :=
  no_diff sl = false /\ is_Some (sl_derivative sl) /\ py_differentiable py = true.

(** The expression assigned to [self.differentiable]. *)
Definition differentiable_rule b : bool :=
  negb (no_diff (slang b))
  && (match sl_derivative (slang b) with Some _ => true | None => false end)
  && py_differentiable (python b).

(** A node whose flag and access pair agree with the rule and the table. *)
Definition node_settled context b : Prop :=
  differentiable b = differentiable_rule b
  /\ access b = spec_access_table (call_mode context) (differentiable b)
                  (io_type (slang b)).

(** The call-dimensionality contribution [K] of a node at finalization: the
    overall dimensionality when still unknown. *)
Definition contribution context b : Z :=
  match call_dimensionality b with
  | None => ctx_call_dimensionality context
  | Some k => k
  end.

(** What finalization leaves alone in a node: its kernel side, path, name,
    access pair and differentiable flag, and on the host side everything
    but the vector mapping and the fields (the host sides of the
    children). *)
Definition same_but_mapping b b' : Prop :=
  slang b' = slang b /\ path b' = path b /\ variable_name b' = variable_name b
  /\ access b' = access b /\ differentiable b' = differentiable b
  /\ py_name (python b') = py_name (python b)
  /\ parameter_index (python b') = parameter_index (python b)
  /\ py_vector_type (python b') = py_vector_type (python b)
  /\ py_primal (python b') = py_primal (python b)
  /\ py_differentiable (python b') = py_differentiable (python b)
  /\ py_writable (python b') = py_writable (python b).

(** The call-dimensionality contribution as the specification words it. *)
Definition spec_contribution context b : Prop :=
  match vector_mapping b with
  | Some [] => call_dimensionality b = Some 0
  | Some (x :: r) =>
      exists m, is_max m (x :: r) /\ call_dimensionality b = Some (m + 1)
  | None =>
      exists vt k, vector_type b = Some vt
        /\ resolve_dimensionality (py_primal (python b)) context vt = Ok k
        /\ call_dimensionality b = Some k
  end.

(** The loop over [python.fields.items()] in [BoundVariable.__init__]. *)
Definition init_items
    (init_child : PythonVariable T -> SlangVariable T -> result (BoundVariable T))
    (slang_fields : dict (SlangVariable T))
  : dict (PythonVariable T) -> dict (BoundVariable T) -> result (dict (BoundVariable T)) :=
  fix items l acc :=
    match l with
    | [] => Ok acc
    | (name, child_python) :: r =>
        (child_slang <- dict_getitem name slang_fields ;;
         child <- init_child child_python child_slang ;;
         items r (dict_set name child acc))%result
    end.

Definition init_path (slang : SlangVariable T) (path : option string) : string :=
  match path with
  | None => sl_name slang
  | Some p => p ++ "." ++ sl_name slang
  end%string.

Definition init_self (python : PythonVariable T) (slang : SlangVariable T)
    (path : option string) : BoundVariable T :=
  mkBoundVariable python slang (init_path slang path) (sl_name slang)
    (AccessType.none, AccessType.none) false None None.

End Statements.

(** ** Concrete marshalling types and collaborators

    Two marshalling types of the repository, and collaborators that record
    the order in which they are called, on which the statements below are
    exercised. *)

Module Example.

(** [ValueRefType] ([bindings/valuereftype.py]) and [WangHashArgType]
    ([extensions/wanghasharg.py]). *)
Inductive ty :=
| ValueRefType (value_type : string)
| WangHashArgType (dims : Z).

Definition name (t : ty) : string :=
  match t with
  | ValueRefType value_type => value_type
  | WangHashArgType dims => "WangHashArg<" ++ str dims ++ ">"
  end%string.

(** Both types stand for themselves at every rank, and need no dimension to
    reach the type they are resolved to. *)
#[global] Instance ty_BaseType : BaseType ty := {|
  type_name := name;
  reduce_type t n := if 0 <=? n then Ok (Some t) else Raise (ValueError "Cannot reduce type");
  resolve_type t _ slang_type := Ok (Some slang_type);
  resolve_dimensionality t _ vector_type := Ok 0
|}.

(** [gen_calldata(self, cgb, binding)] of the two types. *)
Definition gen_calldata (t : ty) (cgb : CodeGenBlock) (binding : BoundVariable ty)
  : CodeGenBlock * result unit :=
  let access := access binding in
  let name := variable_name binding in
  match t with
  | ValueRefType value_type =>
      if AccessType.eqb (fst access) AccessType.none then (cgb, Raise AssertionError)
      else if negb (AccessType.eqb (snd access) AccessType.none) then
        (cgb, Raise AssertionError)
      else if AccessType.eqb (fst access) AccessType.read then
        (cgb ++ [type_alias ("_" ++ name)%string
                   ("ValueRef<" ++ value_type ++ ">")%string], Ok tt)
      else
        (cgb ++ [type_alias ("_" ++ name)%string
                   ("RWValueRef<" ++ value_type ++ ">")%string], Ok tt)
  | WangHashArgType dims =>
      if AccessType.eqb (fst access) AccessType.read then
        (cgb ++ [add_import "wanghasharg";
                 type_alias ("_" ++ name)%string (Example.name t)],
         Ok tt)
      else (cgb, Ok tt)
  end.

Definition class_name (t : ty) : string :=
  match t with
  | ValueRefType _ => "ValueRefType"
  | WangHashArgType _ => "WangHashArgType"
  end.

(** [python.primal.gen_calldata(cg.call_data_structs, context, self)], the
    call made by [gen_call_data_code], on the two types: their methods take
    the block and the binding and no context, so the call raises before the
    body is entered. *)
Definition call_gen_calldata (t : ty) (cgb : CodeGenBlock) (context : BindContext)
    (binding : BoundVariable ty) : CodeGenBlock * result unit :=
  (cgb,
   Raise (TypeError (class_name t
                     ++ ".gen_calldata() takes 3 positional arguments but 4 were given"))).

Definition context (mode : CallMode.t) (d : Z) : BindContext :=
  {| layout := 1%positive; call_mode := mode; device_module := 2%positive;
     options := 3%positive; ctx_call_dimensionality := d |}.

(** Host-side and kernel-side leaves. *)
Definition py_leaf (n : string) (t : ty) (m : Shape.t) (vt : option ty)
    (writable : bool) : PythonVariable ty :=
  mkPythonVariable n None m vt t true writable None.

Definition sl_leaf (n : string) (io : IOType.t) (t : ty) : SlangVariable ty :=
  mkSlangVariable n io false t (Some t) (name t) (Some (name t)) None.

Definition float_ref : ty := ValueRefType "float".
Definition hash3 : ty := WangHashArgType 3.

(** A leaf binding with a given access pair. *)
Definition leaf (n : string) (io : IOType.t) (t : ty) (m : Shape.t)
    (writable : bool) (a : AccessType.t * AccessType.t) (k : option Z)
  : BoundVariable ty :=
  mkBoundVariable (py_leaf n t m (Some t) writable) (sl_leaf n io t) n n a false k None.

(** A struct [p] with one field [x], bound to an [out] parameter. *)
Definition out_struct (child : BoundVariable ty) : BoundVariable ty :=
  mkBoundVariable
    (mkPythonVariable "p" None (Some []) (Some float_ref) float_ref false false
       (Some [("x", python child)]))
    (mkSlangVariable "p" IOType.out false float_ref None "P" None
       (Some [("x", slang child)]))
    "p" "p" (AccessType.none, AccessType.none) false (Some 0)
    (Some [("x", child)]).

Definition empty_codegen : CodeGen := {| call_data_structs := []; call_data := [] |}.

(** A hash argument, which the host cannot read back, bound to an [out]
    field or parameter [x] in a primal call. *)
Definition hash_out : BoundVariable ty :=
  leaf "x" IOType.out hash3 (Some []) false (AccessType.write, AccessType.none) (Some 0).

(** *** Recording collaborators *)

(** The world is the list of collaborator calls made so far. *)
Definition log {A} (what : string) (a : A) : SE (list string) A :=
  fun w => (w ++ [what], Ok a).

Definition no_call : PythonFunctionCall ty := {| pc_args := []; pc_kwargs := [] |}.
Definition no_bindings : BoundCall ty := {| bc_args := []; bc_kwargs := [] |}.

(** The overload found by [specialize]: differentiable iff its reflection
    handle is [1]; it returns [float] unless its type reflection handle is
    [1]. *)
Definition overload (reflections type_reflection : handle) : SlangFunction :=
  {| sf_differentiable := Pos.eqb reflections 1;
     return_type_full_name := if Pos.eqb type_reflection 1 then "void" else "float";
     sf_reflection := reflections |}.

(** Every argument and keyword argument becomes a node. *)
Definition host_node (n : string) : PythonVariable ty :=
  py_leaf n float_ref None None false.

#[global] Instance recording_callsignature : callsignature.t (list string) ty := {|
  callsignature.apply_explicit_vectorization _ pc _ _ :=
    log "apply_explicit_vectorization" pc;
  callsignature.specialize _ pc reflections type_reflection :=
    log "specialize" (pc, inl (overload reflections type_reflection));
  callsignature.bind _ _ _ := log "bind" no_bindings;
  callsignature.apply_implicit_vectorization _ pb :=
    log "apply_implicit_vectorization" pb;
  callsignature.calculate_call_dimensionality _ :=
    log "calculate_call_dimensionality" 0;
  callsignature.create_return_value_binding _ pb _ :=
    log "create_return_value_binding" pb;
  callsignature.finalize_mappings _ pb := log "finalize_mappings" pb;
  callsignature.validate_specialize _ _ _ := log "validate_specialize" tt;
  callsignature.calculate_differentiability _ pb :=
    log "calculate_differentiability" pb;
  callsignature.generate_code _ _ _ cg := log "generate_code" cg
|}.

(** The fingerprint of a value: its kind, not its contents. *)
Definition fingerprint (v : PyValue) : string :=
  match v with
  | PyObject _ _ => "o"
  | PyDict _ => "d"
  | PyList _ => "l"
  end.

Fixpoint chain_signature (c : FunctionChainBase) : string :=
  (match parent c with
   | None => ""
   | Some p => chain_signature p ++ "."
   end
   ++ match kind c with
      | Function f => "[::" ++ fn_name f ++ "]"
      | FunctionChainBwdsDiff => "bwds"
      | _ => ""
      end)%string.

(** A host value whose signature cannot be computed. *)
Definition unhashable : PyValue := PyList [].

#[global] Instance recording_collaborators : Collaborators (list string) ty := {|
  PYTHON_SIGNATURES v :=
    match v with
    | PyList [] => Raise (KeyError "list")
    | _ => Ok (Some (fun v => Ok (fingerprint v)))
    end;
  hash_signature value_to_id self this args kwargs :=
    (a <- list_mapM value_to_id args ;;
     k <- list_mapM (fun kv => v <- value_to_id (snd kv) ;; Ok (fst kv ++ "=" ++ v)%string)
            kwargs ;;
     Ok (chain_signature self ++ "(" ++ String.concat "," (a ++ k) ++ ")")%string)%result;
  PythonFunctionCall_new _ args kwargs :=
    log "PythonFunctionCall"
      {| pc_args := map (fun _ => host_node "") args;
         pc_kwargs := map (fun kv => (fst kv, host_node (fst kv))) kwargs |};
  PythonVariable_new _ _ _ n :=
    log "PythonVariable" (host_node (default "" n));
  has_implicit_args _ := false;
  has_implicit_mappings _ := false;
  run_callback _ _ := log "callback" [];
  SlangProgramLayout_new m :=
    if Pos.eqb m 9 then (fun w => (w ++ ["SlangProgramLayout"],
                                   Raise (OtherException "no layout")))
    else log "SlangProgramLayout" m;
  module_name _ := "module";
  module_session m := m;
  session_device s := s;
  load_module_from_source _ _ _ := log "load_module_from_source" 1%positive;
  entry_point _ _ := log "entry_point" 1%positive;
  link_program _ _ _ := log "link_program" 1%positive;
  create_compute_kernel _ _ := log "create_compute_kernel" 1%positive;
  BoundCallRuntime_new _ := log "BoundCallRuntime" 1%positive;
  codegen_finish _ := log "finish" "";
  sha256_hexdigest16 _ := "0000000000000000";
  makedirs _ := log "makedirs" tt;
  write_file _ _ := log "write_file" tt;
  mismatch_info _ _ := "";
  bound_call_table _ := "";
  python_exception_info _ _ _ := "";
  bound_exception_info _ _ _ := ""
|}.

(** A function [f] in a module. *)
Definition function_obj (module : handle) : FunctionObj :=
  {| fn_module := module; fn_name := "f" |}.

Definition function (module : handle) : FunctionChainBase :=
  mkFunctionChain (Function (function_obj module)) None.

Definition bwds_diff (p : FunctionChainBase) : FunctionChainBase :=
  mkFunctionChain FunctionChainBwdsDiff (Some p).

Definition fresh_process : Process (W := list string) (T := ty) :=
  {| CALL_DATA_CACHE := ∅; proc_world := []; constructed := 0 |}.

Definition number (h : handle) : PyValue := PyObject h None.

(** [f(x)] *)
Definition primal_call (x : handle) : Call :=
  {| callee := function 1%positive; call_args := [number x]; call_kwargs := [] |}.



(** The process after [f(5)] on a fresh process. *)
Definition after_primal_call : Process (W := list string) (T := ty) :=
  Eval vm_compute in
    fst (_build_call_data (callee (primal_call 5%positive)) (call_args (primal_call 5%positive))
           (call_kwargs (primal_call 5%positive)) fresh_process).

(** A process in which [CALL_DATA_CACHE], a dictionary at module level,
    holds an object under the signature of [f(x)]. *)
Definition cached_calldata : CallData ty := CallData_empty 7.

Definition cached_process : Process (W := list string) (T := ty) :=
  {| CALL_DATA_CACHE := {[ "[::f](o)"%string := cached_calldata ]};
     proc_world := []; constructed := 8 |}.

(** An overload of [f] with the differentiable modifier, returning
    [float], and the state of a primal call of [f] for which
    specialization has chosen it. *)
Definition resolved : Resolved (T := ty) :=
  {| r_function := function_obj 1%positive; r_context := context CallMode.prim 0;
     r_python_call := no_call; r_slang_function := overload 1%positive 2%positive;
     r_return_type := None |}.

Definition resolved_state : InitState (W := list string) (T := ty) :=
  {| world := []; self := CallData_empty 0;
     l_function := Some (function_obj 1%positive); l_python_call := Some no_call;
     l_bindings := None; l_slang_function := Some (overload 1%positive 2%positive) |}.

(** A host dictionary with the single field [x], and a kernel struct with
    the fields [x] and [y]. *)
Definition host_x : PythonVariable ty :=
  mkPythonVariable "p" None None None float_ref false false
    (Some [("x", py_leaf "x" float_ref None None false)]).

Definition kernel_xy : SlangVariable ty :=
  mkSlangVariable "p" IOType.inn false float_ref None "P" None
    (Some [("x", sl_leaf "x" IOType.inn float_ref);
           ("y", sl_leaf "y" IOType.inn float_ref)]).

(** A host dictionary with the fields [x] and [z]. *)
Definition host_xz : PythonVariable ty :=
  mkPythonVariable "p" None None None float_ref false false
    (Some [("x", py_leaf "x" float_ref None None false);
           ("z", py_leaf "z" float_ref None None false)]).

End Example.

(** ** A host value provider *)

Module Provider.

(** Modelled from the spec: a host value kind supplied by the "host value
    provider" of section 6, a class derived from [BaseType], which
    [core/basetype.py] declares, and registered in [PYTHON_TYPES] as
    [extensions/wanghasharg.py] registers its own. It stands for a value of
    the element type it names, has no container dimension, and resolves to
    the kernel-side type it is bound to. *)
Inductive ty := Value (element : string).

Definition name (t : ty) : string :=
  match t with Value element => element end.

#[global] Instance ty_BaseType : BaseType ty := {|
  type_name := name;
  reduce_type t n := if n =? 0 then Ok (Some t) else Raise (ValueError "Cannot reduce type");
  resolve_type t _ slang_type := Ok (Some slang_type);
  resolve_dimensionality t _ vector_type := Ok 0
|}.

(** Modelled from the spec: [gen_calldata] of that kind takes the block, the
    context and the binding, as [gen_call_data_code] passes them, and emits
    "a call-data record containing exactly the storage needed for each
    AccessType present in its access pair (nothing for none)" (section 4.4):
    a struct named after the variable, with a field [primal] when the primal
    access is not [none] and a field [derivative] when the derivative access
    is not [none]. It does not raise. *)
Definition gen_calldata (t : ty) (cgb : CodeGenBlock) (context : BindContext)
    (binding : BoundVariable ty) : CodeGenBlock * result unit :=
  let access := access binding in
  let name := variable_name binding in
  (cgb
   ++ [begin_struct ("_t_" ++ name)%string]
   ++ (if AccessType.eqb (fst access) AccessType.none then []
       else [declare (Provider.name t) "primal"])
   ++ (if AccessType.eqb (snd access) AccessType.none then []
       else [declare (Provider.name t ++ ".Differential")%string "derivative"])
   ++ [end_struct],
   Ok tt).

Definition float : ty := Value "float".

(** A leaf binding of a [float] to a parameter or field [n]. *)
Definition leaf (n : string) (io : IOType.t) (m : Shape.t) (writable : bool)
    (a : AccessType.t * AccessType.t) (k : option Z) : BoundVariable ty :=
  mkBoundVariable
    (mkPythonVariable n None m (Some float) float true writable None)
    (mkSlangVariable n io false float (Some float) "float" (Some "float") None)
    n n a false k None.

(** A struct [p] with one field [x], bound to an [out] parameter. *)
Definition out_struct (child : BoundVariable ty) : BoundVariable ty :=
  mkBoundVariable
    (mkPythonVariable "p" None (Some []) (Some float) float false false
       (Some [("x", python child)]))
    (mkSlangVariable "p" IOType.out false float None "P" None
       (Some [("x", slang child)]))
    "p" "p" (AccessType.none, AccessType.none) false (Some 0)
    (Some [("x", child)]).

(** A value that the host cannot read back, bound to an [out] field or
    parameter [x] in a primal call. *)
Definition constant_out : BoundVariable ty :=
  leaf "x" IOType.out (Some []) false (AccessType.write, AccessType.none) (Some 0).

End Provider.

(** * Further functions of the repository *)

(** ** The flat list of argument nodes ([boundvariable.py]) *)

Section InputList.
Context {T : Type}.

(** [BoundVariable._get_input_list_recurse]: [args] is the list being
    populated. *)
Fixpoint _get_input_list_recurse (self : BoundVariable T)
    (args : list (BoundVariable T)) : list (BoundVariable T) :=
  match children self with
  | Some cs =>
      (fix values (l : dict (BoundVariable T)) (args : list (BoundVariable T)) :=
         match l with
         | [] => args
         | (_, child) :: r => values r (_get_input_list_recurse child args)
         end) cs args
  | None => args ++ [self]
  end.

(** [BoundVariable.get_input_list] *)
Definition get_input_list (self : BoundVariable T) (args : list (BoundVariable T))
  : list (BoundVariable T) :=
  _get_input_list_recurse self args.

Definition is_leaf (b : BoundVariable T) : bool :=
  match children b with
  | None => true
  | Some _ => false
  end.

(** The leaves of a tree, in the order in which [nodes] lists them. *)
Definition leaves (b : BoundVariable T) : list (BoundVariable T) :=
  List.filter is_leaf (nodes b).

(** The loop over [self.children.values()] in [_get_input_list_recurse]. *)
Definition input_list_values
    (recurse : BoundVariable T -> list (BoundVariable T) -> list (BoundVariable T))
  : dict (BoundVariable T) -> list (BoundVariable T) -> list (BoundVariable T) :=
  fix values l args :=
    match l with
    | [] => args
    | (_, child) :: r => values r (recurse child args)
    end.

(** A node after finalization: its mapping is valid and its contribution
    to the call dimensionality is known. *)
Definition finalized (b : BoundVariable T) : Prop :=
  Shape.valid (vector_mapping b) = true /\ is_Some (call_dimensionality b).

End InputList.

(** ** The trampoline argument ([boundvariable.py]) *)

Section Trampoline.
Context {T : Type} {BT : BaseType T}.

(** [BoundVariable._gen_trampoline_argument] *)
Definition _gen_trampoline_argument (self : BoundVariable T) : result string :=
  match vector_type self with
  | None => Raise (AttributeError "'NoneType' object has no attribute 'name'")
  | Some vt =>
      let arg_def := (type_name vt ++ " " ++ variable_name self)%string in
      let arg_def :=
        match io_type (slang self) with
        | IOType.inout => ("inout " ++ arg_def)%string
        | IOType.out => ("out " ++ arg_def)%string
        | IOType.inn => ("in " ++ arg_def)%string
        end in
      let arg_def :=
        if no_diff (slang self) || negb (differentiable self)
        then ("no_diff " ++ arg_def)%string
        else arg_def in
      Ok arg_def
  end.

(** The direction keyword of a parameter. *)
Definition io_keyword (io : IOType.t) : string :=
  match io with
  | IOType.inout => "inout "
  | IOType.out => "out "
  | IOType.inn => "in "
  end.

(** The loop over [self.children.items()] in [gen_call_data_code]. *)
Definition gen_items
    (gen : BoundVariable T -> SE CodeGen (option string))
  : dict (BoundVariable T) -> SE CodeGen (list name_entry) :=
  fix items l :=
    match l with
    | [] => sret []
    | (field, variable) :: r =>
        (variable_name <- gen variable ;;
         rest <- items r ;;
         sret match variable_name with
              | Some vn =>
                  (field, vn, primal_type_name (slang variable),
                   derivative_type_name (slang variable)) :: rest
              | None => rest
              end)%se
    end.

End Trampoline.

(** ** Arguments and file names ([calldata.py]) *)

(** A value no part of which has a [get_this] attribute. *)
Fixpoint plain (v : PyValue) : bool :=
  match v with
  | PyObject _ None => true
  | PyObject _ (Some _) => false
  | PyDict d => forallb (fun kv => plain (snd kv)) d
  | PyList l => forallb plain l
  end.

(** The characters that [sanitize] replaces. *)
Definition is_special (c : ascii) : bool :=
  (Ascii.eqb c "<" || Ascii.eqb c ">" || Ascii.eqb c "," || Ascii.eqb c " ")%char.

Fixpoint chars (s : string) : list ascii :=
  match s with
  | EmptyString => []
  | String c r => c :: chars r
  end.

(** [pack_arg]: the calls of [update_this] that it makes are appended to a
    log; [hasattr_update_this] tells which objects have the attribute. *)
Section PackArg.
Variable hasattr_update_this : handle -> bool.

(** [unpacked_arg[k]] for a string [k], and [unpacked_arg[i]] for an index
    [i]. *)
Definition subscript_key (unpacked_arg : PyValue) (k : string) : result PyValue :=
  match unpacked_arg with
  | PyDict d => dict_getitem k d
  | PyList _ => Raise (OtherException "list indices must be integers or slices, not str")
  | PyObject _ _ => Raise (OtherException "object is not subscriptable")
  end.

Definition subscript_index (unpacked_arg : PyValue) (i : nat) : result PyValue :=
  match unpacked_arg with
  | PyList l =>
      match nth_error l i with
      | Some v => Ok v
      | None => Raise (IndexError "list index out of range")
      end
  | PyDict _ => Raise (KeyError (str (Z.of_nat i)))
  | PyObject _ _ => Raise (OtherException "object is not subscriptable")
  end.

Fixpoint pack_arg (arg : PyValue) (unpacked_arg : PyValue)
  : SE (list (handle * PyValue)) PyValue :=
  (match arg with
   | PyObject h _ =>
       if hasattr_update_this h then smodify (fun log => log ++ [(h, unpacked_arg)])
       else sret tt
   | PyDict d =>
       (fix items (l : list (string * PyValue)) :=
          match l with
          | [] => sret tt
          | (k, v) :: r =>
              u <- slift (subscript_key unpacked_arg k) ;;
              pack_arg v u ;;;
              items r
          end) d
   | PyList l =>
       (fix items (l : list PyValue) (i : nat) :=
          match l with
          | [] => sret tt
          | v :: r =>
              u <- slift (subscript_index unpacked_arg i) ;;
              pack_arg v u ;;;
              items r (S i)
          end) l 0%nat
   end ;;;
   sret arg)%se.

(** The loops of [pack_arg] over the items of a dictionary and over the
    elements of a list. *)
Definition pack_items (unpacked_arg : PyValue)
  : list (string * PyValue) -> SE (list (handle * PyValue)) unit :=
  fix items l :=
    match l with
    | [] => sret tt
    | (k, v) :: r =>
        (u <- slift (subscript_key unpacked_arg k) ;;
         pack_arg v u ;;;
         items r)%se
    end.

Definition pack_elements (unpacked_arg : PyValue)
  : list PyValue -> nat -> SE (list (handle * PyValue)) unit :=
  fix items l i :=
    match l with
    | [] => sret tt
    | v :: r =>
        (u <- slift (subscript_index unpacked_arg i) ;;
         pack_arg v u ;;;
         items r (S i))%se
    end.

(** The objects that a value holds, directly or in dictionaries and lists,
    in order. *)
Fixpoint objects (v : PyValue) : list PyValue :=
  match v with
  | PyObject _ _ => [v]
  | PyDict d => flat_map (fun kv => objects (snd kv)) d
  | PyList l => flat_map objects l
  end.

(** The call of [update_this] that hands an object its unpacked value. *)
Definition update_of (o : PyValue) : list (handle * PyValue) :=
  match o with
  | PyObject h _ => if hasattr_update_this h then [(h, unpack_arg o)] else []
  | _ => []
  end.

End PackArg.

(** The dictionaries of a value, reached through dictionaries and lists,
    have no key twice, as those of the host language. *)
Fixpoint unique_keys (v : PyValue) : bool :=
  match v with
  | PyObject _ _ => true
  | PyDict d =>
      bool_decide (NoDup (map fst d)) && forallb (fun kv => unique_keys (snd kv)) d
  | PyList l => forallb unique_keys l
  end.

(** ** Chains of calls ([function.py]) *)

(** The entry without a parent that a chain starts from. *)
Fixpoint root (self : FunctionChainBase) : FunctionChainBase :=
  match parent self with
  | None => self
  | Some p => root p
  end.

(** The number of links between an entry and its root. *)
Fixpoint links (self : FunctionChainBase) : nat :=
  match parent self with
  | None => 0%nat
  | Some p => S (links p)
  end.

(** [FunctionChainBase.bwds_diff], [transform_input], [transform_output] and
    [instance]. *)
Definition bwds_diff (self : FunctionChainBase) : FunctionChainBase :=
  mkFunctionChain FunctionChainBwdsDiff (Some self).

Definition transform_input (self : FunctionChainBase) (transforms : dict Shape.t)
  : FunctionChainBase :=
  mkFunctionChain (FunctionChainInputTransform transforms) (Some self).

Definition transform_output (self : FunctionChainBase) (transforms : dict Shape.t)
  : FunctionChainBase :=
  mkFunctionChain (FunctionChainOutputTransform transforms) (Some self).

Definition instance (self : FunctionChainBase) (this : PyValue) : FunctionChainBase :=
  mkFunctionChain (FunctionChainThis this) (Some self).

(** The single positional argument that [set] accepts: a callback, a
    dictionary, or anything else. *)
Inductive SetArg :=
| SetCallable (callback : handle)
| SetDict (props : dict PyValue)
| SetOther.

(** [FunctionChainSet.__init__], reached through [FunctionChainBase.set]. *)
Definition FunctionChainSet_init (parent : FunctionChainBase) (args : list SetArg)
    (kwargs : dict PyValue) : result FunctionChainBase :=
  if (0 <? Z.of_nat (length args)) && (0 <? Z.of_nat (length kwargs)) then
    Raise (ValueError "Set accepts either positional or keyword arguments, not both")
  else if 1 <? Z.of_nat (length args) then
    Raise (ValueError
             "Set accepts only one positional argument (a dictionary or callback)")
  else if 0 <? Z.of_nat (length kwargs) then
    Ok (mkFunctionChain (FunctionChainSet (Some kwargs) None) (Some parent))
  else
    match args with
    | SetCallable callback :: _ =>
        Ok (mkFunctionChain (FunctionChainSet None (Some callback)) (Some parent))
    | SetDict props :: _ =>
        Ok (mkFunctionChain (FunctionChainSet (Some props) None) (Some parent))
    | SetOther :: _ =>
        Raise (ValueError
                 "Set requires a dictionary or callback as a single positional argument")
    | [] => Raise (ValueError "Set requires at least one argument")
    end.

(** [slangpy_signature], as [Function.__init__] and
    [FunctionChainBase.__init__] assign it; [type_parent] gives the name of
    the type a function was looked up in. *)
Fixpoint slangpy_signature (type_parent : FunctionObj -> option string)
    (self : FunctionChainBase) : string :=
  match kind self with
  | Function f =>
      ("[" ++ default "" (type_parent f) ++ "::" ++ fn_name f ++ "]")%string
  | _ =>
      match parent self with
      | Some p => (slangpy_signature type_parent p ++ ".")%string
      | None => ""
      end
  end.

(** [n] dots. *)
Fixpoint dots (n : nat) : string :=
  match n with
  | O => ""
  | S n => (dots n ++ ".")%string
  end.

Definition is_function (item : FunctionChainBase) : bool :=
  match kind item with
  | Function _ => true
  | _ => false
  end.

Definition this_of (item : FunctionChainBase) : option PyValue :=
  match kind item with
  | FunctionChainThis this => Some this
  | _ => None
  end.

(** ** [Function.__init__] ([function.py]) *)

Section FunctionInit.

(** The reflection queries, which read and change nothing:
    [module.layout.find_type_by_name], [module.module_decl.find_children_of_kind]
    for functions, [x.as_function()], [module.layout.find_function_by_name_in_type],
    [type_reflection.full_name] and [module.name]; and the constructor
    [SlangFunction(x, type_reflection)] of an overload. *)
Context {Overload : Type}.
Variable find_type_by_name : handle -> string -> option handle.
Variable find_children_of_kind_func : handle -> string -> list handle.
Variable as_function : handle -> handle.
Variable find_function_by_name_in_type : handle -> handle -> string -> option handle.
Variable full_name : handle -> string.
Variable name_of_module : handle -> string.
Variable SlangFunction_new : handle -> option handle -> Overload.

(** All the attributes that [Function.__init__] sets. *)
Record FunctionDecl := {
  fd_module : handle;
  fd_name : string;
  fd_type_parent : option string;
  fd_overloads : list Overload;
  fd_slangpy_signature : string
}.

(** The part of them that [CallData] reads. *)
Definition FunctionObj_of (fd : FunctionDecl) : FunctionObj :=
  {| fn_module := fd_module fd; fn_name := fd_name fd |}.

(** [f"{x}"] for an optional string. *)
Definition str_opt (s : option string) : string := default "None" s.

(** [Function.__init__] *)
Definition Function_init (module : handle) (name : string)
    (type_parent : option string) (type_reflection : option handle)
    (func_reflections : option (list handle)) : result FunctionDecl :=
  (type_reflection <-
     match type_parent with
     | Some tp =>
         match find_type_by_name module tp with
         | None =>
             Raise (ValueError ("Type '" ++ tp ++ "' not found in module "
                                ++ name_of_module module)%string)
         | Some tr => Ok (Some tr)
         end
     | None => Ok type_reflection
     end ;;
   func_reflections <-
     match func_reflections with
     | Some l => Ok l
     | None =>
         match type_reflection with
         | None =>
             let ast_functions := find_children_of_kind_func module name in
             if (Z.of_nat (length ast_functions) =? 0) then
               Raise (ValueError ("Function '" ++ name ++ "' not found in module "
                                  ++ name_of_module module)%string)
             else Ok (map as_function ast_functions)
         | Some tr =>
             match find_function_by_name_in_type module tr name with
             | None =>
                 Raise (ValueError ("Function '" ++ name ++ "' not found in type '"
                                    ++ str_opt type_parent ++ "' in module "
                                    ++ name_of_module module)%string)
             | Some func_reflection => Ok [func_reflection]
             end
         end
     end ;;
   let type_parent := option_map full_name type_reflection in
   Ok {| fd_module := module;
         fd_name := name;
         fd_type_parent := type_parent;
         fd_overloads := map (fun x => SlangFunction_new x type_reflection)
                             func_reflections;
         fd_slangpy_signature :=
           ("[" ++ default "" type_parent ++ "::" ++ name ++ "]")%string |})%result.

End FunctionInit.

(** ** Invariants of commands *)

(** [R] relates the state before the command to the state after it,
    whether the command returns or raises. *)
Definition se_rel {S A} (R : S -> S -> Prop) (c : SE S A) : Prop :=
  forall s s' r, c s = (s', r) -> R s s'.

(** Both blocks of the code generator hold what they held, and possibly
    more after it. *)
Definition extends (cg cg' : CodeGen) : Prop :=
  (exists l, call_data_structs cg' = call_data_structs cg ++ l)
  /\ (exists l, call_data cg' = call_data cg ++ l).

(** The block [call_data] is as it was. *)
Definition same_call_data (cg cg' : CodeGen) : Prop :=
  call_data cg' = call_data cg.

(** No composite node of the tree is without fields. *)
Definition has_fields {T} (b : BoundVariable T) : Prop :=
  Forall (fun n => children n <> Some []) (nodes b).

Section MoreCallData.
Context {W T : Type} {CS : callsignature.t W T} {CO : Collaborators W T}.



End MoreCallData.


(** ** Marshalling types of the earlier interface ([types/]) *)

Module types.

(** [access[prim.value]] *)
Definition access_at (access : AccessType.t * AccessType.t) (prim : PrimType.t)
  : AccessType.t :=
  match PrimType.value prim with
  | O => fst access
  | _ => snd access
  end.

(** [access[0] in [AccessType.read, AccessType.readwrite]] and
    [access[0] in [AccessType.write, AccessType.readwrite]] *)
Definition in_read_readwrite (a : AccessType.t) : bool :=
  AccessType.eqb a AccessType.read || AccessType.eqb a AccessType.readwrite.

Definition in_write_readwrite (a : AccessType.t) : bool :=
  AccessType.eqb a AccessType.write || AccessType.eqb a AccessType.readwrite.

(** The lines that declare the accessors [load_<prim>] and [store_<prim>]
    of a call data struct, and the declaration of a buffer field. *)
Definition is_load (prim_name : string) (op : CodeGenOp) : bool :=
  match op with
  | append_line s => String.prefix ("void load_" ++ prim_name ++ "(")%string s
  | _ => false
  end.

Definition is_store (prim_name : string) (op : CodeGenOp) : bool :=
  match op with
  | append_line s => String.prefix ("void store_" ++ prim_name ++ "(")%string s
  | _ => false
  end.

Definition is_field (type_prefix field : string) (op : CodeGenOp) : bool :=
  match op with
  | declare t n => String.eqb n field && String.prefix type_prefix t
  | _ => false
  end.

(** *** [types/valuereftype.py] *)

Module ValueRefType.

(** [ValueRefType.gen_calldata]; [primal_type_name] stands for
    [input_value.primal_type_name]. *)
Definition gen_calldata (cgb : CodeGenBlock) (primal_type_name name : string)
    (transform : list (option Z)) (access : AccessType.t * AccessType.t)
  : CodeGenBlock * result unit :=
  if AccessType.eqb (fst access) AccessType.none then (cgb, Raise AssertionError)
  else if negb (AccessType.eqb (snd access) AccessType.none) then
    (cgb, Raise AssertionError)
  else
    let cgb := cgb ++ [begin_struct ("_" ++ name ++ "_call_data")%string] in
    let cgb := cgb ++ [type_alias "primal_type" primal_type_name] in
    let cgb :=
      if AccessType.eqb (fst access) AccessType.read then
        cgb ++ [declare "primal_type" "value";
                append_line
                  "void load_primal(Context context, out primal_type value) { value = this.value; }"]
      else
        cgb ++ [declare "RWStructuredBuffer<primal_type>" "value";
                append_line
                  "void load_primal(Context context, out primal_type value) { value = this.value[0]; }";
                append_line
                  "void store_primal(Context context, in primal_type value) { this.value[0] = value; }"] in
    (cgb ++ [end_struct], Ok tt).

(** The lines that forward to the accessors of the call data. *)
Definition forward_load (name : string) : string :=
  ("static void load_primal(Context context, out primal_type value) { call_data."
   ++ name ++ ".load_primal(context,value); }")%string.

Definition forward_store (name : string) : string :=
  ("static void store_primal(Context context, in primal_type value) { call_data."
   ++ name ++ ".store_primal(context,value); }")%string.

(** [ValueRefType.gen_load_store] *)
Definition gen_load_store (cgb : CodeGenBlock) (primal_type_name name : string)
    (transform : list (option Z)) (access : AccessType.t * AccessType.t)
  : CodeGenBlock * result unit :=
  if AccessType.eqb (fst access) AccessType.none then (cgb, Raise AssertionError)
  else if negb (AccessType.eqb (snd access) AccessType.none) then
    (cgb, Raise AssertionError)
  else
    let cgb := cgb ++ [begin_struct ("_" ++ name)%string] in
    let cgb := cgb ++ [type_alias "primal_type" primal_type_name] in
    let cgb :=
      if in_read_readwrite (fst access) then cgb ++ [append_line (forward_load name)]
      else cgb in
    let cgb :=
      if in_write_readwrite (fst access) then cgb ++ [append_line (forward_store name)]
      else cgb in
    (cgb ++ [end_struct], Ok tt).

(** The forwarding lines, by the accessor they forward to. *)
Definition is_forward_load (op : CodeGenOp) : bool :=
  match op with
  | append_line s => String.prefix "static void load_primal(" s
  | _ => false
  end.

Definition is_forward_store (op : CodeGenOp) : bool :=
  match op with
  | append_line s => String.prefix "static void store_primal(" s
  | _ => false
  end.

End ValueRefType.

(** *** [types/buffertype.py] *)

(** The snippet [TYPES]. *)
Definition TYPES : string :=
  String.concat nl
    ["";
     "int _idx<let N: int>(int[N] index, int[N] stride) {";
     "    int idx = 0;";
     "    for (int i = 0; i < N; i++) { idx += index[i] * stride[i]; }";
     "    return idx;";
     "}";
     "struct TensorBuffer<T, let N : int> {";
     "    RWStructuredBuffer<T> buffer;";
     "    int[N] strides;";
     "    T get(int[N] index) { return buffer[_idx(index, strides)]; }";
     "    __subscript(int[N] index)->T { get { return get(index); } }";
     "}";
     "struct RWTensorBuffer<T, let N : int> {";
     "    RWStructuredBuffer<T> buffer;";
     "    int[N] strides;";
     "    T get(int[N] index) { return buffer[_idx(index, strides)]; }";
     "    void set(int[N] index, T value) { buffer[_idx(index, strides)] = value; }";
     "    __subscript(int[N] index)->T { get { return get(index); } set { set(index, newValue); } }";
     "}";
     ""].

(** [_transform_to_subscript] *)
Definition _transform_to_subscript (transform : list (option Z)) : string :=
  let vals :=
    String.concat ","
      (map (fun x => match x with
                     | None => "0"
                     | Some x => "context.call_id[" ++ str x ++ "]"
                     end%string) transform) in
  ("[{" ++ vals ++ "}]")%string.

Module NDBufferType.

(** [NDBufferType.gen_calldata] *)
Definition gen_calldata (cgb : CodeGenBlock) (primal_type_name name : string)
    (transform : list (option Z)) (access : AccessType.t * AccessType.t)
  : CodeGenBlock * result unit :=
  if AccessType.eqb (fst access) AccessType.none then (cgb, Raise AssertionError)
  else if negb (AccessType.eqb (snd access) AccessType.none) then
    (cgb, Raise AssertionError)
  else
    let cgb := cgb ++ [add_snippet "TensorBuffer" TYPES] in
    let tf := _transform_to_subscript transform in
    let cgb := cgb ++ [begin_struct ("_" ++ name ++ "_call_data")%string] in
    let cgb := cgb ++ [type_alias "primal_type" primal_type_name] in
    let rank := str (Z.of_nat (length transform)) in
    let cgb :=
      if AccessType.eqb (fst access) AccessType.read then
        cgb ++ [declare ("TensorBuffer<primal_type," ++ rank ++ ">")%string "value";
                append_line
                  ("void load_primal(Context context, out primal_type value) { value = this.value"
                   ++ tf ++ "; }")%string]
      else
        cgb ++ [declare ("RWTensorBuffer<primal_type," ++ rank ++ ">")%string "value";
                append_line
                  ("void load_primal(Context context, out primal_type value) { value = this.value"
                   ++ tf ++ "; }")%string;
                append_line
                  ("void store_primal(Context context, in primal_type value) { this.value"
                   ++ tf ++ " = value; }")%string] in
    (cgb ++ [end_struct], Ok tt).

End NDBufferType.

Module NDDifferentiableBufferType.

(** The accessor lines of one kind of value. *)
Definition load_line (prim_name tf : string) : string :=
  ("void load_" ++ prim_name ++ "(Context context, out " ++ prim_name
   ++ "_type value) { value = this." ++ prim_name ++ tf ++ "; }")%string.

Definition store_line (prim_name tf : string) : string :=
  ("void store_" ++ prim_name ++ "(Context context, in " ++ prim_name
   ++ "_type value) { this." ++ prim_name ++ tf ++ " = value; }")%string.

(** The body of [for prim in PrimType]. *)
Definition gen_prim (tf rank : string) (access : AccessType.t * AccessType.t)
    (cgb : CodeGenBlock) (prim : PrimType.t) : CodeGenBlock :=
  let prim_name := PrimType.name prim in
  let prim_access := access_at access prim in
  if AccessType.eqb prim_access AccessType.none then cgb
  else if AccessType.eqb prim_access AccessType.read then
    cgb ++ [declare ("TensorBuffer<" ++ prim_name ++ "_type," ++ rank ++ ">")%string
              prim_name;
            append_line (load_line prim_name tf)]
  else
    cgb ++ [declare ("RWTensorBuffer<" ++ prim_name ++ "_type," ++ rank ++ ">")%string
              prim_name;
            append_line (load_line prim_name tf);
            append_line (store_line prim_name tf)].

(** [NDDifferentiableBufferType.gen_calldata]; [derivative_type_name] stands
    for [input_value.derivative_type_name]. *)
Definition gen_calldata (cgb : CodeGenBlock)
    (primal_type_name derivative_type_name name : string)
    (transform : list (option Z)) (access : AccessType.t * AccessType.t)
  : CodeGenBlock * result unit :=
  let cgb := cgb ++ [add_snippet "TensorBuffer" TYPES] in
  let cgb := cgb ++ [begin_struct ("_" ++ name ++ "_call_data")%string] in
  let cgb := cgb ++ [type_alias "primal_type" primal_type_name] in
  let cgb := cgb ++ [type_alias "derivative_type" derivative_type_name] in
  let tf := _transform_to_subscript transform in
  let rank := str (Z.of_nat (length transform)) in
  let cgb := fold_left (gen_prim tf rank access) PrimType.all cgb in
  (cgb ++ [end_struct], Ok tt).

End NDDifferentiableBufferType.

End types.

(** ** Raw buffers ([bindings/structuredbuffertype.py]) *)

Module bindings.
Module StructuredBufferType.

(** The kernel-side types of [kernelfunctions.core.reflection] that the
    class tests for, with the attributes it reads, and any other type. *)
Inductive SlangType :=
| kfr_StructuredBufferType (writable : bool) (element_type_full_name : string)
| kfr_ByteAddressBufferType (writable : bool)
| kfr_other (h : handle).

(** [isinstance(t, (kfr.StructuredBufferType, kfr.ByteAddressBufferType))] *)
Definition is_raw_buffer (t : SlangType) : bool :=
  match t with
  | kfr_StructuredBufferType _ _ | kfr_ByteAddressBufferType _ => true
  | kfr_other _ => false
  end.

(** [vector_type.writable] *)
Definition writable (t : SlangType) : bool :=
  match t with
  | kfr_StructuredBufferType w _ | kfr_ByteAddressBufferType w => w
  | kfr_other _ => false
  end.

Definition not_vectorizable : exn :=
  ValueError
    "Raw buffers can not be vectorized. If you need vectorized buffers, see the NDBuffer slangpy type".

(** [StructuredBufferType.resolve_type] *)
Definition resolve_type (context : BindContext) (bound_type : SlangType)
  : result SlangType :=
  if is_raw_buffer bound_type then Ok bound_type else Raise not_vectorizable.

(** [StructuredBufferType.resolve_dimensionality] *)
Definition resolve_dimensionality (context : BindContext)
    (binding : BoundVariable SlangType) (vector_target_type : SlangType) : result Z :=
  if is_raw_buffer vector_target_type then Ok 0 else Raise not_vectorizable.

(** [StructuredBufferType.gen_calldata] *)
Definition gen_calldata (cgb : CodeGenBlock) (context : BindContext)
    (binding : BoundVariable SlangType) : CodeGenBlock * result unit :=
  let access := fst (access binding) in
  let name := variable_name binding in
  if negb (AccessType.eqb access AccessType.read) then (cgb, Raise AssertionError)
  else
    match vector_type binding with
    | Some (kfr_StructuredBufferType writable element_type_full_name) =>
        if writable then
          (cgb ++ [type_alias ("_t_" ++ name)%string
                     ("RWStructuredBufferType<" ++ element_type_full_name ++ ">")%string],
           Ok tt)
        else
          (cgb ++ [type_alias ("_t_" ++ name)%string
                     ("StructuredBufferType<" ++ element_type_full_name ++ ">")%string],
           Ok tt)
    | Some (kfr_ByteAddressBufferType writable) =>
        if writable then
          (cgb ++ [type_alias ("_t_" ++ name)%string "RWByteAddressBufferType"], Ok tt)
        else
          (cgb ++ [type_alias ("_t_" ++ name)%string "ByteAddressBufferType"], Ok tt)
    | _ => (cgb, Raise not_vectorizable)
    end.

(** Whether the primal of a parameter is read only, by call mode and
    direction. *)
Definition reads_only (mode : CallMode.t) (io : IOType.t) : bool :=
  match mode, io with
  | CallMode.prim, IOType.inn => true
  | CallMode.bwds, IOType.inn | CallMode.bwds, IOType.inout => true
  | _, _ => false
  end.

End StructuredBufferType.
End bindings.

(** ** Kernel-side values of the earlier interface ([types/slangvalue.py]) *)

Module slangvalue.

(** The members of [ModifierID] that the module tests for, and any other. *)
Module ModifierID.
Inductive t := differentiable | nodiff | inout | out | other.

Definition eqb (a b : t) : bool :=
  match a, b with
  | differentiable, differentiable | nodiff, nodiff | inout, inout | out, out
  | other, other => true
  | _, _ => false
  end.
End ModifierID.

(** [TypeReflection.Kind]: [struct], [vector], and any other kind. *)
Module Kind.
Inductive t := struct | vector | other.
End Kind.

(** [TypeReflection.ScalarType]: [void], and any other scalar type. *)
Module ScalarType.
Inductive t := void | scalar (h : handle).

Definition eqb (a b : t) : bool :=
  match a, b with
  | void, void => true
  | scalar h, scalar h' => Pos.eqb h h'
  | _, _ => false
  end.
End ScalarType.

(** The reflection objects, with the attributes the module reads: [kind],
    [scalar_type], [col_count] and [fields] of a type; [name], [type] and
    the modifiers of a variable. *)
Inductive TypeReflection :=
| mkTypeReflection (kind : Kind.t) (scalar_type : ScalarType.t) (col_count : Z)
    (fields : list VariableReflection)
with VariableReflection :=
| mkVariableReflection (name : string) (type : TypeReflection)
    (modifiers : list ModifierID.t).

Definition tr_kind (t : TypeReflection) : Kind.t :=
  match t with mkTypeReflection k _ _ _ => k end.

Definition tr_scalar_type (t : TypeReflection) : ScalarType.t :=
  match t with mkTypeReflection _ s _ _ => s end.

Definition tr_col_count (t : TypeReflection) : Z :=
  match t with mkTypeReflection _ _ c _ => c end.

Definition tr_fields (t : TypeReflection) : list VariableReflection :=
  match t with mkTypeReflection _ _ _ fs => fs end.

Definition vr_name (v : VariableReflection) : string :=
  match v with mkVariableReflection n _ _ => n end.

Definition vr_type (v : VariableReflection) : TypeReflection :=
  match v with mkVariableReflection _ t _ => t end.

Definition vr_modifiers (v : VariableReflection) : list ModifierID.t :=
  match v with mkVariableReflection _ _ ms => ms end.

(** [name], [return_type], [parameters] and the modifiers of a function. *)
Record FunctionReflection := {
  fr_name : string;
  fr_return_type : option TypeReflection;
  fr_parameters : list VariableReflection;
  fr_modifiers : list ModifierID.t
}.

(** The argument [reflection] of [SlangValue.__init__]. *)
Inductive Reflection :=
| RFunction (f : FunctionReflection)
| RVariable (v : VariableReflection)
| RScalar (s : ScalarType.t).

(** The local [slang_type]: a type reflection, a scalar type, or [None] for
    a function without a return type. *)
Inductive slang_type :=
| of_type (t : TypeReflection)
| of_scalar (s : ScalarType.t)
| of_none.

(** [reflection.has_modifier(m)] *)
Definition has_modifier (modifiers : list ModifierID.t) (m : ModifierID.t) : bool :=
  existsb (ModifierID.eqb m) modifiers.

(** [l[:n]] *)
Definition slice_to {A} (l : list A) (n : Z) : list A :=
  if 0 <=? n then take (Z.to_nat n) l
  else take (Z.to_nat (Z.of_nat (length l) + n)) l.

(** What a child reads of its parent. *)
Record Parent := {
  parent_io_type : IOType.t;
  parent_no_diff : bool
}.

(** The locals of [__init__] that its two conditionals may leave unbound. *)
Record Locals := {
  loc_name : option string;
  loc_slang_type : option slang_type;
  loc_io_type : option IOType.t;
  loc_no_diff : option bool
}.

(** [if parent is not None: ...] *)
Definition inherit (reflection : Reflection) (parent : option Parent)
    (name : option string) : result Locals :=
  match parent with
  | Some parent =>
      match reflection with
      | RFunction _ => Raise AssertionError
      | RScalar s =>
          match name with
          | None => Raise AssertionError
          | Some n =>
              Ok {| loc_name := Some n; loc_slang_type := Some (of_scalar s);
                    loc_io_type := Some (parent_io_type parent);
                    loc_no_diff := Some (parent_no_diff parent) |}
          end
      | RVariable v =>
          match name with
          | Some _ => Raise AssertionError
          | None =>
              Ok {| loc_name := Some (vr_name v);
                    loc_slang_type := Some (of_type (vr_type v));
                    loc_io_type := Some (parent_io_type parent);
                    loc_no_diff := Some (parent_no_diff parent) |}
          end
      end
  | None =>
      Ok {| loc_name := None; loc_slang_type := None; loc_io_type := None;
            loc_no_diff := None |}
  end.

(** [if isinstance(reflection, VariableReflection): ... elif
    isinstance(reflection, FunctionReflection): ...] *)
Definition own_modifiers (reflection : Reflection) (l : Locals) : Locals :=
  match reflection with
  | RVariable v =>
      {| loc_name := Some (vr_name v);
         loc_slang_type := Some (of_type (vr_type v));
         loc_io_type :=
           Some (if has_modifier (vr_modifiers v) ModifierID.inout then IOType.inout
                 else if has_modifier (vr_modifiers v) ModifierID.out then IOType.out
                 else IOType.inn);
         loc_no_diff := Some (has_modifier (vr_modifiers v) ModifierID.nodiff) |}
  | RFunction f =>
      {| loc_name := Some "_result";
         loc_slang_type :=
           Some match fr_return_type f with
                | Some t => of_type t
                | None => of_none
                end;
         loc_io_type := Some IOType.out;
         loc_no_diff := Some (negb (has_modifier (fr_modifiers f)
                                      ModifierID.differentiable)) |}
  | RScalar _ => l
  end.

(** The direction and the no-derivative mark that the modifiers of a
    variable give. *)
Definition io_type_of (modifiers : list ModifierID.t) : IOType.t :=
  if has_modifier modifiers ModifierID.inout then IOType.inout
  else if has_modifier modifiers ModifierID.out then IOType.out
  else IOType.inn.

Definition no_diff_of (modifiers : list ModifierID.t) : bool :=
  has_modifier modifiers ModifierID.nodiff.

(** Reading a local. *)
Definition local {A} (n : string) (x : option A) : result A :=
  match x with
  | Some a => Ok a
  | None => Raise (UnboundLocalError n)
  end.

Section SlangValue.

(** [get_or_create_type] of the type registry and [differentiate()] of a
    marshalling type, over the type [P] of marshalling types. *)
Context {P : Type}.
Variable get_or_create_type : slang_type -> result P.
Variable differentiate : P -> result (option P).

Inductive SlangValue := mkSlangValue {
  sv_name : string;
  sv_io_type : IOType.t;
  sv_no_diff : bool;
  sv_primal : P;
  sv_derivative : option P;
  sv_fields : option (dict SlangValue)
}.

(** [__init__] up to [self.derivative = self.primal.differentiate()]. *)
Definition head (reflection : Reflection) (parent : option Parent)
    (name : option string)
  : result (slang_type * (option (dict SlangValue) -> SlangValue)) :=
  (l <- inherit reflection parent name ;;
   let l := own_modifiers reflection l in
   io_type <- local "io_type" (loc_io_type l) ;;
   no_diff <- local "no_diff" (loc_no_diff l) ;;
   slang_type <- local "slang_type" (loc_slang_type l) ;;
   primal <- get_or_create_type slang_type ;;
   derivative <- differentiate primal ;;
   name <- local "name" (loc_name l) ;;
   Ok (slang_type, mkSlangValue name io_type no_diff primal derivative))%result.

(** [SlangValue(slang_type.scalar_type, self, f)]: the value of a scalar has
    no fields. *)
Definition SlangValue_scalar (s : ScalarType.t) (parent : option Parent)
    (name : option string) : result SlangValue :=
  (h <- head (RScalar s) parent name ;;
   Ok (snd h None))%result.

Definition as_parent (self : option (dict SlangValue) -> SlangValue) : Parent :=
  {| parent_io_type := sv_io_type (self None);
     parent_no_diff := sv_no_diff (self None) |}.

(** [{f: SlangValue(slang_type.scalar_type, self, f) for f in
    ["x", "y", "z", "w"][:slang_type.col_count]}] *)
Definition scalar_fields (s : ScalarType.t) (self : Parent)
  : list string -> dict SlangValue -> result (dict SlangValue) :=
  fix items l acc :=
    match l with
    | [] => Ok acc
    | f :: r =>
        (c <- SlangValue_scalar s (Some self) (Some f) ;;
         items r (dict_set f c acc))%result
    end.

Definition vector_fields (t : TypeReflection) (self : Parent)
  : result (dict SlangValue) :=
  scalar_fields (tr_scalar_type t) self
    (slice_to ["x"; "y"; "z"; "w"]%string (tr_col_count t)) [].

(** [SlangValue.__init__] on a variable, and the fields of a type. The
    constructor calls itself on the fields of struct types only, so it is
    written by recursion on the reflection tree. *)
Fixpoint SlangValue_variable (v : VariableReflection) (parent : option Parent)
    (name : option string) {struct v} : result SlangValue :=
  (h <- head (RVariable v) parent name ;;
   fields <- fields_of (vr_type v) (as_parent (snd h)) ;;
   Ok (snd h fields))%result
with fields_of (t : TypeReflection) (self : Parent) {struct t}
  : result (option (dict SlangValue)) :=
  match t with
  | mkTypeReflection Kind.struct _ _ fs =>
      (d <- (fix items (l : list VariableReflection) (acc : dict SlangValue) :=
               match l with
               | [] => Ok acc
               | f :: r =>
                   (c <- SlangValue_variable f (Some self) None ;;
                    items r (dict_set (vr_name f) c acc))%result
               end) fs [] ;;
       Ok (Some d))%result
  | mkTypeReflection Kind.vector _ _ _ =>
      (d <- vector_fields t self ;; Ok (Some d))%result
  | mkTypeReflection Kind.other _ _ _ => Ok None
  end.

(** [SlangValue.__init__] *)
Definition SlangValue_init (reflection : Reflection) (parent : option Parent)
    (name : option string) : result SlangValue :=
  match reflection with
  | RVariable v => SlangValue_variable v parent name
  | RScalar s => SlangValue_scalar s parent name
  | RFunction _ =>
      (h <- head reflection parent name ;;
       fields <- match fst h with
                 | of_type t => fields_of t (as_parent (snd h))
                 | _ => Ok None
                 end ;;
       Ok (snd h fields))%result
  end.

(** The loop over the fields of a struct type, as in [fields_of]. *)
Definition struct_fields (self : Parent)
  : list VariableReflection -> dict SlangValue -> result (dict SlangValue) :=
  fix items l acc :=
    match l with
    | [] => Ok acc
    | f :: r =>
        (c <- SlangValue_variable f (Some self) None ;;
         items r (dict_set (vr_name f) c acc))%result
    end.

Record SlangFunction := {
  sfn_name : string;
  sfn_return_value : option SlangValue;
  sfn_parameters : list SlangValue;
  sfn_differentiable : bool
}.

(** [reflection.return_type is not None and
    reflection.return_type.scalar_type != TypeReflection.ScalarType.void] *)
Definition has_return_value (reflection : FunctionReflection) : bool :=
  match fr_return_type reflection with
  | Some t => negb (ScalarType.eqb (tr_scalar_type t) ScalarType.void)
  | None => false
  end.

(** [SlangFunction.__init__] *)
Definition SlangFunction_init (reflection : FunctionReflection) : result SlangFunction :=
  (return_value <-
     (if has_return_value reflection then
        v <- SlangValue_init (RFunction reflection) None None ;; Ok (Some v)
      else Ok None) ;;
   parameters <-
     list_mapM (fun a => SlangValue_init (RVariable a) None None)
       (fr_parameters reflection) ;;
   Ok {| sfn_name := fr_name reflection;
         sfn_return_value := return_value;
         sfn_parameters := parameters;
         sfn_differentiable :=
           has_modifier (fr_modifiers reflection) ModifierID.differentiable |})%result.

End SlangValue.

End slangvalue.
(** * Properties *)

(** ** Results and dictionaries *)

Lemma rbind_Ok {A B} (c : result A) (k : A -> result B) (b : B) :
  rbind c k = Ok b -> exists a, c = Ok a /\ k a = Ok b.
Proof. destruct c; cbn; [eauto|discriminate]. Qed.

Section Dict.
Context {V : Type}.
Implicit Types (d : dict V) (k n : string).

Lemma dict_get_Some_keys k d v : dict_get k d = Some v -> In k (dict_keys d).
Proof.
  induction d as [|[k' v'] r IH]; cbn; [discriminate|].
  destruct (String.eqb_spec k k') as [->|_]; [now left|]. intros H. right. auto.
Qed.

Lemma dict_get_None_keys k d : dict_get k d = None <-> ~ In k (dict_keys d).
Proof.
  induction d as [|[k' v'] r IH]; cbn; [tauto|].
  destruct (String.eqb_spec k k') as [->|Hne].
  - split; [discriminate|]. intros H. exfalso. apply H. now left.
  - rewrite IH. split; [intros H [E|E]; [congruence|tauto]|tauto].
Qed.

Lemma dict_keys_set k v d n :
  In n (dict_keys (dict_set k v d)) <-> n = k \/ In n (dict_keys d).
Proof.
  induction d as [|[k' v'] r IH]; cbn.
  - intuition.
  - destruct (String.eqb_spec k k') as [->|Hne]; cbn.
    + intuition.
    + rewrite IH. intuition.
Qed.

Lemma dict_get_set_eq k v d : dict_get k (dict_set k v d) = Some v.
Proof.
  induction d as [|[k' v'] r IH]; cbn.
  - now rewrite String.eqb_refl.
  - destruct (String.eqb_spec k k') as [->|Hne]; cbn.
    + now rewrite String.eqb_refl.
    + destruct (String.eqb_spec k k'); [contradiction|exact IH].
Qed.

Lemma dict_get_set_ne k k' v d : k' <> k -> dict_get k' (dict_set k v d) = dict_get k' d.
Proof.
  intros Hne. induction d as [|[k0 v0] r IH]; cbn.
  - destruct (String.eqb_spec k' k); [contradiction|reflexivity].
  - destruct (String.eqb_spec k k0) as [->|Hk]; cbn.
    + destruct (String.eqb_spec k' k0); [contradiction|reflexivity].
    + destruct (String.eqb_spec k' k0); [reflexivity|exact IH].
Qed.
End Dict.

(** ** The access table and differentiability *)

Section Differentiability.
Context {T : Type}.
Implicit Types (b : BoundVariable T) (context : BindContext).

Lemma nodes_unfold b :
  nodes b = b :: match children b with
                 | None => []
                 | Some cs => flat_map (fun nc => nodes (snd nc)) cs
                 end.
Proof. destruct b; reflexivity. Qed.

Lemma _calculate_differentiability_access b mode :
  access (_calculate_differentiability b mode)
  = spec_access_table mode (differentiable b) (io_type (slang b)).
Proof.
  unfold _calculate_differentiability.
  destruct mode, (differentiable b), (io_type (slang b)); reflexivity.
Qed.

Lemma _calculate_differentiability_frame b mode :
  let b' := _calculate_differentiability b mode in
  python b' = python b /\ slang b' = slang b /\ differentiable b' = differentiable b
  /\ call_dimensionality b' = call_dimensionality b /\ children b' = children b.
Proof.
  unfold _calculate_differentiability.
  destruct mode, (differentiable b) eqn:Ed, (io_type (slang b));
    cbn; rewrite ?Ed; repeat split.
Qed.

Lemma calculate_differentiability_root context b :
  let b' := calculate_differentiability context b in
  python b' = python b /\ slang b' = slang b /\ node_settled context b'.
Proof.
  destruct b as [py sl p vn a d k [cs|]]; cbn [calculate_differentiability children];
    unfold node_settled, differentiable_rule.
  all: match goal with
       | |- context [_calculate_differentiability ?x ?m] =>
           pose proof (_calculate_differentiability_access x m) as Ha;
           pose proof (_calculate_differentiability_frame x m) as (Hp & Hs & Hd & _ & _)
       end.
  all: cbn in *; rewrite ?Hp, ?Hs, ?Hd, ?Ha; auto.
Qed.

Lemma calculate_differentiability_children context b :
  children (calculate_differentiability context b)
  = option_map (map (fun nc => (fst nc, calculate_differentiability context (snd nc))))
      (children b).
Proof.
  destruct b as [py sl p vn a d k [cs|]]; cbn [calculate_differentiability children].
  - reflexivity.
  - match goal with
    | |- context [_calculate_differentiability ?x ?m] =>
        destruct (_calculate_differentiability_frame x m) as (_ & _ & _ & _ & Hc)
    end.
    exact Hc.
Qed.

(** Every node of the tree is settled, not only its root. *)
Lemma calculate_differentiability_nodes context b :
  Forall (node_settled context) (nodes (calculate_differentiability context b)).
Proof.
  induction b as [py sl p vn a d k|py sl p vn a d k cs IH] using BoundVariable_tree_ind;
    rewrite nodes_unfold, calculate_differentiability_children;
    (constructor; [apply calculate_differentiability_root|]); cbn [children option_map].
  - constructor.
  - induction IH as [|[n c] r Hc _ IHr]; [constructor|].
    cbn [map flat_map fst snd]. apply Forall_app. split; [exact Hc|exact IHr].
Qed.

Lemma differentiable_rule_spec b :
  differentiable_rule b = true <-> spec_differentiable (slang b) (python b).
Proof.
  unfold differentiable_rule, spec_differentiable.
  rewrite !andb_true_iff, negb_true_iff.
  destruct (sl_derivative (slang b)); split.
  - intros [[? _] ?]. repeat split; eauto.
  - intros (? & _ & ?). auto.
  - intros [[_ ?] _]. discriminate.
  - intros (_ & [? ?] & _). discriminate.
Qed.

(** C1. For every binding tree and every call mode, [calculate_differentiability]
    leaves at every node the access pair that the table of the specification
    gives for the call mode, the node's direction and its differentiable
    flag: the nine rows for primal and backward calls, and [none] twice in
    forward mode. The same holds of [_calculate_differentiability] on a single
    node, for any mode. *)
Theorem access_table_totality context b :
  Forall (fun n => access n = spec_access_table (call_mode context) (differentiable n)
                                (io_type (slang n)))
    (nodes (calculate_differentiability context b))
  /\ forall mode,
       access (_calculate_differentiability b mode)
       = spec_access_table mode (differentiable b) (io_type (slang b)).
Proof.
  split.
  - eapply Forall_impl; [apply calculate_differentiability_nodes|].
    intros n [_ H]. exact H.
  - apply _calculate_differentiability_access.
Qed.

(** C9. After [calculate_differentiability], a node is marked differentiable
    iff the kernel side does not mark it no-diff, the kernel side exposes a
    derivative type, and the host side reports its value as differentiable.
    This holds at the root, in terms of the nodes it was built from, and at
    every node of the tree. *)
Theorem differentiable_iff_rule context b :
  (differentiable (calculate_differentiability context b) = true
   <-> spec_differentiable (slang b) (python b))
  /\ Forall (fun n => differentiable n = true <-> spec_differentiable (slang n) (python n))
       (nodes (calculate_differentiability context b)).
Proof.
  split.
  - destruct (calculate_differentiability_root context b) as (Hp & Hs & Hd & _).
    rewrite Hd, differentiable_rule_spec, Hp, Hs. reflexivity.
  - eapply Forall_impl; [apply calculate_differentiability_nodes|].
    intros n [H _]. rewrite H. apply differentiable_rule_spec.
Qed.

End Differentiability.

(** ** Finalization of the mappings *)

Lemma rev_countdown (D : Z) (n : nat) :
  rev (map (fun i => D - i - 1) (map Z.of_nat (seq 0 n)))
  = seqZ (D - Z.of_nat n) (Z.of_nat n).
Proof.
  induction n as [|n IH].
  - reflexivity.
  - rewrite seq_S, !map_app, rev_app_distr. cbn [map rev app Nat.add].
    rewrite IH, (seqZ_cons (D - Z.of_nat (S n))) by lia.
    f_equal; [lia|f_equal; lia].
Qed.

Lemma default_mapping_right_aligned (D K : Z) :
  rev (map (fun i => D - i - 1) (range K)) = seqZ (D - K) K.
Proof.
  unfold range. destruct (Z.le_gt_cases 0 K) as [H|H].
  - rewrite rev_countdown, Z2Nat.id by lia. reflexivity.
  - rewrite seqZ_nil by lia. replace (Z.to_nat K) with 0%nat by lia. reflexivity.
Qed.

Section Finalize.
Context {T : Type}.
Implicit Types (b : BoundVariable T) (context : BindContext).

Lemma _finalize_mappings_mapping context b :
  vector_mapping (_finalize_mappings context b)
  = if Shape.valid (vector_mapping b) then vector_mapping b
    else Some (seqZ (ctx_call_dimensionality context - contribution context b)
                 (contribution context b)).
Proof.
  unfold _finalize_mappings, vector_mapping, contribution. cbn.
  destruct (Shape.valid (py_vector_mapping (python b))); cbn; [reflexivity|].
  unfold Shape.make. now rewrite default_mapping_right_aligned.
Qed.

Lemma finalize_mappings_root context b :
  finalize_mappings context b
  = _finalize_mappings context
      (set_children
         (option_map (map (fun nc => (fst nc, finalize_mappings context (snd nc))))
            (children b)) b).
Proof. destruct b as [py sl p vn a d k [cs|]]; reflexivity. Qed.

Lemma finalize_mappings_mapping context b :
  vector_mapping (finalize_mappings context b)
  = if Shape.valid (vector_mapping b) then vector_mapping b
    else Some (seqZ (ctx_call_dimensionality context - contribution context b)
                 (contribution context b)).
Proof. rewrite finalize_mappings_root, _finalize_mappings_mapping. reflexivity. Qed.

Lemma _finalize_mappings_children context b :
  children (_finalize_mappings context b) = children b.
Proof.
  unfold _finalize_mappings. cbn.
  destruct (Shape.valid (py_vector_mapping (python b))); reflexivity.
Qed.

(** Every node of the finalized tree is the finalization of the node it
    comes from, so that a statement about [finalize_mappings context b] for
    all [b] is a statement about every node. *)
Lemma finalize_mappings_nodes context b :
  nodes (finalize_mappings context b) = map (finalize_mappings context) (nodes b).
Proof.
  induction b as [py sl p vn a d k|py sl p vn a d k cs IH] using BoundVariable_tree_ind.
  - rewrite nodes_unfold. rewrite finalize_mappings_root at 2.
    rewrite _finalize_mappings_children. reflexivity.
  - rewrite nodes_unfold. rewrite finalize_mappings_root at 2.
    rewrite _finalize_mappings_children. cbn [children set_children option_map nodes map].
    f_equal. induction IH as [|[n c] r Hc _ IHr]; [reflexivity|].
    cbn [map flat_map fst snd] in *. rewrite map_app, Hc, IHr. reflexivity.
Qed.

(** What [finalize_mappings] does to the node it is called on. *)
Lemma finalize_mappings_node context b :
  let D := ctx_call_dimensionality context in
  let K := contribution context b in
  (Shape.valid (vector_mapping b) = false -> K <= D ->
   vector_mapping (finalize_mappings context b) = Some (seqZ (D - K) K))
  /\ (Shape.valid (vector_mapping b) = true ->
      vector_mapping (finalize_mappings context b) = vector_mapping b)
  /\ call_dimensionality (finalize_mappings context b) = Some K
  /\ same_but_mapping b (finalize_mappings context b).
Proof.
  intros D K. rewrite finalize_mappings_mapping. split; [|split; [|split]].
  - intros -> _. reflexivity.
  - intros ->. reflexivity.
  - rewrite finalize_mappings_root. unfold _finalize_mappings. cbn.
    destruct (Shape.valid _); reflexivity.
  - rewrite finalize_mappings_root. unfold same_but_mapping, _finalize_mappings. cbn.
    destruct (Shape.valid _); cbn; repeat apply conj; reflexivity.
Qed.

(** C2, as the code has it. Let [D] be the overall call dimensionality.
    [finalize_mappings] keeps the shape of the tree, and for every node of
    it, with [K] the call-dimensionality contribution of the node ([D]
    itself when still unknown): if the vector mapping of the node is not
    valid and [K <= D], the node gets the mapping [D-K, D-K+1, ..., D-1]; if
    it is valid, the node keeps it; in both cases [K] is recorded as the
    contribution of the node, and its kernel side, path, name, access pair,
    differentiable flag and the other attributes of its host side are as
    they were. *)
Theorem finalize_mappings_right_aligned context b :
  let D := ctx_call_dimensionality context in
  Forall2
    (fun n n' =>
       let K := contribution context n in
       (Shape.valid (vector_mapping n) = false -> K <= D ->
        vector_mapping n' = Some (seqZ (D - K) K))
       /\ (Shape.valid (vector_mapping n) = true ->
           vector_mapping n' = vector_mapping n)
       /\ call_dimensionality n' = Some K
       /\ same_but_mapping n n')
    (nodes b) (nodes (finalize_mappings context b)).
Proof.
  intros D. rewrite finalize_mappings_nodes.
  induction (nodes b) as [|n r IH]; cbn [map].
  - apply List.Forall2_nil.
  - apply List.Forall2_cons; [apply finalize_mappings_node|exact IH].
Qed.

End Finalize.

(** In a call of three dimensions, a struct with the explicit mapping [()]
    and a field that needs two dimensions: the field is mapped to the two
    trailing dimensions, the struct keeps its mapping. *)
Lemma finalize_mappings_right_aligned_witness :
  let x := Example.leaf "x" IOType.out Example.float_ref None true
             (AccessType.none, AccessType.none) (Some 2) in
  let b := Example.out_struct x in
  let context := Example.context CallMode.prim 3 in
  nodes b = [b; x]
  /\ Shape.valid (vector_mapping x) = false
  /\ contribution context x <= ctx_call_dimensionality context
  /\ Shape.valid (vector_mapping b) = true
  /\ exists b' x',
       nodes (finalize_mappings context b) = [b'; x']
       /\ vector_mapping x' = Some [1; 2]
       /\ vector_mapping b' = Some []
       /\ call_dimensionality x' = Some 2.
Proof.
  intros x b context.
  assert (En : nodes b = [b; x]) by reflexivity.
  assert (Em : nodes (finalize_mappings context b)
               = [finalize_mappings context b; finalize_mappings context x])
    by reflexivity.
  split; [exact En|]. split; [reflexivity|]. split; [cbn; lia|]. split; [reflexivity|].
  exists (finalize_mappings context b), (finalize_mappings context x).
  split; [exact Em|].
  pose proof (finalize_mappings_right_aligned context b) as H.
  cbv zeta in H. rewrite En, Em in H.
  apply List.Forall2_cons_iff in H as [(_ & Hb & _) H].
  apply List.Forall2_cons_iff in H as [(Hx & _ & Hk & _) _].
  split; [exact (Hx eq_refl ltac:(cbn; lia))|]. split; [exact (Hb eq_refl)|exact Hk].
Defined.

(** C2, as stated, fails: a node with a valid mapping and no call
    dimensionality yet is not left as it is, its call dimensionality
    becomes that of the call. *)
Lemma finalize_mappings_sets_contribution :
  let b := Example.leaf "a" IOType.inn Example.float_ref (Some [0]) true
             (AccessType.none, AccessType.none) None in
  let context := Example.context CallMode.prim 3 in
  Shape.valid (vector_mapping b) = true
  /\ call_dimensionality b = None
  /\ call_dimensionality (finalize_mappings context b) = Some 3
  /\ finalize_mappings context b <> b.
Proof.
  intros b context. split; [reflexivity|]. split; [reflexivity|].
  split; [reflexivity|]. intros H. apply (f_equal call_dimensionality) in H.
  discriminate H.
Qed.

(** ** Implicit vectorization *)

Lemma fold_left_max_spec (r : list Z) (x : Z) :
  let m := fold_left Z.max r x in
  (m = x \/ In m r) /\ x <= m /\ Forall (fun y => y <= m) r.
Proof.
  revert x. induction r as [|y r IH]; intros x; cbn.
  - repeat split; [now left|lia|constructor].
  - specialize (IH (Z.max x y)). cbn in IH.
    set (m := fold_left Z.max r (Z.max x y)) in *.
    destruct IH as (Hin & Hle & Hall). repeat split.
    + destruct Hin as [Hin|Hin]; [|right; right; exact Hin].
      destruct (Z.max_spec x y) as [[_ E]|[_ E]].
      * right; left; congruence.
      * left; congruence.
    + lia.
    + constructor; [lia|exact Hall].
Qed.

Lemma py_max_is_max (l : list Z) (m : Z) : py_max l = Ok m -> is_max m l.
Proof.
  destruct l as [|x r]; [discriminate|]. cbn. intros [= <-].
  destruct (fold_left_max_spec r x) as (Hin & Hle & Hall). split.
  - destruct Hin as [->|Hin]; [now left|now right].
  - constructor; assumption.
Qed.

Section Implicit.
Context {T : Type} {BT : BaseType T}.
Implicit Types (b : BoundVariable T) (context : BindContext).

Lemma _apply_implicit_vectorization_spec context b b' :
  _apply_implicit_vectorization context b = Ok b' ->
  vector_mapping b' = vector_mapping b /\ slang b' = slang b
  /\ children b' = children b /\ spec_contribution context b'.
Proof.
  unfold _apply_implicit_vectorization, spec_contribution, vector_mapping, vector_type.
  intros H.
  apply rbind_Ok in H as (py1 & H1 & H).
  apply rbind_Ok in H as (py2 & H2 & H).
  apply rbind_Ok in H as (py3 & H3 & H).
  apply rbind_Ok in H as (k & Hk & H).
  injection H as <-. cbn.
  assert (E1 : py_vector_mapping py1 = py_vector_mapping (python b)
               /\ py_primal py1 = py_primal (python b)).
  { destruct (Shape.valid _); [|injection H1 as <-; auto].
    apply rbind_Ok in H1 as (n & _ & H1). apply rbind_Ok in H1 as (vt & _ & H1).
    injection H1 as <-. auto. }
  assert (E2 : py_vector_mapping py2 = py_vector_mapping (python b)
               /\ py_primal py2 = py_primal (python b)).
  { destruct (py_vector_type py1); [injection H2 as <-; auto|].
    destruct (String.eqb _ _); [injection H2 as <-; auto|].
    apply rbind_Ok in H2 as (vt & _ & H2). injection H2 as <-. cbn. auto. }
  assert (E3 : py_vector_mapping py3 = py_vector_mapping (python b)
               /\ py_primal py3 = py_primal (python b)).
  { destruct (negb _ && _); [|injection H3 as <-; auto].
    destruct (String.eqb _ _); [|discriminate]. injection H3 as <-. cbn. auto. }
  destruct E3 as [E3 E3p]. rewrite E3. repeat split.
  destruct (py_vector_mapping (python b)) as [m|] eqn:Em; cbn in Hk.
  - destruct m as [|x r]; cbn in Hk.
    + injection Hk as <-. reflexivity.
    + destruct (Z.ltb_spec 0 (Z.of_nat (S (length r)))) as [_|Hc]; [|lia].
      injection Hk as <-. exists (fold_left Z.max r x).
      split; [now apply py_max_is_max|reflexivity].
  - destruct (py_vector_type py3) as [vt|] eqn:Evt; [|discriminate].
    exists vt, k. auto.
Qed.

Lemma apply_implicit_vectorization_root context b :
  apply_implicit_vectorization context b
  = match children b with
    | None => _apply_implicit_vectorization context b
    | Some cs =>
        rbind (dict_mapM (apply_implicit_vectorization context) cs)
          (fun cs' => _apply_implicit_vectorization context (set_children (Some cs') b))
    end.
Proof. destruct b as [py sl p vn a d k [cs|]]; reflexivity. Qed.

(** With an explicit mapping, the node-level step returns as soon as the
    host type can be reduced by the length of the mapping. *)
Lemma _apply_implicit_vectorization_explicit context b m vt :
  vector_mapping b = Some m ->
  reduce_type (py_primal (python b)) (Z.of_nat (length m)) = Ok (Some vt) ->
  exists b', _apply_implicit_vectorization context b = Ok b'
             /\ vector_type b' = Some vt.
Proof.
  unfold _apply_implicit_vectorization, vector_mapping, vector_type.
  intros -> Hr. cbn. rewrite Hr. cbn.
  destruct m as [|x r]; cbn; [eauto|].
  destruct (Z.ltb_spec 0 (Z.of_nat (S (length r)))) as [_|Hc]; [|lia].
  cbn. eauto.
Qed.

(** C5. When [apply_implicit_vectorization] returns, the node keeps its
    vector mapping and its call-dimensionality contribution is [max(mapping)+1]
    if the mapping is valid and non-empty, [0] if it is valid and empty, and
    otherwise what [resolve_dimensionality] of the host type gives for the
    resolved vector type. *)
Theorem apply_implicit_vectorization_contribution context b b' :
  apply_implicit_vectorization context b = Ok b' ->
  vector_mapping b' = vector_mapping b /\ spec_contribution context b'.
Proof.
  rewrite apply_implicit_vectorization_root. destruct (children b) as [cs|].
  - intros H. apply rbind_Ok in H as (cs' & _ & H).
    apply _apply_implicit_vectorization_spec in H as (Hm & _ & _ & H). auto.
  - intros H. apply _apply_implicit_vectorization_spec in H as (Hm & _ & _ & H). auto.
Qed.

End Implicit.

(** A buffer bound with the explicit mapping [(1, 0)] contributes two
    dimensions. *)
Lemma apply_implicit_vectorization_contribution_witness :
  let b := Example.leaf "a" IOType.inn Example.float_ref (Some [1; 0]) true
             (AccessType.none, AccessType.none) None in
  let b' := Example.leaf "a" IOType.inn Example.float_ref (Some [1; 0]) true
              (AccessType.none, AccessType.none) (Some 2) in
  let context := Example.context CallMode.prim 0 in
  apply_implicit_vectorization context b = Ok b'
  /\ vector_mapping b' = vector_mapping b /\ spec_contribution context b'.
Proof.
  intros b b' context. split; [reflexivity|].
  apply (apply_implicit_vectorization_contribution context b b'). reflexivity.
Defined.

(** ** Construction of the binding tree *)

Section Init.
Context {T : Type}.

Lemma BoundVariable_init_unfold (python : PythonVariable T) (slang : SlangVariable T)
    ot path :
  BoundVariable_init python slang ot path
  = match py_fields python with
    | None => Ok (init_self python slang path)
    | Some fields =>
        match sl_fields slang with
        | None => Raise AssertionError
        | Some slang_fields =>
            rbind (init_items (fun cp cs => BoundVariable_init cp cs ot
                                             (Some (init_path slang path)))
                     slang_fields fields [])
                  (fun cs => Ok (set_children (Some cs) (init_self python slang path)))
        end
    end.
Proof. destruct python; reflexivity. Qed.

Lemma init_items_Ok f (sf : dict (SlangVariable T)) l acc cs :
  init_items f sf l acc = Ok cs ->
  (forall n, In n (dict_keys cs) <-> In n (dict_keys acc) \/ In n (dict_keys l))
  /\ (forall n, In n (dict_keys l) -> In n (dict_keys sf)).
Proof.
  revert acc. induction l as [|[name cp] r IH]; intros acc; cbn.
  - intros [= <-]. split; intros n; cbn; [|intros []].
    split; [intros H; left; exact H|intros [H|[]]; exact H].
  - intros H. apply rbind_Ok in H as (child_slang & Hs & H).
    apply rbind_Ok in H as (child & _ & H).
    apply IH in H as [Hk Hsub]. split.
    + intros n. rewrite Hk, dict_keys_set. unfold dict_keys. intuition congruence.
    + intros n [<-|Hn]; [|auto].
      unfold dict_getitem in Hs. destruct (dict_get name sf) eqn:E; [|discriminate].
      eapply dict_get_Some_keys; eauto.
Qed.

Lemma init_items_missing f (sf : dict (SlangVariable T)) l acc n :
  In n (dict_keys l) -> ~ In n (dict_keys sf) ->
  exists e, init_items f sf l acc = Raise e.
Proof.
  revert acc. induction l as [|[name cp] r IH]; intros acc; cbn; [tauto|].
  intros Hin Hn. unfold dict_getitem.
  destruct (dict_get name sf) as [child_slang|] eqn:E; cbn; [|eauto].
  destruct (f cp child_slang) as [child|e]; cbn; [|eauto].
  apply IH; [|exact Hn]. destruct Hin as [<-|Hin]; [|exact Hin].
  exfalso. apply Hn. eapply dict_get_Some_keys; eauto.
Qed.

(** The first host-side field that the kernel-side node lacks raises
    [KeyError] for its name, when the fields before it were bound. *)
Lemma init_items_KeyError f (sf : dict (SlangVariable T)) pre n cp post acc :
  ~ In n (dict_keys sf) ->
  Forall (fun kv => exists cs, dict_get (fst kv) sf = Some cs
                               /\ is_ok (f (snd kv) cs) = true) pre ->
  init_items f sf (pre ++ (n, cp) :: post) acc = Raise (KeyError n).
Proof.
  intros Hn Hpre. revert acc.
  induction Hpre as [|[name cq] r (cs & Hs & Hok) _ IH]; intros acc; cbn.
  - apply dict_get_None_keys in Hn. unfold dict_getitem. rewrite Hn. reflexivity.
  - unfold dict_getitem. cbn in Hs, Hok. rewrite Hs. cbn.
    destruct (f cq cs) as [child|e]; [|discriminate]. cbn. apply IH.
Qed.

(** C4, as the code has it. When [BoundVariable.__init__] returns, the node
    has children iff the host-side node is composite, which is iff both
    paired nodes are composite; the names of the children are the names of
    the host-side fields, and each of them names a kernel-side field.
    A composite host-side node paired with a kernel-side leaf raises
    [AssertionError]. A host-side field name that the kernel-side node
    lacks makes the construction fail: with [KeyError] for that name when
    the fields before it name kernel-side fields and were bound, and
    otherwise with the error of an earlier field. All of this is during
    construction, which has no access to the code generator. Kernel-side
    fields without a host-side counterpart are not looked at. *)
Theorem BoundVariable_init_children (python : PythonVariable T)
    (slang : SlangVariable T) ot path :
  (forall b, BoundVariable_init python slang ot path = Ok b ->
     (is_Some (children b) <-> is_Some (py_fields python) /\ is_Some (sl_fields slang))
     /\ (is_Some (children b) <-> is_Some (py_fields python))
     /\ forall cs, children b = Some cs ->
          exists fields slang_fields,
            py_fields python = Some fields /\ sl_fields slang = Some slang_fields
            /\ (forall n, In n (dict_keys cs) <-> In n (dict_keys fields))
            /\ (forall n, In n (dict_keys fields) -> In n (dict_keys slang_fields)))
  /\ (is_Some (py_fields python) -> sl_fields slang = None ->
      BoundVariable_init python slang ot path = Raise AssertionError)
  /\ (forall slang_fields pre n cp post,
        py_fields python = Some (pre ++ (n, cp) :: post) ->
        sl_fields slang = Some slang_fields ->
        ~ In n (dict_keys slang_fields) ->
        Forall (fun kv =>
                  exists cs, dict_get (fst kv) slang_fields = Some cs
                    /\ is_ok (BoundVariable_init (snd kv) cs ot
                                (Some (init_path slang path))) = true) pre ->
        BoundVariable_init python slang ot path = Raise (KeyError n))
  /\ (forall fields slang_fields n,
        py_fields python = Some fields -> sl_fields slang = Some slang_fields ->
        In n (dict_keys fields) -> ~ In n (dict_keys slang_fields) ->
        exists e, BoundVariable_init python slang ot path = Raise e).
Proof.
  rewrite BoundVariable_init_unfold. split; [|split; [|split]].
  - intros b. destruct (py_fields python) as [fields|].
    + destruct (sl_fields slang) as [slang_fields|]; [|discriminate].
      intros H. apply rbind_Ok in H as (cs & Hcs & [= <-]). cbn.
      apply init_items_Ok in Hcs as [Hk Hsub].
      split; [split; eauto|]. split; [split; eauto|].
      intros cs' [= <-]. exists fields, slang_fields. repeat split; auto.
      * intros H. apply Hk in H. cbn in H. tauto.
      * intros H. apply Hk. now right.
    + intros [= <-]. cbn. split; [|split].
      * split; [intros [? [=]]|intros [[? [=]] _]].
      * split; intros [? [=]].
      * intros cs [=].
  - intros [fields ->] ->. reflexivity.
  - intros slang_fields pre n cp post -> -> Hn Hpre.
    rewrite (init_items_KeyError
               (fun cp cs => BoundVariable_init cp cs ot (Some (init_path slang path)))
               slang_fields pre n cp post [] Hn Hpre).
    reflexivity.
  - intros fields slang_fields n -> -> Hin Hn.
    destruct (init_items_missing
                (fun cp cs => BoundVariable_init cp cs ot (Some (init_path slang path)))
                slang_fields fields [] n Hin Hn) as [e ->].
    exists e. reflexivity.
Qed.

End Init.

(** A host dictionary [{x}] bound to a kernel struct [{x, y}]: the node has
    the child [x], named by a kernel-side field. A host dictionary [{x, z}]
    bound to the same struct: [x] is bound, and [z] raises [KeyError]. *)
Lemma BoundVariable_init_children_witness :
  (exists b cs,
     BoundVariable_init Example.host_x Example.kernel_xy None None = Ok b
     /\ children b = Some cs
     /\ (forall n, In n (dict_keys cs) <-> In n ["x"])
     /\ (forall n, In n ["x"] -> In n ["x"; "y"]))
  /\ ~ In "z" (dict_keys [("x", Example.sl_leaf "x" IOType.inn Example.float_ref);
                          ("y", Example.sl_leaf "y" IOType.inn Example.float_ref)])
  /\ BoundVariable_init Example.host_xz Example.kernel_xy None None
     = Raise (KeyError "z").
Proof.
  split; [|split].
  - eexists. eexists. split; [reflexivity|]. split; [reflexivity|].
    destruct (proj1 (BoundVariable_init_children Example.host_x Example.kernel_xy None None)
                _ eq_refl) as (_ & _ & H).
    destruct (H _ eq_refl) as (fields & slang_fields & [= <-] & [= <-] & Hk & Hs).
    split; [exact Hk|exact Hs].
  - cbn. intros [H|[H|[]]]; discriminate H.
  - apply (proj1 (proj2 (proj2 (BoundVariable_init_children
                                  Example.host_xz Example.kernel_xy None None)))
             _ [("x", Example.py_leaf "x" Example.float_ref None None false)]
             "z" (Example.py_leaf "z" Example.float_ref None None false) []
             eq_refl eq_refl).
    + cbn. intros [H|[H|[]]]; discriminate H.
    + apply List.Forall_cons; [|apply List.Forall_nil].
      eexists. split; reflexivity.
Defined.

(** C4, as stated, fails: a kernel-side struct with a field [y] that the
    host-side dictionary lacks is bound without an error, and the two name
    sets differ. *)
Lemma init_extra_kernel_field :
  exists b cs fields slang_fields,
    BoundVariable_init Example.host_x Example.kernel_xy None None = Ok b
    /\ children b = Some cs
    /\ py_fields (python b) = Some fields
    /\ sl_fields (slang b) = Some slang_fields
    /\ ~ (forall n, In n (dict_keys fields) <-> In n (dict_keys slang_fields)).
Proof.
  do 4 eexists. split; [reflexivity|]. do 3 (split; [reflexivity|]).
  intros H. destruct (proj2 (H "y")) as [E|[]]; [cbn; tauto|discriminate E].
Qed.

(** ** Writability at code generation *)

Section Writability.
Context {T : Type} {BT : BaseType T}.
Variable gen_calldata :
  T -> CodeGenBlock -> BindContext -> BoundVariable T -> CodeGenBlock * result unit.
Implicit Types (b : BoundVariable T) (context : BindContext) (cg : CodeGen).

Lemma is_write_access_spec (a : AccessType.t) :
  is_write_access a = true <-> a = AccessType.write \/ a = AccessType.readwrite.
Proof. destruct a; cbn; intuition discriminate. Qed.

Lemma gen_call_data_code_leaf b context depth :
  children b = None ->
  gen_call_data_code gen_calldata b context depth
  = (((if is_write_access (fst (access b)) && negb (py_writable (python b)) then
         if depth =? 0 then
           sraise (ValueError "Cannot read back value for non-writable type")
         else sret tt
       else sret tt) ;;;
      gen_leaf_call_data gen_calldata b context) ;;;
     (if depth =? 0 then
        emit_call_data [declare ("_t_" ++ variable_name b)%string (variable_name b)]
      else sret tt) ;;;
     sret (Some (variable_name b)))%se.
Proof. destruct b as [py sl p vn a d k cs]. cbn. intros ->. reflexivity. Qed.

(** C3, as the code has it. For a leaf whose primal access is write or
    readwrite and whose host-side value is not writable: generated at depth
    0 (a top-level argument), code generation raises [ValueError] and the
    code generator is left as it was; generated at a depth other than 0 (a
    field of a composite), the check raises nothing and the call data of the
    leaf is generated as for any other leaf. *)
Theorem gen_call_data_code_nonwritable b context depth cg :
  children b = None ->
  fst (access b) = AccessType.write \/ fst (access b) = AccessType.readwrite ->
  py_writable (python b) = false ->
  (depth = 0 ->
   gen_call_data_code gen_calldata b context depth cg
   = (cg, Raise (ValueError "Cannot read back value for non-writable type")))
  /\ (depth <> 0 ->
      gen_call_data_code gen_calldata b context depth cg
      = (gen_leaf_call_data gen_calldata b context ;;;
         sret (Some (variable_name b)))%se cg).
Proof.
  intros Hc Ha Hw. rewrite gen_call_data_code_leaf by exact Hc.
  apply is_write_access_spec in Ha. rewrite Ha, Hw. cbn [andb negb]. split.
  - intros ->. reflexivity.
  - intros Hd. destruct (Z.eqb_spec depth 0) as [|_]; [contradiction|].
    unfold sbind, sret. cbn.
    destruct (gen_leaf_call_data gen_calldata b context cg) as [cg' [[]|e]]; reflexivity.
Qed.

End Writability.

(** A hash argument passed for a top-level [out] parameter is rejected and
    nothing is emitted. *)
Lemma gen_call_data_code_nonwritable_witness :
  children Example.hash_out = None
  /\ fst (access Example.hash_out) = AccessType.write
  /\ py_writable (python Example.hash_out) = false
  /\ gen_call_data_code Example.call_gen_calldata Example.hash_out
       (Example.context CallMode.prim 0) 0 Example.empty_codegen
     = (Example.empty_codegen,
        Raise (ValueError "Cannot read back value for non-writable type")).
Proof.
  split; [reflexivity|]. split; [reflexivity|]. split; [reflexivity|].
  apply (proj1 (gen_call_data_code_nonwritable Example.call_gen_calldata Example.hash_out
                  (Example.context CallMode.prim 0) 0 Example.empty_codegen
                  eq_refl (or_introl eq_refl) eq_refl)).
  reflexivity.
Defined.

(** C3, as stated, fails below the top level: a value of a kind that the
    host cannot read back, as the field [x] of a struct bound to an [out]
    parameter, raises nothing, and the record of the leaf is emitted, on its
    own at depth 1 and inside the struct. *)
Lemma nested_nonwritable_leaf_emits :
  children Provider.constant_out = None
  /\ fst (access Provider.constant_out) = AccessType.write
  /\ py_writable (python Provider.constant_out) = false
  /\ gen_call_data_code Provider.gen_calldata Provider.constant_out
       (Example.context CallMode.prim 0) 1 Example.empty_codegen
     = ({| call_data_structs :=
             [begin_struct "_t_x"; declare "float" "primal"; end_struct;
              append_statement "static const int _m_x = 0"];
           call_data := [] |},
        Ok (Some "x"))
  /\ gen_call_data_code Provider.gen_calldata
       (Provider.out_struct Provider.constant_out)
       (Example.context CallMode.prim 0) 0 Example.empty_codegen
     = ({| call_data_structs :=
             [begin_struct "_t_p";
              begin_struct "_t_x"; declare "float" "primal"; end_struct;
              append_statement "static const int _m_x = 0";
              declare "_t_x" "x"; end_struct;
              append_statement "static const int _m_p = 0"];
           call_data := [declare "_t_p" "p"] |},
        Ok (Some "p")).
Proof. repeat apply conj; vm_compute; reflexivity. Qed.

(** ** The pipeline and the call cache *)

Lemma sbind_inv {S A B} (c : SE S A) (k : A -> SE S B) s s' r :
  sbind c k s = (s', r) ->
  (exists s1 a, c s = (s1, Ok a) /\ k a s1 = (s', r))
  \/ (exists e, c s = (s', Raise e) /\ r = Raise e).
Proof.
  unfold sbind. destruct (c s) as [s1 [a|e]].
  - intros H. left. eauto.
  - intros [= <- <-]. right. eauto.
Qed.

(** The import at the head of the [try] block fails at the first of the
    three names that [function.py] does not bind. *)
Lemma import_from_function_fails :
  import_from "kernelfunctions.function" function_module imported_names
  = Raise (ImportError
             "cannot import name 'FunctionChainHook' from 'kernelfunctions.function'").
Proof. reflexivity. Qed.

Section CallCache.
Context {W T : Type} {CS : callsignature.t W T} {CO : Collaborators W T}.
Implicit Types (st : InitState (W := W) (T := T)).
Implicit Types (p : Process (W := W) (T := T)) (c : Call) (sig : string).

(** The [ImportError] is caught by [except Exception], which reads
    [bindings] before it is bound. *)
Lemma CallData_init_raises chain args kwargs st :
  CallData_init chain args kwargs st = (st, Raise (UnboundLocalError "bindings")).
Proof. reflexivity. Qed.


Lemma CallData_new_frame chain args kwargs p p' r :
  CallData_new chain args kwargs p = (p', r) ->
  CALL_DATA_CACHE p' = CALL_DATA_CACHE p /\ constructed p' = S (constructed p).
Proof.
  unfold CallData_new.
  destruct (CallData_init chain args kwargs (InitState_initial p)) as [st r0].
  intros [= <- _]. split; reflexivity.
Qed.

(** The two ways through [_build_call_data] once the signature is known. *)
Lemma _build_call_data_cases c sig p :
  signature_of c = Ok sig ->
  _build_call_data (callee c) (call_args c) (call_kwargs c) p
  = match CALL_DATA_CACHE p !! sig with
    | Some res => (p, Ok res)
    | None => build_on_miss (callee c) (call_args c) (call_kwargs c) sig p
    end.
Proof.
  unfold signature_of, _build_call_data, sbind, slift, sget. intros ->.
  destruct (CALL_DATA_CACHE p !! sig) as [res|] eqn:E.
  - rewrite bool_decide_eq_true_2 by eauto. reflexivity.
  - rewrite bool_decide_eq_false_2 by (intros [? [=]]). reflexivity.
Qed.

Lemma _build_call_data_unsigned c e p :
  signature_of c = Raise e ->
  _build_call_data (callee c) (call_args c) (call_kwargs c) p = (p, Raise e).
Proof.
  unfold signature_of, _build_call_data, sbind, slift. intros ->. reflexivity.
Qed.

Lemma build_on_miss_cases self args kwargs sig p p' r :
  build_on_miss self args kwargs sig p = (p', r) ->
  constructed p' = S (constructed p)
  /\ match r with
     | Ok res => CALL_DATA_CACHE p' = <[sig := res]> (CALL_DATA_CACHE p)
     | Raise _ => CALL_DATA_CACHE p' = CALL_DATA_CACHE p
     end.
Proof.
  unfold build_on_miss, sbind.
  destruct (CallData_new (rev (ancestors self)) args kwargs p) as [p1 [res|e]] eqn:E;
    apply CallData_new_frame in E as [Ec En].
  - cbn. intros [= <- <-]. cbn. rewrite Ec. auto.
  - intros [= <- <-]. auto.
Qed.

(** A cache entry is never evicted or replaced. *)
Lemma _build_call_data_keeps c p s v :
  CALL_DATA_CACHE p !! s = Some v ->
  CALL_DATA_CACHE (fst (_build_call_data (callee c) (call_args c) (call_kwargs c) p)) !! s
  = Some v.
Proof.
  intros Hs. destruct (signature_of c) as [sig|e] eqn:Esig.
  - rewrite (_build_call_data_cases c sig p Esig).
    destruct (CALL_DATA_CACHE p !! sig) as [res|] eqn:E; [exact Hs|].
    destruct (build_on_miss (callee c) (call_args c) (call_kwargs c) sig p)
      as [p' r] eqn:Eb.
    apply build_on_miss_cases in Eb as [_ Hc]. cbn. destruct r as [res|e'].
    + rewrite Hc, lookup_insert_ne; [exact Hs|]. intros ->. congruence.
    + rewrite Hc. exact Hs.
  - rewrite (_build_call_data_unsigned c e p Esig). exact Hs.
Qed.

Lemma run_calls_keeps cs p s v :
  CALL_DATA_CACHE p !! s = Some v -> CALL_DATA_CACHE (run_calls cs p) !! s = Some v.
Proof.
  revert p. induction cs as [|c r IH]; intros p Hs; cbn [run_calls]; [exact Hs|].
  apply IH, _build_call_data_keeps, Hs.
Qed.

Lemma _build_call_data_Ok_cached c sig p p' res :
  signature_of c = Ok sig ->
  _build_call_data (callee c) (call_args c) (call_kwargs c) p = (p', Ok res) ->
  CALL_DATA_CACHE p' !! sig = Some res.
Proof.
  intros Esig. rewrite (_build_call_data_cases c sig p Esig).
  destruct (CALL_DATA_CACHE p !! sig) as [res'|] eqn:E.
  - intros [= <- <-]. exact E.
  - intros Eb. apply build_on_miss_cases in Eb as [_ Hc].
    rewrite Hc. apply lookup_insert_eq.
Qed.

Lemma completed_runs_cached sig cs p res :
  CALL_DATA_CACHE p !! sig = Some res -> completed_runs sig cs p = 0%nat.
Proof.
  revert p. induction cs as [|c r IH]; intros p Hs; cbn [completed_runs]; [reflexivity|].
  pose proof (_build_call_data_keeps c p sig res Hs) as Hk.
  destruct (_build_call_data (callee c) (call_args c) (call_kwargs c) p)
    as [p' r0] eqn:Eb.
  cbn in Hk. rewrite (IH p' Hk), Nat.add_0_r.
  unfold has_signature. destruct (signature_of c) as [s|e] eqn:Esig; [|reflexivity].
  destruct (String.eqb_spec s sig) as [->|_]; [|reflexivity].
  rewrite (_build_call_data_cases c sig p Esig), Hs in Eb.
  injection Eb as <- <-. unfold pipeline_ran. now rewrite Nat.eqb_refl.
Qed.

(** A cache entry is inserted only by a construction that completed. *)
Lemma cache_insert_only_on_success c p p' r :
  _build_call_data (callee c) (call_args c) (call_kwargs c) p = (p', r) ->
  match r with
  | Ok res => exists sig, signature_of c = Ok sig
                /\ CALL_DATA_CACHE p' = <[sig := res]> (CALL_DATA_CACHE p)
  | Raise _ => CALL_DATA_CACHE p' = CALL_DATA_CACHE p
  end.
Proof.
  destruct (signature_of c) as [sig|e'] eqn:Esig.
  - rewrite (_build_call_data_cases c sig p Esig).
    destruct (CALL_DATA_CACHE p !! sig) as [res|] eqn:E.
    + intros [= <- <-]. exists sig. split; [reflexivity|].
      symmetry. now apply insert_id.
    + intros Hb. apply build_on_miss_cases in Hb as [_ Hc].
      destruct r; [eauto|exact Hc].
  - rewrite (_build_call_data_unsigned c e' p Esig). intros [= <- <-]. reflexivity.
Qed.


(** C10. The [_result] node is injected iff the call mode is primal, the
    caller passed no [_result] keyword and the return type of the overload
    is not [void]. In that case, once the node is constructed, the call has
    it under [_result], with its other arguments unchanged; in backward
    mode, for a [void] return type, or when the caller passed [_result],
    the step changes nothing and constructs no node. *)
Theorem inject_result_iff (kwargs : dict PyValue) (r : Resolved (T := T)) st :
  let wanted :=
    cd_call_mode (self st) = CallMode.prim
    /\ dict_get "_result" kwargs = None
    /\ return_type_full_name (r_slang_function r) <> "void" in
  (wanted ->
   forall w' rvalnode,
     PythonVariable_new (r_context r) None None (Some "_result") (world st)
     = (w', Ok rvalnode) ->
     exists st' python_call,
       inject_result kwargs r st = (st', Ok python_call)
       /\ world st' = w' /\ l_python_call st' = Some python_call
       /\ dict_get "_result" (pc_kwargs python_call) = Some rvalnode
       /\ (forall k, k <> "_result" ->
             dict_get k (pc_kwargs python_call)
             = dict_get k (pc_kwargs (r_python_call r)))
       /\ pc_args python_call = pc_args (r_python_call r))
  /\ (~ wanted -> inject_result kwargs r st = (st, Ok (r_python_call r))).
Proof.
  intros wanted. unfold inject_result, sbind, sget, dict_mem. split.
  - intros (Hm & Hk & Hv) w' rvalnode Hnew. rewrite Hm, Hk. cbn.
    destruct (String.eqb_spec (return_type_full_name (r_slang_function r)) "void")
      as [E|_]; [contradiction|]. cbn.
    unfold ext. rewrite Hnew. cbn.
    eexists. eexists. split; [reflexivity|]. cbn.
    repeat split.
    + apply dict_get_set_eq.
    + intros k Hne. now apply dict_get_set_ne.
  - intros Hn.
    destruct (CallMode.eqb (cd_call_mode (self st)) CallMode.prim) eqn:Em; [|reflexivity].
    destruct (dict_get "_result" kwargs) eqn:Ek; [reflexivity|].
    destruct (String.eqb_spec (return_type_full_name (r_slang_function r)) "void")
      as [E|E]; [reflexivity|].
    exfalso. apply Hn. repeat split; [|exact E].
    destruct (cd_call_mode (self st)); [reflexivity|discriminate|discriminate].
Qed.


(** C7, as the code has it. When the cache holds an object under a
    signature, and so once [_build_call_data] has returned an object for
    it, every later call with the same signature, whatever its arguments
    hold and whatever calls were made in between, returns that same object
    and leaves the process as it is: the constructor is not entered and no
    collaborator is called. Hence, over any sequence of calls and for any
    signature, the constructor returns at most once. *)
Theorem call_cache_idempotent :
  (forall c mid sig p res,
     signature_of c = Ok sig ->
     CALL_DATA_CACHE p !! sig = Some res ->
     _build_call_data (callee c) (call_args c) (call_kwargs c) (run_calls mid p)
     = (run_calls mid p, Ok res))
  /\ (forall c1 c2 mid sig p p1 res,
        signature_of c1 = Ok sig -> signature_of c2 = Ok sig ->
        _build_call_data (callee c1) (call_args c1) (call_kwargs c1) p = (p1, Ok res) ->
        _build_call_data (callee c2) (call_args c2) (call_kwargs c2) (run_calls mid p1)
        = (run_calls mid p1, Ok res))
  /\ (forall sig cs p, (completed_runs sig cs p <= 1)%nat).
Proof.
  assert (Hhit : forall c mid sig p res,
             signature_of c = Ok sig ->
             CALL_DATA_CACHE p !! sig = Some res ->
             _build_call_data (callee c) (call_args c) (call_kwargs c) (run_calls mid p)
             = (run_calls mid p, Ok res)).
  { intros c mid sig p res E Hc.
    rewrite (_build_call_data_cases c sig _ E).
    rewrite (run_calls_keeps mid p sig res Hc). reflexivity. }
  split; [exact Hhit|]. split.
  - intros c1 c2 mid sig p p1 res E1 E2 Hb.
    exact (Hhit c2 mid sig p1 res E2 (_build_call_data_Ok_cached c1 sig p p1 res E1 Hb)).
  - intros sig cs. induction cs as [|c r IH]; intros p; cbn [completed_runs]; [lia|].
    destruct (_build_call_data (callee c) (call_args c) (call_kwargs c) p)
      as [p' r0] eqn:Eb.
    destruct (has_signature c sig && pipeline_ran p p' && is_ok r0) eqn:E.
    + apply andb_true_iff in E as [E Hok]. apply andb_true_iff in E as [Hs _].
      unfold has_signature in Hs. destruct (signature_of c) as [s|] eqn:Esig; [|discriminate].
      apply String.eqb_eq in Hs as ->. destruct r0 as [res|]; [|discriminate].
      rewrite (completed_runs_cached sig r p' res
                 (_build_call_data_Ok_cached c sig p p' res Esig Eb)).
      lia.
    + specialize (IH p'). lia.
Qed.

(** C8. If [_build_call_data] raises, the cache is as it was before the
    call, it holds nothing under the signature of the call, and the next
    call with that signature takes the path of a cache miss: a new
    [CallData] is constructed from the initial state. *)
Theorem failed_construction_not_cached c p p' e :
  _build_call_data (callee c) (call_args c) (call_kwargs c) p = (p', Raise e) ->
  CALL_DATA_CACHE p' = CALL_DATA_CACHE p
  /\ forall sig, signature_of c = Ok sig ->
       CALL_DATA_CACHE p' !! sig = None
       /\ forall c2, signature_of c2 = Ok sig ->
            _build_call_data (callee c2) (call_args c2) (call_kwargs c2) p'
            = build_on_miss (callee c2) (call_args c2) (call_kwargs c2) sig p'.
Proof.
  intros Hb. destruct (signature_of c) as [sig|e'] eqn:Esig.
  - rewrite (_build_call_data_cases c sig p Esig) in Hb.
    destruct (CALL_DATA_CACHE p !! sig) as [res|] eqn:E; [discriminate|].
    apply build_on_miss_cases in Hb as [_ Hc]. split; [exact Hc|].
    intros sig' [= <-]. rewrite Hc. split; [exact E|].
    intros c2 E2. rewrite (_build_call_data_cases c2 sig p' E2), Hc, E. reflexivity.
  - rewrite (_build_call_data_unsigned c e' p Esig) in Hb. injection Hb as <- <-.
    split; [reflexivity|]. intros sig [=].
Qed.

End CallCache.

(** *** The statements on the recording collaborators *)


(** In a primal call of a function returning [float], without a [_result]
    keyword, the node built for [_result] is added to the keyword
    arguments of the call. *)
Lemma inject_result_iff_witness :
  (cd_call_mode (self Example.resolved_state) = CallMode.prim
   /\ dict_get "_result" ([] : dict PyValue) = None
   /\ return_type_full_name (r_slang_function Example.resolved) <> "void")
  /\ exists st' python_call,
       inject_result [] Example.resolved Example.resolved_state = (st', Ok python_call)
       /\ dict_get "_result" (pc_kwargs python_call) = Some (Example.host_node "_result").
Proof.
  assert (Hw : cd_call_mode (self Example.resolved_state) = CallMode.prim
               /\ dict_get "_result" ([] : dict PyValue) = None
               /\ return_type_full_name (r_slang_function Example.resolved) <> "void").
  { split; [reflexivity|]. split; [reflexivity|]. discriminate. }
  split; [exact Hw|].
  assert (Hn : PythonVariable_new (r_context Example.resolved) None None
                 (Some "_result") (world Example.resolved_state)
               = (["PythonVariable"], Ok (Example.host_node "_result")))
    by (cbv; reflexivity).
  destruct (proj1 (inject_result_iff [] Example.resolved Example.resolved_state) Hw
              ["PythonVariable"] (Example.host_node "_result") Hn)
    as (st' & python_call & H & _ & _ & Hr & _).
  exists st', python_call. split; [exact H|exact Hr].
Defined.

(** With an object in the cache under the signature of [f(x)], two calls
    of [f] on different values both return that object and leave the
    process as it is; over three calls the constructor never returns. *)
Lemma call_cache_idempotent_witness :
  let c1 := Example.primal_call 5%positive in
  let c2 := Example.primal_call 6%positive in
  let p := Example.cached_process in
  let res := Example.cached_calldata in
  signature_of c1 = Ok "[::f](o)" /\ signature_of c2 = Ok "[::f](o)"
  /\ CALL_DATA_CACHE p !! "[::f](o)" = Some res
  /\ _build_call_data (callee c1) (call_args c1) (call_kwargs c1) p = (p, Ok res)
  /\ _build_call_data (callee c2) (call_args c2) (call_kwargs c2) p = (p, Ok res)
  /\ (completed_runs "[::f](o)" [c1; c2; c1] p <= 1)%nat.
Proof.
  intros c1 c2 p res.
  assert (E1 : signature_of c1 = Ok "[::f](o)") by (vm_compute; reflexivity).
  assert (E2 : signature_of c2 = Ok "[::f](o)") by (vm_compute; reflexivity).
  assert (Hc : CALL_DATA_CACHE p !! "[::f](o)" = Some res)
    by (vm_compute; reflexivity).
  pose proof (proj1 call_cache_idempotent c1 [] "[::f](o)" p res E1 Hc) as H1.
  cbn [run_calls] in H1.
  split; [exact E1|]. split; [exact E2|]. split; [exact Hc|]. split; [exact H1|]. split.
  - exact (proj1 (proj2 call_cache_idempotent) c1 c2 [] "[::f](o)" p p res E1 E2 H1).
  - apply (proj2 (proj2 call_cache_idempotent)).
Defined.

(** C7, as stated, fails: on a fresh process two calls of [f] with the same
    signature both enter the constructor, and the second returns no cached
    object. *)
Lemma same_signature_constructed_twice :
  let c1 := Example.primal_call 5%positive in
  let c2 := Example.primal_call 6%positive in
  let out1 := _build_call_data (callee c1) (call_args c1) (call_kwargs c1)
                Example.fresh_process in
  let out2 := _build_call_data (callee c2) (call_args c2) (call_kwargs c2) (fst out1) in
  signature_of c1 = Ok "[::f](o)" /\ signature_of c2 = Ok "[::f](o)"
  /\ is_ok (snd out1) = false /\ is_ok (snd out2) = false
  /\ pipeline_ran Example.fresh_process (fst out1) = true
  /\ pipeline_ran (fst out1) (fst out2) = true
  /\ constructed (fst out2) = 2%nat.
Proof. repeat apply conj; vm_compute; reflexivity. Qed.

(** A call whose construction raises; the cache stays empty and holds
    nothing under the signature of the call. *)
Lemma failed_construction_not_cached_witness :
  let c := Example.primal_call 5%positive in
  let p' := Example.after_primal_call in
  _build_call_data (callee c) (call_args c) (call_kwargs c) Example.fresh_process
  = (p', Raise (UnboundLocalError "bindings"))
  /\ CALL_DATA_CACHE p' = CALL_DATA_CACHE Example.fresh_process
  /\ CALL_DATA_CACHE p' !! "[::f](o)" = None.
Proof.
  intros c p'.
  assert (Hb : _build_call_data (callee c) (call_args c) (call_kwargs c)
                 Example.fresh_process = (p', Raise (UnboundLocalError "bindings")))
    by (vm_compute; reflexivity).
  assert (Es : signature_of c = Ok "[::f](o)") by (vm_compute; reflexivity).
  split; [exact Hb|].
  destruct (failed_construction_not_cached c Example.fresh_process p' _ Hb) as [Hc Hs].
  split; [exact Hc|]. exact (proj1 (Hs "[::f](o)" Es)).
Defined.

(** * Further properties *)

(** ** The flat list of argument nodes *)

Section InputListProperties.
Context {T : Type}.
Implicit Types (b : BoundVariable T) (context : BindContext).

Lemma _get_input_list_recurse_unfold b (args : list (BoundVariable T)) :
  _get_input_list_recurse b args
  = match children b with
    | Some cs => input_list_values _get_input_list_recurse cs args
    | None => args ++ [b]
    end.
Proof. destruct b as [py sl p vn a d k [cs|]]; reflexivity. Qed.

Lemma leaves_unfold b :
  leaves b = match children b with
             | Some cs => flat_map (fun nc => leaves (snd nc)) cs
             | None => [b]
             end.
Proof.
  unfold leaves. rewrite nodes_unfold. cbn [List.filter]. unfold is_leaf at 1.
  destruct (children b) as [cs|]; [|reflexivity].
  induction cs as [|[n c] r IH]; [reflexivity|].
  cbn [flat_map snd]. rewrite List.filter_app, IH. reflexivity.
Qed.

(** X1. [get_input_list] keeps the nodes already in the list and appends
    the leaves of the tree, in order; composite nodes are never listed, so
    a composite without children adds nothing. *)
Theorem get_input_list_leaves b (args : list (BoundVariable T)) :
  get_input_list b args = args ++ leaves b
  /\ Forall (fun n => children n = None) (leaves b).
Proof.
  split.
  - unfold get_input_list. revert args.
    induction b as [py sl p vn a d k|py sl p vn a d k cs IH] using BoundVariable_tree_ind;
      intros args; rewrite _get_input_list_recurse_unfold, leaves_unfold;
      cbn [children]; [reflexivity|].
    revert args. induction IH as [|[n c] r Hc _ IHr]; intros args; cbn.
    + now rewrite app_nil_r.
    + cbn in Hc. rewrite Hc, IHr, app_assoc. reflexivity.
  - unfold leaves. apply List.Forall_forall. intros n Hn.
    apply List.filter_In in Hn as [_ Hn]. unfold is_leaf in Hn.
    destruct (children n); [discriminate|reflexivity].
Qed.

End InputListProperties.

(** ** Finalization, once more *)

Section FinalizeProperties.
Context {T : Type}.
Implicit Types (b : BoundVariable T) (context : BindContext).

Lemma _finalize_mappings_finalized context b :
  finalized (_finalize_mappings context b).
Proof.
  unfold finalized. rewrite _finalize_mappings_mapping. split.
  - destruct (Shape.valid (vector_mapping b)) eqn:E; [exact E|reflexivity].
  - unfold _finalize_mappings. cbn. destruct (Shape.valid _); cbn; eauto.
Qed.

Lemma finalize_mappings_finalized context b :
  finalized (finalize_mappings context b).
Proof. rewrite finalize_mappings_root. apply _finalize_mappings_finalized. Qed.

(** X2. After [finalize_mappings], every node of the tree, and so every
    node of every positional and keyword argument of a [BoundCall], has a
    valid vector mapping and a known call dimensionality. *)
Theorem finalize_mappings_all_finalized context :
  (forall b, Forall finalized (nodes (finalize_mappings context b)))
  /\ (forall call : BoundCall T,
        Forall (fun b => Forall finalized (nodes b))
          (values (BoundCall_finalize_mappings context call))).
Proof.
  assert (H : forall b, Forall finalized (nodes (finalize_mappings context b))).
  { intros b. rewrite finalize_mappings_nodes. apply List.Forall_forall. intros n Hn.
    apply in_map_iff in Hn as (n0 & <- & _). apply finalize_mappings_finalized. }
  split; [exact H|].
  intros call. unfold values, BoundCall_finalize_mappings, dict_values. cbn.
  apply Forall_app. split; apply List.Forall_forall; intros n Hn.
  - apply in_map_iff in Hn as (n0 & <- & _). apply H.
  - apply in_map_iff in Hn as ([k n0] & <- & Hn).
    apply in_map_iff in Hn as ([k1 n1] & [= <- <-] & _). apply H.
Qed.

Lemma _finalize_mappings_fixed context b :
  finalized b -> _finalize_mappings context b = b.
Proof.
  unfold finalized, vector_mapping. intros [Hv [k Hk]].
  destruct b as [py sl p vn a d cd cs]. cbn in *. subst cd.
  unfold _finalize_mappings. cbn. rewrite Hv. reflexivity.
Qed.

(** A tree all of whose nodes are finalized is left as it is. *)
Lemma finalize_mappings_fixed context b :
  Forall finalized (nodes b) -> finalize_mappings context b = b.
Proof.
  induction b as [py sl p vn a d k|py sl p vn a d k cs IH] using BoundVariable_tree_ind;
    rewrite nodes_unfold, finalize_mappings_root; cbn [children option_map];
    intros H; apply List.Forall_cons_iff in H as [Hb H].
  - now apply _finalize_mappings_fixed.
  - assert (Hm : map (fun nc => (fst nc, finalize_mappings context (snd nc))) cs = cs).
    { clear Hb. induction IH as [|[n c] r Hc _ IHr]; [reflexivity|].
      cbn [flat_map snd] in H. apply Forall_app in H as [H1 H2].
      cbn [map fst snd] in *. rewrite (Hc H1), (IHr H2). reflexivity. }
    rewrite Hm. now apply _finalize_mappings_fixed.
Qed.

(** X3. [finalize_mappings] is idempotent: finalizing a finalized tree
    changes nothing, whatever the call dimensionality of the second
    context. *)
Theorem finalize_mappings_idempotent context context' b :
  finalize_mappings context' (finalize_mappings context b)
  = finalize_mappings context b.
Proof.
  apply finalize_mappings_fixed.
  rewrite finalize_mappings_nodes. apply List.Forall_forall. intros n Hn.
  apply in_map_iff in Hn as (n0 & <- & _). apply finalize_mappings_finalized.
Qed.

(** X4. The mapping that [finalize_mappings] gives a node without a valid
    one has as many entries as the node contributes dimensions, without
    repetition, all in [D-K, D): inside the call shape when [K <= D], and
    negative for the first [K-D] of them otherwise, which the code does not
    reject. *)
Theorem default_mapping_entries context b :
  Shape.valid (vector_mapping b) = false ->
  let D := ctx_call_dimensionality context in
  let K := contribution context b in
  exists m,
    vector_mapping (finalize_mappings context b) = Some m
    /\ length m = Z.to_nat K
    /\ NoDup m
    /\ Forall (fun x => D - K <= x < D) m
    /\ (0 < K -> hd 0 m = D - K).
Proof.
  intros Hv D K. exists (seqZ (D - K) K). rewrite finalize_mappings_mapping, Hv.
  split; [reflexivity|]. split; [apply length_seqZ|]. split; [apply NoDup_seqZ|].
  split.
  - apply Forall_seqZ. intros x Hx. lia.
  - intros HK. rewrite seqZ_cons by lia. reflexivity.
Qed.

End FinalizeProperties.

Lemma default_mapping_entries_witness :
  let b := Example.leaf "a" IOType.inn Example.float_ref None true
             (AccessType.none, AccessType.none) (Some 2) in
  let context := Example.context CallMode.prim 3 in
  Shape.valid (vector_mapping b) = false
  /\ exists m,
       vector_mapping (finalize_mappings context b) = Some m
       /\ length m = 2%nat /\ NoDup m /\ Forall (fun x => 1 <= x < 3) m.
Proof.
  intros b context. split; [reflexivity|].
  destruct (default_mapping_entries context b eq_refl) as (m & Hm & Hl & Hn & Hf & _).
  exists m. split; [exact Hm|]. split; [exact Hl|]. split; [exact Hn|exact Hf].
Defined.

(** ** Implicit vectorization over the tree *)

Lemma dict_mapM_Forall2 {A B} (f : A -> result B) (cs : dict A) (cs' : dict B) :
  dict_mapM f cs = Ok cs' ->
  Forall2 (fun nc nc' => fst nc = fst nc' /\ f (snd nc) = Ok (snd nc')) cs cs'.
Proof.
  revert cs'. induction cs as [|[n a] r IH]; intros cs'; cbn.
  - intros [= <-]. constructor.
  - intros H. apply rbind_Ok in H as (b & Hb & H).
    apply rbind_Ok in H as (r' & Hr & [= <-]).
    constructor; [split; [reflexivity|exact Hb]|]. now apply IH.
Qed.

Lemma dict_mapM_fails {A B} (f : A -> result B) (cs : dict A) :
  Exists (fun nc => is_ok (f (snd nc)) = false) cs ->
  is_ok (dict_mapM f cs) = false.
Proof.
  induction 1 as [[n a] r H|[n a] r _ IH]; cbn in *.
  - destruct (f a); [discriminate|reflexivity].
  - destruct (f a); [|reflexivity]. cbn.
    destruct (dict_mapM f r); [discriminate|reflexivity].
Qed.

Section ImplicitTree.
Context {T : Type} {BT : BaseType T}.
Implicit Types (b : BoundVariable T) (context : BindContext).

Lemma _apply_implicit_vectorization_keeps context b b' :
  _apply_implicit_vectorization context b = Ok b' ->
  path b' = path b /\ children b' = children b.
Proof.
  unfold _apply_implicit_vectorization. intros H.
  apply rbind_Ok in H as (py1 & _ & H).
  apply rbind_Ok in H as (py2 & _ & H).
  apply rbind_Ok in H as (py3 & _ & H).
  apply rbind_Ok in H as (k & _ & H).
  injection H as <-. split; reflexivity.
Qed.

(** What a whole tree looks like after implicit vectorization. *)
Lemma apply_implicit_vectorization_nodes context b b' :
  apply_implicit_vectorization context b = Ok b' ->
  Forall (spec_contribution context) (nodes b')
  /\ map path (nodes b') = map path (nodes b)
  /\ map vector_mapping (nodes b') = map vector_mapping (nodes b).
Proof.
  revert b'.
  induction b as [py sl p vn a d k|py sl p vn a d k cs IH] using BoundVariable_tree_ind;
    intros b'; rewrite apply_implicit_vectorization_root; cbn [children]; intros H.
  - pose proof (_apply_implicit_vectorization_keeps _ _ _ H) as [Hp Hc].
    apply _apply_implicit_vectorization_spec in H as (Hm & _ & _ & Hs).
    rewrite (nodes_unfold b'), Hc. cbn. rewrite Hp, Hm.
    repeat split. constructor; [exact Hs|constructor].
  - apply rbind_Ok in H as (cs' & Hcs & H).
    pose proof (_apply_implicit_vectorization_keeps _ _ _ H) as [Hp Hc].
    apply _apply_implicit_vectorization_spec in H as (Hm & _ & _ & Hs).
    rewrite (nodes_unfold b'), Hc. cbn [children set_children nodes map].
    rewrite Hp, Hm. cbn [path vector_mapping python].
    apply dict_mapM_Forall2 in Hcs.
    assert (Hall : Forall (spec_contribution context)
                     (flat_map (fun nc => nodes (snd nc)) cs')
                   /\ map path (flat_map (fun nc => nodes (snd nc)) cs')
                      = map path (flat_map (fun nc => nodes (snd nc)) cs)
                   /\ map vector_mapping (flat_map (fun nc => nodes (snd nc)) cs')
                      = map vector_mapping (flat_map (fun nc => nodes (snd nc)) cs)).
    { clear Hs Hc Hp Hm. induction Hcs as [|[n c] [n' c'] r r' [_ Hok] _ IHr].
      - repeat split. constructor.
      - apply List.Forall_cons_iff in IH as [IHc IHrest].
        destruct (IHc _ Hok) as (H1 & H2 & H3).
        destruct (IHr IHrest) as (R1 & R2 & R3).
        cbn [flat_map snd] in *. rewrite !map_app, H2, H3, R2, R3.
        repeat split. apply Forall_app. split; assumption. }
    destruct Hall as (A1 & A2 & A3). rewrite A2, A3.
    repeat split. constructor; assumption.
Qed.

(** X5. When [apply_implicit_vectorization] returns, every node of the tree
    has the call-dimensionality contribution that its own mapping or
    resolved type gives, and the tree has the nodes it had, under the same
    paths and with the same mappings. The children are processed first:
    if the vectorization of a child raises, so does that of its parent. *)
Theorem apply_implicit_vectorization_tree context b :
  (forall b', apply_implicit_vectorization context b = Ok b' ->
     Forall (spec_contribution context) (nodes b')
     /\ map path (nodes b') = map path (nodes b)
     /\ map vector_mapping (nodes b') = map vector_mapping (nodes b))
  /\ (forall cs, children b = Some cs ->
        Exists (fun nc => is_ok (apply_implicit_vectorization context (snd nc)) = false)
          cs ->
        is_ok (apply_implicit_vectorization context b) = false).
Proof.
  split; [intros b'; apply apply_implicit_vectorization_nodes|].
  intros cs Hc Hex. rewrite apply_implicit_vectorization_root, Hc.
  apply dict_mapM_fails in Hex.
  destruct (dict_mapM (apply_implicit_vectorization context) cs);
    [discriminate|reflexivity].
Qed.

End ImplicitTree.

Lemma apply_implicit_vectorization_tree_witness :
  let b := Example.out_struct Example.hash_out in
  let context := Example.context CallMode.prim 0 in
  exists b',
    apply_implicit_vectorization context b = Ok b'
    /\ Forall (spec_contribution context) (nodes b')
    /\ map path (nodes b') = ["p"; "x"].
Proof.
  intros b context.
  destruct (apply_implicit_vectorization context b) as [b'|e] eqn:E;
    [|exfalso; vm_compute in E; discriminate E].
  exists b'. split; [reflexivity|].
  destruct (proj1 (apply_implicit_vectorization_tree context b) b' E) as (H1 & H2 & _).
  split; [exact H1|]. rewrite H2. reflexivity.
Defined.

(** ** Differentiability, once more *)

Section DifferentiabilityProperties.
Context {T : Type} {BT : BaseType T}.
Implicit Types (b : BoundVariable T) (context : BindContext).

(** The tree that [calculate_differentiability] returns, attribute by
    attribute. *)
Lemma calculate_differentiability_eq context b :
  calculate_differentiability context b
  = mkBoundVariable (python b) (slang b) (path b) (variable_name b)
      (spec_access_table (call_mode context) (differentiable_rule b)
         (io_type (slang b)))
      (differentiable_rule b) (call_dimensionality b)
      (option_map (map (fun nc => (fst nc, calculate_differentiability context (snd nc))))
         (children b)).
Proof.
  destruct b as [py sl p vn a d k [cs|]];
    cbn [calculate_differentiability children python slang path variable_name
         call_dimensionality option_map];
    unfold differentiable_rule, _calculate_differentiability; cbn;
    destruct (call_mode context),
      (negb (no_diff sl)
       && match sl_derivative sl with Some _ => true | None => false end
       && py_differentiable py),
      (io_type sl); reflexivity.
Qed.

(** X6. [calculate_differentiability] is idempotent, and changes nothing
    but the differentiable flags and the access pairs: the host-side and
    kernel-side nodes, paths and call dimensionalities of all nodes are
    kept. *)
Theorem calculate_differentiability_idempotent context b :
  calculate_differentiability context (calculate_differentiability context b)
  = calculate_differentiability context b
  /\ map (fun n => (python n, slang n, path n, call_dimensionality n))
       (nodes (calculate_differentiability context b))
     = map (fun n => (python n, slang n, path n, call_dimensionality n)) (nodes b).
Proof.
  split.
  - induction b as [py sl p vn a d k|py sl p vn a d k cs IH] using BoundVariable_tree_ind.
    + rewrite (calculate_differentiability_eq context (calculate_differentiability _ _)).
      rewrite calculate_differentiability_eq. reflexivity.
    + rewrite (calculate_differentiability_eq context (calculate_differentiability _ _)).
      rewrite (calculate_differentiability_eq context (mkBoundVariable _ _ _ _ _ _ _ _)).
      cbn [python slang path variable_name call_dimensionality children option_map].
      unfold differentiable_rule. cbn [python slang]. do 2 f_equal.
      induction IH as [|[n c] r Hc _ IHr]; [reflexivity|].
      cbn [map fst snd] in *. rewrite Hc, IHr. reflexivity.
  - induction b as [py sl p vn a d k|py sl p vn a d k cs IH] using BoundVariable_tree_ind;
      rewrite calculate_differentiability_eq, !nodes_unfold;
      cbn [python slang path variable_name call_dimensionality children option_map map].
    + reflexivity.
    + f_equal. induction IH as [|[n c] r Hc _ IHr]; [reflexivity|].
      cbn [map flat_map fst snd] in *. rewrite !map_app, Hc, IHr. reflexivity.
Qed.

(** X9. After [calculate_differentiability], the trampoline argument of a
    node with a vector type is the type and the name of the node, after
    the keyword of its direction, and after [no_diff] exactly when the
    node is not differentiable; without a vector type it cannot be
    written. *)
Theorem trampoline_argument_after_differentiability context b :
  (forall vt, vector_type b = Some vt ->
     _gen_trampoline_argument (calculate_differentiability context b)
     = Ok ((if differentiable_rule b then "" else "no_diff ")
           ++ io_keyword (io_type (slang b)) ++ type_name vt ++ " "
           ++ variable_name b)%string)
  /\ (vector_type b = None ->
      is_ok (_gen_trampoline_argument (calculate_differentiability context b)) = false).
Proof.
  rewrite calculate_differentiability_eq.
  unfold _gen_trampoline_argument, vector_type. cbn. split.
  - intros vt ->. unfold differentiable_rule.
    destruct (no_diff (slang b)), (sl_derivative (slang b)),
      (py_differentiable (python b)), (io_type (slang b)); reflexivity.
  - intros ->. reflexivity.
Qed.

End DifferentiabilityProperties.

Lemma trampoline_argument_after_differentiability_witness :
  let b := Example.leaf "a" IOType.inout Example.float_ref None true
             (AccessType.none, AccessType.none) None in
  vector_type b = Some Example.float_ref
  /\ _gen_trampoline_argument
       (calculate_differentiability (Example.context CallMode.bwds 0) b)
     = Ok "inout float a".
Proof.
  intros b. split; [reflexivity|].
  exact (proj1 (trampoline_argument_after_differentiability
                  (Example.context CallMode.bwds 0) b) Example.float_ref eq_refl).
Defined.

(** ** Code generation over the tree *)

Section Commands.
Context {S : Type}.

Lemma se_rel_sbind {A B} (R : S -> S -> Prop) (c : SE S A) (k : A -> SE S B) :
  (forall s1 s2 s3, R s1 s2 -> R s2 s3 -> R s1 s3) ->
  se_rel R c -> (forall a, se_rel R (k a)) -> se_rel R (sbind c k).
Proof.
  intros Ht Hc Hk s s' r H.
  apply sbind_inv in H as [(s1 & a & H1 & H2)|(e & H1 & _)].
  - eapply Ht; [eapply Hc, H1|eapply Hk, H2].
  - eapply Hc, H1.
Qed.

Lemma se_rel_sret {A} (R : S -> S -> Prop) (a : A) :
  (forall s, R s s) -> se_rel R (sret a).
Proof. intros Hr s s' r [= <- _]. apply Hr. Qed.

Lemma se_rel_sraise {A} (R : S -> S -> Prop) (e : exn) :
  (forall s, R s s) -> se_rel R (sraise (A := A) e).
Proof. intros Hr s s' r [= <- _]. apply Hr. Qed.

Lemma se_rel_slift {A} (R : S -> S -> Prop) (x : result A) :
  (forall s, R s s) -> se_rel R (slift x).
Proof. intros Hr s s' r [= <- _]. apply Hr. Qed.

Lemma se_rel_sforeach {A} (R : S -> S -> Prop) (f : A -> SE S unit) (l : list A) :
  (forall s, R s s) -> (forall s1 s2 s3, R s1 s2 -> R s2 s3 -> R s1 s3) ->
  (forall a, se_rel R (f a)) -> se_rel R (sforeach f l).
Proof.
  intros Hr Ht Hf. induction l as [|a r IH]; cbn [sforeach].
  - now apply se_rel_sret.
  - apply se_rel_sbind; [exact Ht|apply Hf|intros _; exact IH].
Qed.
End Commands.

Section CodeGenProperties.
Context {T : Type} {BT : BaseType T}.
Variable gen_calldata :
  T -> CodeGenBlock -> BindContext -> BoundVariable T -> CodeGenBlock * result unit.
Implicit Types (b : BoundVariable T) (context : BindContext) (cg : CodeGen).

Lemma gen_call_data_code_unfold b context depth :
  gen_call_data_code gen_calldata b context depth
  = (match children b with
     | Some cs =>
         emit [begin_struct ("_t_" ++ variable_name b)%string] ;;;
         names <- gen_items
                    (fun v => gen_call_data_code gen_calldata v context (depth + 1)) cs ;;
         emit (map (fun name => declare ("_t_" ++ name1 name)%string (name1 name)) names) ;;;
         sforeach (gen_aggregate_accessors b names) PrimType.all ;;;
         emit [end_struct] ;;;
         emit [mapping_statement (variable_name b)
                 (range (ctx_call_dimensionality context))]
     | None =>
         (if is_write_access (fst (access b)) && negb (py_writable (python b)) then
            if depth =? 0 then
              sraise (ValueError "Cannot read back value for non-writable type")
            else sret tt
          else sret tt) ;;;
         gen_leaf_call_data gen_calldata b context
     end ;;;
     (if depth =? 0 then
        emit_call_data [declare ("_t_" ++ variable_name b)%string (variable_name b)]
      else sret tt) ;;;
     sret (Some (variable_name b)))%se.
Proof. destruct b as [py sl p vn a d k [cs|]]; reflexivity. Qed.

(** The part of [gen_call_data_code] before the declaration in
    [cg.call_data]. *)
Section Body.
Variable R : CodeGen -> CodeGen -> Prop.
Hypothesis Rrefl : forall cg, R cg cg.
Hypothesis Rtrans : forall cg1 cg2 cg3, R cg1 cg2 -> R cg2 cg3 -> R cg1 cg3.
Hypothesis Remit : forall ops, se_rel R (emit ops).
Hypothesis Rgen : forall t context b cg,
  R cg {| call_data_structs := fst (gen_calldata t (call_data_structs cg) context b);
          call_data := call_data cg |}.

Lemma gen_leaf_call_data_rel b context : se_rel R (gen_leaf_call_data gen_calldata b context).
Proof.
  unfold gen_leaf_call_data. apply se_rel_sbind; [exact Rtrans| |intros _].
  - intros cg cg' r.
    pose proof (Rgen (py_primal (python b)) context b cg) as H.
    destruct (gen_calldata (py_primal (python b)) (call_data_structs cg) context b)
      as [cgb r0]. intros [= <- _]. exact H.
  - apply se_rel_sbind; [exact Rtrans|now apply se_rel_slift|intros m; apply Remit].
Qed.

Lemma gen_aggregate_accessors_rel b names prim :
  se_rel R (gen_aggregate_accessors b names prim).
Proof.
  unfold gen_aggregate_accessors.
  destruct (AccessType.eqb _ _); [now apply se_rel_sret|].
  destruct (vector_type b); [apply Remit|now apply se_rel_sraise].
Qed.

Lemma gen_items_rel (gen : BoundVariable T -> SE CodeGen (option string)) cs :
  Forall (fun nc => se_rel R (gen (snd nc))) cs -> se_rel R (gen_items gen cs).
Proof.
  induction 1 as [|[n c] r Hc _ IH]; cbn [gen_items].
  - now apply se_rel_sret.
  - apply se_rel_sbind; [exact Rtrans|exact Hc|intros vn].
    apply se_rel_sbind; [exact Rtrans|exact IH|intros rest].
    now apply se_rel_sret.
Qed.

(** The state before the final declaration, and what is returned. *)
Lemma gen_call_data_code_body b context depth cg cg' r :
  (0 <= depth \/ forall ops, se_rel R (emit_call_data ops)) ->
  gen_call_data_code gen_calldata b context depth cg = (cg', r) ->
  (forall v, r = Ok v -> v = Some (variable_name b))
  /\ exists cg1,
       R cg cg1
       /\ ((cg' = cg1 /\ ((depth =? 0) && is_ok r = false))
           \/ (depth = 0 /\ is_ok r = true
               /\ cg' = fst (emit_call_data
                               [declare ("_t_" ++ variable_name b)%string
                                  (variable_name b)] cg1))).
Proof.
  revert depth cg cg' r.
  induction b as [py sl p vn a d k|py sl p vn a d k cs IH] using BoundVariable_tree_ind;
    intros depth cg cg' r Hd; rewrite gen_call_data_code_unfold; cbn [children].
  all: match goal with
       | |- sbind ?body _ _ = _ -> _ => assert (Hbody : se_rel R body)
       end.
  1: { apply se_rel_sbind; [exact Rtrans| |intros _; apply gen_leaf_call_data_rel].
       destruct (_ && _); [|now apply se_rel_sret].
       destruct (depth =? 0); [now apply se_rel_sraise|now apply se_rel_sret]. }
  2: { apply se_rel_sbind; [exact Rtrans|apply Remit|intros _].
       apply se_rel_sbind; [exact Rtrans| |intros names].
       - apply gen_items_rel. eapply Forall_impl; [exact IH|].
         intros [n c] Hc cg0 cg0' r0 Hg. cbn [snd] in *.
         assert (Hd' : 0 <= depth + 1 \/ forall ops, se_rel R (emit_call_data ops))
           by (destruct Hd; [left; lia|now right]).
         destruct (Hc _ _ _ _ Hd' Hg) as (_ & cg1 & HR & [[-> _]|(Hz & _ & ->)]);
           [exact HR|].
         destruct Hd as [Hd|Hd]; [lia|].
         eapply Rtrans; [exact HR|]. eapply Hd. apply surjective_pairing.
       - apply se_rel_sbind; [exact Rtrans|apply Remit|intros _].
         apply se_rel_sbind;
           [exact Rtrans
           |apply se_rel_sforeach;
              [exact Rrefl|exact Rtrans|intros prim; apply gen_aggregate_accessors_rel]
           |intros _].
         apply se_rel_sbind; [exact Rtrans|apply Remit|intros _; apply Remit]. }
  all: intros H; apply sbind_inv in H as [(cg1 & [] & Hb & H)|(e & Hb & ->)];
    [|split; [intros v [=]|];
      exists cg'; split; [eapply Hbody, Hb|];
      left; split; [reflexivity|apply andb_false_r]].
  all: apply Hbody in Hb.
  all: destruct (depth =? 0) eqn:Ez.
  all: unfold sbind, emit_call_data, smodify, sret in H; cbn in H;
    injection H as <- <-.
  all: split; [intros v [= <-]; reflexivity|].
  all: exists cg1; split; [exact Hb|].
  all: try (right; split; [now apply Z.eqb_eq|split; reflexivity]).
  all: left; split; reflexivity.
Qed.
End Body.

(** X7. Generated at a depth of 0 or more, a node returns its variable
    name, never [None], and accounts for exactly one declaration in
    [cg.call_data]: the one of a top-level argument that was generated
    without error. Nested nodes, and nodes whose generation raises, leave
    [cg.call_data] as it was. *)
Theorem gen_call_data_code_call_data b context depth cg cg' r :
  0 <= depth ->
  gen_call_data_code gen_calldata b context depth cg = (cg', r) ->
  (forall v, r = Ok v -> v = Some (variable_name b))
  /\ call_data cg'
     = call_data cg
       ++ (if (depth =? 0) && is_ok r
           then [declare ("_t_" ++ variable_name b)%string (variable_name b)]
           else []).
Proof.
  intros Hd H.
  assert (Hrefl : forall cg0, same_call_data cg0 cg0) by reflexivity.
  assert (Htrans : forall cg1 cg2 cg3,
             same_call_data cg1 cg2 -> same_call_data cg2 cg3 -> same_call_data cg1 cg3)
    by (unfold same_call_data; congruence).
  assert (Hemit : forall ops, se_rel same_call_data (emit ops))
    by (intros ops cg0 cg0' r0 [= <- _]; reflexivity).
  assert (Hgen : forall t context0 b0 cg0,
             same_call_data cg0
               {| call_data_structs :=
                    fst (gen_calldata t (call_data_structs cg0) context0 b0);
                  call_data := call_data cg0 |}) by reflexivity.
  destruct (gen_call_data_code_body same_call_data Hrefl Htrans Hemit Hgen
              b context depth cg cg' r (or_introl Hd) H) as (Hv & cg1 & HR & Hc).
  split; [exact Hv|]. unfold same_call_data in HR.
  destruct Hc as [[-> ->]|(-> & -> & ->)]; cbn.
  - now rewrite app_nil_r.
  - now rewrite HR.
Qed.

(** X8. If the [gen_calldata] of the marshalling types only appends to the
    block it is given, [gen_call_data_code] only appends to the two blocks
    of the code generator, whether it returns or raises: code emitted for
    earlier arguments is never altered. *)
Theorem gen_call_data_code_appends b context depth cg cg' r :
  (forall t cgb context b, exists l, fst (gen_calldata t cgb context b) = cgb ++ l) ->
  gen_call_data_code gen_calldata b context depth cg = (cg', r) ->
  extends cg cg'.
Proof.
  intros Hgen H.
  assert (Hrefl : forall cg0, extends cg0 cg0)
    by (intros cg0; split; exists []; now rewrite app_nil_r).
  assert (Htrans : forall cg1 cg2 cg3, extends cg1 cg2 -> extends cg2 cg3 -> extends cg1 cg3).
  { intros cg1 cg2 cg3 [[l1 H1] [m1 G1]] [[l2 H2] [m2 G2]]. split.
    - exists (l1 ++ l2). now rewrite H2, H1, app_assoc.
    - exists (m1 ++ m2). now rewrite G2, G1, app_assoc. }
  assert (Hcd : forall ops, se_rel extends (emit_call_data ops)).
  { intros ops cg0 cg0' r0 [= <- _]. split; [exists []|exists ops]; cbn;
      [now rewrite app_nil_r|reflexivity]. }
  assert (Hemit : forall ops, se_rel extends (emit ops)).
  { intros ops cg0 cg0' r0 [= <- _]. split; [exists ops|exists []]; cbn;
      [reflexivity|now rewrite app_nil_r]. }
  assert (Hg : forall t context0 b0 cg0,
             extends cg0
               {| call_data_structs :=
                    fst (gen_calldata t (call_data_structs cg0) context0 b0);
                  call_data := call_data cg0 |}).
  { intros t context0 b0 cg0. split; cbn; [apply Hgen|exists []; now rewrite app_nil_r]. }
  destruct (gen_call_data_code_body extends Hrefl Htrans Hemit Hg
              b context depth cg cg' r (or_intror Hcd) H) as (_ & cg1 & HR & Hc).
  destruct Hc as [[-> _]|(_ & _ & ->)]; [exact HR|].
  eapply Htrans; [exact HR|]. eapply Hcd. apply surjective_pairing.
Qed.

End CodeGenProperties.

Lemma Example_call_gen_calldata_appends t cgb context (b : BoundVariable Example.ty) :
  exists l, fst (Example.call_gen_calldata t cgb context b) = cgb ++ l.
Proof. exists []. cbn. now rewrite app_nil_r. Qed.

Lemma gen_call_data_code_call_data_witness :
  let b := Example.out_struct Example.hash_out in
  let context := Example.context CallMode.prim 0 in
  let out := gen_call_data_code Example.call_gen_calldata b context 0
               Example.empty_codegen in
  0 <= 0
  /\ is_ok (snd out) = false
  /\ call_data (fst out) = [].
Proof.
  intros b context out. split; [lia|].
  destruct (gen_call_data_code_call_data Example.call_gen_calldata b context 0
              Example.empty_codegen (fst out) (snd out) ltac:(lia)
              (surjective_pairing out)) as [Hv Hc].
  assert (Hr : is_ok (snd out) = false) by (vm_compute; reflexivity).
  split; [exact Hr|]. rewrite Hc, Hr. reflexivity.
Defined.

Lemma gen_call_data_code_appends_witness :
  let b := Example.out_struct Example.hash_out in
  let context := Example.context CallMode.prim 0 in
  let cg := {| call_data_structs := [empty_line]; call_data := [empty_line] |} in
  (forall t cgb context (b : BoundVariable Example.ty),
     exists l, fst (Example.call_gen_calldata t cgb context b) = cgb ++ l)
  /\ extends cg (fst (gen_call_data_code Example.call_gen_calldata b context 0 cg)).
Proof.
  intros b context cg. split; [exact Example_call_gen_calldata_appends|].
  exact (gen_call_data_code_appends Example.call_gen_calldata b context 0 cg _ _
           Example_call_gen_calldata_appends (surjective_pairing _)).
Defined.

(** ** Arguments and file names *)

Lemma PyValue_tree_ind (P : PyValue -> Prop) :
  (forall h, P (PyObject h None)) ->
  (forall h this, P this -> P (PyObject h (Some this))) ->
  (forall d, Forall (fun kv => P (snd kv)) d -> P (PyDict d)) ->
  (forall l, Forall P l -> P (PyList l)) ->
  forall v, P v.
Proof.
  intros Hn Hs Hd Hl. fix IH 1. intros [h [this|]|d|l].
  - apply Hs, IH.
  - apply Hn.
  - apply Hd. induction d as [|[k v] r IHr];
      [apply List.Forall_nil|apply List.Forall_cons; [apply IH|exact IHr]].
  - apply Hl. induction l as [|v r IHr];
      [apply List.Forall_nil|apply List.Forall_cons; [apply IH|exact IHr]].
Qed.

(** X10. [unpack_arg] returns a value without a [get_this] attribute
    anywhere in it as it is. Whatever a dictionary or a list holds, objects
    with [get_this] among them, it keeps the keys of the dictionary in
    their order and the length of the list, and unpacks each value in its
    place. For an object with [get_this], what [get_this()] returns is
    unpacked in this way when it is a dictionary or a list, and returned as
    it is when it is an object, even one that has [get_this] itself. *)
Theorem unpack_arg_spec :
  (forall v, plain v = true -> unpack_arg v = v)
  /\ (forall d, exists d',
        unpack_arg (PyDict d) = PyDict d'
        /\ dict_keys d' = dict_keys d
        /\ Forall2 (fun kv kv' => snd kv' = unpack_arg (snd kv)) d d')
  /\ (forall l, exists l',
        unpack_arg (PyList l) = PyList l'
        /\ length l' = length l
        /\ Forall2 (fun v v' => v' = unpack_arg v) l l')
  /\ (forall h this,
        unpack_arg (PyObject h (Some this))
        = match this with
          | PyObject _ _ => this
          | _ => unpack_arg this
          end).
Proof.
  split; [|split; [|split]].
  - intros v Hp. induction v as [h|h this IH|d IH|l IH] using PyValue_tree_ind.
    + reflexivity.
    + discriminate.
    + cbn in Hp |- *. f_equal. induction IH as [|[k v] r Hv _ IHr]; [reflexivity|].
      cbn in Hp, Hv |- *. apply andb_true_iff in Hp as [Hp1 Hp2].
      rewrite (Hv Hp1), (IHr Hp2). reflexivity.
    + cbn in Hp |- *. f_equal. induction IH as [|v r Hv _ IHr]; [reflexivity|].
      cbn in Hp |- *. apply andb_true_iff in Hp as [Hp1 Hp2].
      rewrite (Hv Hp1), (IHr Hp2). reflexivity.
  - intros d. eexists. split; [reflexivity|]. split.
    + unfold dict_keys. rewrite map_map. reflexivity.
    + induction d as [|kv r IH]; [apply List.Forall2_nil|].
      apply List.Forall2_cons; [reflexivity|exact IH].
  - intros l. eexists. split; [reflexivity|]. split; [apply length_map|].
    induction l as [|v r IH]; [apply List.Forall2_nil|].
    apply List.Forall2_cons; [reflexivity|exact IH].
  - intros h [h' t|d|l]; reflexivity.
Qed.

(** A dictionary that holds a list with an object whose [get_this()] is a
    list, and an object whose [get_this()] is an object. *)
Lemma unpack_arg_spec_witness :
  let inner := PyObject 3%positive (Some (PyObject 4%positive None)) in
  let v := PyDict [("a", PyList [PyObject 1%positive (Some (PyList []))]);
                   ("b", PyObject 2%positive (Some inner))] in
  let w := PyDict [("a", PyList [PyObject 1%positive None]);
                   ("b", PyObject 2%positive None)] in
  plain w = true /\ unpack_arg w = w
  /\ unpack_arg v = PyDict [("a", PyList [PyList []]); ("b", inner)]
  /\ exists d', unpack_arg v = PyDict d' /\ dict_keys d' = ["a"; "b"].
Proof.
  intros inner v w. split; [reflexivity|].
  split; [apply (proj1 unpack_arg_spec w); reflexivity|].
  split; [reflexivity|].
  destruct (proj1 (proj2 unpack_arg_spec)
              [("a", PyList [PyObject 1%positive (Some (PyList []))]);
               ("b", PyObject 2%positive (Some inner))]) as (d' & E & Hk & _).
  exists d'. split; [exact E|exact Hk].
Defined.

Lemma is_special_replaced c :
  is_special (if is_special c then "_"%char else c) = false.
Proof. destruct (is_special c) eqn:E; [reflexivity|exact E]. Qed.

(** X11. The file name part made from the function name has the length of
    the name and holds none of the characters [<], [>], [,] and space; a
    name is kept as it is exactly when it holds none of them, so
    [sanitize] applied twice is [sanitize] applied once. *)
Theorem sanitize_spec s :
  String.length (sanitize s) = String.length s
  /\ Forall (fun c => is_special c = false) (chars (sanitize s))
  /\ (sanitize s = s <-> Forall (fun c => is_special c = false) (chars s))
  /\ sanitize (sanitize s) = sanitize s.
Proof.
  assert (Hs : forall c r, sanitize (String c r)
                           = String (if is_special c then "_"%char else c) (sanitize r))
    by reflexivity.
  induction s as [|c r (IH1 & IH2 & IH3 & IH4)].
  - repeat split; cbn; auto; apply List.Forall_nil.
  - rewrite Hs. cbn [String.length chars]. repeat split.
    + now rewrite IH1.
    + apply List.Forall_cons; [apply is_special_replaced|exact IH2].
    + intros [= Hc Hr]. apply List.Forall_cons; [|now apply IH3].
      destruct (is_special c) eqn:E; [|reflexivity]. subst c. discriminate.
    + intros H. apply List.Forall_cons_iff in H as [Hc Hr].
      rewrite Hc. f_equal. now apply IH3.
    + rewrite Hs, is_special_replaced, IH4. reflexivity.
Qed.

(** ** Construction of call data *)

Section Construction.
Context {W T : Type} {CS : callsignature.t W T} {CO : Collaborators W T}.
Implicit Types (st : InitState (W := W) (T := T)).
Implicit Types (p : Process (W := W) (T := T)) (c : Call) (sig : string).

(** *** The entries of a chain *)

Lemma FunctionChainBase_chain_ind (P : FunctionChainBase -> Prop) :
  (forall k, P (mkFunctionChain k None)) ->
  (forall k q, P q -> P (mkFunctionChain k (Some q))) ->
  forall item, P item.
Proof.
  intros Hn Hs. fix IH 1. intros [k [q|]]; [apply Hs, IH|apply Hn].
Qed.

Lemma rev_ancestors_root self0 :
  exists rest, rev (ancestors self0) = root self0 :: rest.
Proof.
  induction self0 as [k|k p [rest IH]] using FunctionChainBase_chain_ind.
  - exists []. reflexivity.
  - exists (rest ++ [mkFunctionChain k (Some p)]).
    cbn [ancestors root parent rev]. rewrite IH. reflexivity.
Qed.

(** *** The cache *)



End Construction.


(** ** Chains of calls *)

Lemma string_append_assoc (a b c : string) :
  ((a ++ b) ++ c = a ++ (b ++ c))%string.
Proof.
  induction a as [|x a IH]; [reflexivity|].
  change (String x ((a ++ b) ++ c) = String x (a ++ (b ++ c)))%string.
  f_equal. exact IH.
Qed.

Lemma string_append_nil_r (a : string) : (a ++ "" = a)%string.
Proof.
  induction a as [|x a IH]; [reflexivity|].
  change (String x (a ++ "") = String x a)%string. f_equal. exact IH.
Qed.

(** X16. [set] accepts keyword arguments alone, or one positional argument
    that is a callback or a dictionary, and nothing else; every other call
    raises [ValueError]. The entry it makes hangs under its parent and holds
    exactly one of [props] and [callback], so the scan of the chain in
    [CallData.__init__] always finds one of them. *)
Theorem FunctionChainSet_init_spec (self0 : FunctionChainBase) args kwargs :
  match FunctionChainSet_init self0 args kwargs with
  | Ok item =>
      parent item = Some self0
      /\ ((kwargs <> [] /\ args = []
           /\ kind item = FunctionChainSet (Some kwargs) None)
          \/ (kwargs = []
              /\ exists callback, args = [SetCallable callback]
                   /\ kind item = FunctionChainSet None (Some callback))
          \/ (kwargs = []
              /\ exists props, args = [SetDict props]
                   /\ kind item = FunctionChainSet (Some props) None))
  | Raise e =>
      (exists m, e = ValueError m)
      /\ ((args = [] /\ kwargs = []) \/ (args <> [] /\ kwargs <> [])
          \/ (2 <= length args)%nat \/ (args = [SetOther] /\ kwargs = []))
  end.
Proof.
  assert (H0 : forall A (l : list A),
             (0 <? Z.of_nat (length l)) = match l with [] => false | _ => true end).
  { intros A [|x l]; [reflexivity|]. apply Z.ltb_lt. cbn [length]. lia. }
  assert (H1 : forall A (l : list A),
             (1 <? Z.of_nat (length l))
             = match l with [] | [_] => false | _ => true end).
  { intros A [|x [|y l]]; [reflexivity|reflexivity|].
    apply Z.ltb_lt. cbn [length]. lia. }
  unfold FunctionChainSet_init. rewrite !H0, H1.
  destruct args as [|a [|a' args]], kwargs as [|kv kwargs]; cbn.
  - split; [eauto|]. left. auto.
  - split; [reflexivity|]. left. repeat split. discriminate.
  - destruct a; cbn.
    + split; [reflexivity|]. right. left. split; [reflexivity|]. eauto.
    + split; [reflexivity|]. right. right. split; [reflexivity|]. eauto.
    + split; [eauto|]. right. right. right. auto.
  - split; [eauto|]. right. left. split; discriminate.
  - split; [eauto|]. right. right. left. lia.
  - split; [eauto|]. right. left. split; discriminate.
Qed.

(** X17. The two walks of [_build_call_data] from an entry towards its
    root: the chain handed to [CallData] starts with the root, which has no
    parent, and ends with the entry itself; it has one entry more than there
    are links, each entry being the parent of the next; and the [this] that
    enters the signature is the [this] of the nearest [instance] entry, if
    there is one. *)
Theorem build_call_data_walks (item : FunctionChainBase) :
  (exists rest, rev (ancestors item) = root item :: rest)
  /\ parent (root item) = None
  /\ last (rev (ancestors item)) = Some item
  /\ length (rev (ancestors item)) = S (links item)
  /\ (forall i x y,
        rev (ancestors item) !! i = Some x ->
        rev (ancestors item) !! S i = Some y ->
        parent y = Some x)
  /\ find_this item = head (omap this_of (ancestors item)).
Proof.
  split; [apply rev_ancestors_root|].
  induction item as [k|k q (Hr & Hl & Hn & Hp & Hf)] using FunctionChainBase_chain_ind.
  - repeat split.
    + intros [|i] x y Hx Hy; discriminate.
    + cbn. unfold this_of. cbn. destruct k; reflexivity.
  - cbn [root ancestors parent rev links].
    split; [exact Hr|]. split; [apply last_snoc|].
    split; [rewrite length_app, Hn; cbn; lia|]. split.
    + intros i x y Hx Hy.
      apply lookup_app_Some in Hy as [Hy|[Hi Hy]].
      * rewrite lookup_app_l in Hx by (apply lookup_lt_Some in Hy; lia).
        eapply Hp; eassumption.
      * destruct (S i - length (rev (ancestors q)))%nat as [|j] eqn:Ej; [|discriminate].
        injection Hy as <-. cbn [parent]. f_equal.
        rewrite lookup_app_l in Hx by lia.
        rewrite last_lookup in Hl.
        replace (pred (length (rev (ancestors q)))) with i in Hl by lia.
        congruence.
    + cbn [find_this kind parent omap]. unfold this_of at 1. cbn [kind].
      destruct k; cbn; try exact Hf; reflexivity.
Qed.

(** X18. On a chain in which only the root may be a [Function], as
    [Function.__init__] passes no parent on, the [slangpy_signature] of an
    entry is that of its root followed by one dot for each link: it tells
    how long the chain is, not what its entries are. *)
Theorem slangpy_signature_root_dots type_parent (item : FunctionChainBase) :
  Forall (fun a => is_function a = true -> parent a = None) (ancestors item) ->
  slangpy_signature type_parent item
  = (slangpy_signature type_parent (root item) ++ dots (links item))%string.
Proof.
  induction item as [k|k q IH] using FunctionChainBase_chain_ind; intros Hwf.
  - cbn [root links parent dots]. now rewrite string_append_nil_r.
  - apply List.Forall_cons_iff in Hwf as [Hk Hwf]. cbn [root links parent dots kind].
    rewrite <- string_append_assoc, <- (IH Hwf).
    unfold is_function in Hk. cbn [kind parent] in Hk.
    destruct k; try reflexivity. now specialize (Hk eq_refl).
Qed.

Lemma slangpy_signature_root_dots_witness :
  let f := Example.function 1%positive in
  let item := transform_output (bwds_diff f) [] in
  Forall (fun a => is_function a = true -> parent a = None) (ancestors item)
  /\ slangpy_signature (fun _ => None) item = "[::f].."
  /\ slangpy_signature (fun _ => None) (instance (instance f (PyList [])) (PyList []))
     = "[::f]..".
Proof.
  intros f item.
  assert (Hwf : forall a b,
             Forall (fun a => is_function a = true -> parent a = None)
               [a; b; f] <->
             (is_function a = true -> parent a = None)
             /\ (is_function b = true -> parent b = None)).
  { intros a b. rewrite !List.Forall_cons_iff. split; [tauto|].
    intros [Ha Hb]. repeat split; auto. }
  assert (H1 : Forall (fun a => is_function a = true -> parent a = None)
                 (ancestors item)) by (apply Hwf; split; discriminate).
  split; [exact H1|]. split.
  - rewrite (slangpy_signature_root_dots (fun _ => None) item H1). reflexivity.
  - reflexivity.
Defined.

(** ** [Function.__init__] *)

Section FunctionInitProperties.
Context {Overload : Type}.
Variable find_type_by_name : handle -> string -> option handle.
Variable find_children_of_kind_func : handle -> string -> list handle.
Variable as_function : handle -> handle.
Variable find_function_by_name_in_type : handle -> handle -> string -> option handle.
Variable full_name : handle -> string.
Variable name_of_module : handle -> string.
Variable SlangFunction_new : handle -> option handle -> Overload.

(** X19. A [Function] that was constructed keeps its module and name. Its
    overloads were looked up, and then there is at least one, or they were
    passed in, and then they are taken as they are, be there none. A type
    parent given by name is looked up and replaces the [type_reflection]
    argument, which then has no effect; the signature is built from the full
    name of the type in effect. *)
Theorem Function_init_spec module name type_parent type_reflection func_reflections
    (fd : FunctionDecl (Overload := Overload)) :
  Function_init find_type_by_name find_children_of_kind_func as_function
    find_function_by_name_in_type full_name name_of_module SlangFunction_new
    module name type_parent type_reflection func_reflections = Ok fd ->
  fd_module fd = module /\ fd_name fd = name
  /\ (func_reflections = None -> fd_overloads fd <> [])
  /\ (forall l, func_reflections = Some l -> length (fd_overloads fd) = length l)
  /\ (forall tp, type_parent = Some tp ->
        (exists tr, find_type_by_name module tp = Some tr
                    /\ fd_type_parent fd = Some (full_name tr))
        /\ Function_init find_type_by_name find_children_of_kind_func as_function
             find_function_by_name_in_type full_name name_of_module SlangFunction_new
             module name type_parent None func_reflections = Ok fd)
  /\ (type_parent = None -> fd_type_parent fd = option_map full_name type_reflection)
  /\ fd_slangpy_signature fd
     = ("[" ++ default "" (fd_type_parent fd) ++ "::" ++ name ++ "]")%string.
Proof.
  unfold Function_init. intros H.
  assert (Htr : exists tr,
             match type_parent with
             | Some tp =>
                 match find_type_by_name module tp with
                 | None =>
                     Raise (ValueError ("Type '" ++ tp ++ "' not found in module "
                                        ++ name_of_module module)%string)
                 | Some tr => Ok (Some tr)
                 end
             | None => Ok type_reflection
             end = Ok tr
             /\ (forall tp, type_parent = Some tp ->
                   exists t, find_type_by_name module tp = Some t /\ tr = Some t)
             /\ (type_parent = None -> tr = type_reflection)).
  { destruct type_parent as [tp|].
    - destruct (find_type_by_name module tp) as [t|] eqn:Et; [|discriminate].
      exists (Some t). split; [reflexivity|]. split; [|discriminate].
      intros tp' [= <-]. eauto.
    - exists type_reflection. split; [reflexivity|]. split; [discriminate|auto]. }
  destruct Htr as (tr & Etr & Hsome & Hnone).
  assert (Hnone' :
            forall tp, type_parent = Some tp ->
              match type_parent with
              | Some tp =>
                  match find_type_by_name module tp with
                  | None =>
                      Raise (ValueError ("Type '" ++ tp ++ "' not found in module "
                                         ++ name_of_module module)%string)
                  | Some tr => Ok (Some tr)
                  end
              | None => Ok None
              end = Ok tr).
  { intros tp ->. exact Etr. }
  rewrite Etr in H. cbn [rbind] in H.
  match type of H with
  | rbind ?x _ = _ => destruct x as [l|e] eqn:El; [|discriminate]
  end.
  cbn [rbind] in H. injection H as <-. cbn.
  repeat split.
  - intros ->. destruct tr as [t|].
    + destruct (find_function_by_name_in_type module t name); [|discriminate].
      injection El as <-. discriminate.
    + destruct (find_children_of_kind_func module name) as [|x r]; [discriminate|].
      cbn in El. injection El as <-. discriminate.
  - intros l0 ->. injection El as ->. apply length_map.
  - destruct (Hsome _ H) as (t & Et & ->). eauto.
  - rewrite (Hnone' _ H). cbn [rbind]. rewrite El. reflexivity.
  - intros Hn. now rewrite (Hnone Hn).
Qed.

End FunctionInitProperties.

Lemma Function_init_spec_witness :
  let init :=
    Function_init (Overload := handle)
      (fun _ tp => if String.eqb tp "S" then Some 3%positive else None)
      (fun _ n => if String.eqb n "f" then [4%positive; 5%positive] else [])
      (fun x => x)
      (fun _ _ n => if String.eqb n "g" then Some 6%positive else None)
      (fun _ => "S") (fun _ => "m") (fun x _ => x) in
  let fd :=
    {| fd_module := 1%positive; fd_name := "f"; fd_type_parent := None;
       fd_overloads := [4%positive; 5%positive]; fd_slangpy_signature := "[::f]" |} in
  init 1%positive "f" None None None = Ok fd
  /\ fd_overloads fd <> []
  /\ init 1%positive "g" (Some "S") (Some 9%positive) None
     = init 1%positive "g" (Some "S") None None
  /\ is_ok (init 1%positive "h" None None (Some [])) = true.
Proof.
  intros init fd.
  assert (H : init 1%positive "f" None None None = Ok fd) by reflexivity.
  split; [exact H|]. unfold init in H.
  destruct (Function_init_spec _ _ _ _ _ _ _ _ _ _ _ _ _ H) as (_ & _ & Hne & _).
  split; [exact (Hne eq_refl)|]. split; reflexivity.
Defined.

(** ** Marshalling types after the access table *)

(** X20. Code generation for the two marshalling types on a node whose
    access pair comes from the table. A [ValueRef] is declared read-write in
    a primal call unless it is an [in] parameter, and read-only in a
    backward call, where a differentiable node or an [out] parameter makes
    its assertions fail; in forward mode they always fail. A [WangHashArg]
    never raises, and contributes its import and type alias exactly when the
    primal is read. *)
Theorem gen_calldata_after_differentiability
    (b : BoundVariable Example.ty) mode value_type dims cgb :
  let b' := _calculate_differentiability b mode in
  let io := io_type (slang b) in
  let alias n := type_alias ("_" ++ variable_name b)%string n in
  Example.gen_calldata (Example.ValueRefType value_type) cgb b'
  = match mode, io with
    | CallMode.prim, IOType.inn =>
        (cgb ++ [alias ("ValueRef<" ++ value_type ++ ">")%string], Ok tt)
    | CallMode.prim, _ =>
        (cgb ++ [alias ("RWValueRef<" ++ value_type ++ ">")%string], Ok tt)
    | CallMode.bwds, IOType.out => (cgb, Raise AssertionError)
    | CallMode.bwds, _ =>
        if differentiable b then (cgb, Raise AssertionError)
        else (cgb ++ [alias ("ValueRef<" ++ value_type ++ ">")%string], Ok tt)
    | CallMode.fwds, _ => (cgb, Raise AssertionError)
    end
  /\ Example.gen_calldata (Example.WangHashArgType dims) cgb b'
     = match mode, io with
       | CallMode.prim, IOType.inn | CallMode.bwds, IOType.inn
       | CallMode.bwds, IOType.inout =>
           (cgb ++ [add_import "wanghasharg";
                    alias (Example.name (Example.WangHashArgType dims))], Ok tt)
       | _, _ => (cgb, Ok tt)
       end.
Proof.
  destruct b as [py sl p vn a d k cs]. cbn.
  unfold Example.gen_calldata, _calculate_differentiability. cbn.
  destruct mode, d, (io_type sl); split; reflexivity.
Qed.

(** X29. Code generation for a tree whose marshalling types are the two
    above: [gen_call_data_code] passes the context to [gen_calldata], which
    their methods do not take. So a leaf raises at every depth, [ValueError]
    when the writability check applies and [TypeError] otherwise, and
    leaves the code generator as it was; and a tree in which every struct
    has a field raises. *)
Theorem gen_call_data_code_arity (b : BoundVariable Example.ty) context depth cg :
  (children b = None ->
   gen_call_data_code Example.call_gen_calldata b context depth cg
   = (cg,
      Raise (if is_write_access (fst (access b)) && negb (py_writable (python b))
                && (depth =? 0)
             then ValueError "Cannot read back value for non-writable type"
             else TypeError (Example.class_name (py_primal (python b))
                             ++ ".gen_calldata() takes 3 positional arguments but 4 were given"))))
  /\ (has_fields b ->
      is_ok (snd (gen_call_data_code Example.call_gen_calldata b context depth cg)) = false).
Proof.
  assert (Hleaf : forall (b : BoundVariable Example.ty) depth cg,
             children b = None ->
             gen_call_data_code Example.call_gen_calldata b context depth cg
             = (cg,
                Raise (if is_write_access (fst (access b)) && negb (py_writable (python b))
                          && (depth =? 0)
                       then ValueError "Cannot read back value for non-writable type"
                       else TypeError (Example.class_name (py_primal (python b))
                                       ++ ".gen_calldata() takes 3 positional arguments but 4 were given")))).
  { intros b0 depth0 cg0 Hc. rewrite gen_call_data_code_unfold, Hc.
    destruct cg0 as [structs data].
    destruct (is_write_access (fst (access b0)) && negb (py_writable (python b0)));
      destruct (depth0 =? 0); reflexivity. }
  split; [apply Hleaf|].
  revert depth cg.
  induction b as [py sl p vn a d k|py sl p vn a d k cs IH] using BoundVariable_tree_ind;
    intros depth cg Hf.
  - rewrite Hleaf by reflexivity. reflexivity.
  - unfold has_fields in Hf. rewrite nodes_unfold in Hf. cbn [children] in Hf.
    apply List.Forall_cons_iff in Hf as [Hne Hf].
    destruct cs as [|[n c] r]; [contradiction|].
    apply List.Forall_cons_iff in IH as [IHc _]. cbn [snd] in IHc.
    cbn [flat_map snd] in Hf. apply Forall_app in Hf as [Hfc _].
    rewrite gen_call_data_code_unfold. cbn [children gen_items].
    unfold sbind at 1. unfold sbind at 1. unfold sbind at 1. cbn [emit smodify].
    unfold sbind at 1.
    specialize (IHc (depth + 1)
                  {| call_data_structs := call_data_structs cg ++ [begin_struct ("_t_" ++ vn)%string];
                     call_data := call_data cg |} Hfc).
    cbn [variable_name].
    destruct (gen_call_data_code Example.call_gen_calldata c context (depth + 1) _)
      as [cg1 [v|e]]; [discriminate IHc|reflexivity].
Qed.

(** A hash argument as a top-level argument and as the field of a
    struct. *)
Lemma gen_call_data_code_arity_witness :
  let b := Example.out_struct Example.hash_out in
  let context := Example.context CallMode.prim 0 in
  children Example.hash_out = None /\ has_fields b
  /\ gen_call_data_code Example.call_gen_calldata Example.hash_out context 1
       Example.empty_codegen
     = (Example.empty_codegen,
        Raise (TypeError
                 "WangHashArgType.gen_calldata() takes 3 positional arguments but 4 were given"))
  /\ is_ok (snd (gen_call_data_code Example.call_gen_calldata b context 0
                   Example.empty_codegen)) = false.
Proof.
  intros b context.
  assert (Hf : has_fields b).
  { unfold has_fields. change (nodes b) with [b; Example.hash_out].
    apply List.Forall_cons; [discriminate|].
    apply List.Forall_cons; [discriminate|apply List.Forall_nil]. }
  split; [reflexivity|]. split; [exact Hf|]. split.
  - exact (proj1 (gen_call_data_code_arity Example.hash_out context 1
                    Example.empty_codegen) eq_refl).
  - exact (proj2 (gen_call_data_code_arity b context 0 Example.empty_codegen) Hf).
Defined.

(** ** Marshalling types of the earlier interface *)

(** X21. [ValueRefType.gen_calldata] and [ValueRefType.gen_load_store] of
    [types/valuereftype.py] fail on the same access pairs, with
    [AssertionError] and before emitting anything, and only append
    otherwise. The call data struct always declares [load_primal], and
    [store_primal] unless the primal is only read; the forwarding struct
    forwards the load for read and readwrite access and the store for write
    and readwrite access. So every accessor that is forwarded to is
    declared. *)
Theorem ValueRefType_accessors cgb primal_type_name name transform access :
  let ok := negb (AccessType.eqb (fst access) AccessType.none)
            && AccessType.eqb (snd access) AccessType.none in
  exists e1 e2,
    types.ValueRefType.gen_calldata cgb primal_type_name name transform access
    = (cgb ++ e1, if ok then Ok tt else Raise AssertionError)
    /\ types.ValueRefType.gen_load_store cgb primal_type_name name transform access
       = (cgb ++ e2, if ok then Ok tt else Raise AssertionError)
    /\ (ok = false -> e1 = [] /\ e2 = [])
    /\ existsb (types.is_load "primal") e1 = ok
    /\ existsb (types.is_store "primal") e1
       = ok && negb (AccessType.eqb (fst access) AccessType.read)
    /\ existsb types.ValueRefType.is_forward_load e2
       = ok && types.in_read_readwrite (fst access)
    /\ existsb types.ValueRefType.is_forward_store e2
       = ok && types.in_write_readwrite (fst access)
    /\ (existsb types.ValueRefType.is_forward_load e2 = true ->
        existsb (types.is_load "primal") e1 = true)
    /\ (existsb types.ValueRefType.is_forward_store e2 = true ->
        existsb (types.is_store "primal") e1 = true).
Proof.
  intros ok.
  exists (fst (types.ValueRefType.gen_calldata [] primal_type_name name transform access)),
    (fst (types.ValueRefType.gen_load_store [] primal_type_name name transform access)).
  subst ok. unfold types.ValueRefType.gen_calldata, types.ValueRefType.gen_load_store.
  destruct access as [[] []]; cbn [fst snd AccessType.eqb negb andb orb
    types.in_read_readwrite types.in_write_readwrite app];
    rewrite <- ?app_assoc, ?app_nil_r;
    repeat split; try reflexivity; try discriminate.
Qed.

(** X22. [NDBufferType.gen_calldata] fails with [AssertionError] before
    emitting anything, the snippet included, unless the primal is accessed
    and the derivative is not. Otherwise it appends a struct that opens with
    the snippet and ends with [end_struct], declares the field [value] as a
    [TensorBuffer] with [load_primal] alone for read access, and as a
    [RWTensorBuffer] with [load_primal] and [store_primal] for write and
    readwrite access. *)
Theorem NDBufferType_accessors cgb primal_type_name name transform access :
  let ok := negb (AccessType.eqb (fst access) AccessType.none)
            && AccessType.eqb (snd access) AccessType.none in
  let ro := AccessType.eqb (fst access) AccessType.read in
  exists e,
    types.NDBufferType.gen_calldata cgb primal_type_name name transform access
    = (cgb ++ e, if ok then Ok tt else Raise AssertionError)
    /\ head e = (if ok then Some (add_snippet "TensorBuffer" types.TYPES) else None)
    /\ last e = (if ok then Some end_struct else None)
    /\ existsb (types.is_load "primal") e = ok
    /\ existsb (types.is_store "primal") e = ok && negb ro
    /\ existsb (types.is_field "TensorBuffer<" "value") e = ok && ro
    /\ existsb (types.is_field "RWTensorBuffer<" "value") e = ok && negb ro.
Proof.
  intros ok ro.
  exists (fst (types.NDBufferType.gen_calldata [] primal_type_name name transform access)).
  subst ok ro. unfold types.NDBufferType.gen_calldata.
  destruct access as [[] []]; cbn [fst snd AccessType.eqb negb andb orb app];
    rewrite <- ?app_assoc, ?app_nil_r;
    repeat split; reflexivity.
Qed.

(** X23. [NDDifferentiableBufferType.gen_calldata] never raises, and appends
    one struct. For the primal and for the derivative alike, the struct has
    no field and no accessor when the access is none, a [TensorBuffer] field
    with a load accessor when it is read, and a [RWTensorBuffer] field with
    load and store accessors when it is write or readwrite. *)
Theorem NDDifferentiableBufferType_accessors
    cgb primal_type_name derivative_type_name name transform access :
  exists body,
    types.NDDifferentiableBufferType.gen_calldata cgb primal_type_name
      derivative_type_name name transform access
    = (cgb ++ [add_snippet "TensorBuffer" types.TYPES;
               begin_struct ("_" ++ name ++ "_call_data")%string;
               type_alias "primal_type" primal_type_name;
               type_alias "derivative_type" derivative_type_name]
           ++ body ++ [end_struct], Ok tt)
    /\ forall prim,
         let a := types.access_at access prim in
         let n := PrimType.name prim in
         existsb (types.is_load n) body = negb (AccessType.eqb a AccessType.none)
         /\ existsb (types.is_store n) body = types.in_write_readwrite a
         /\ existsb (types.is_field "TensorBuffer<" n) body
            = AccessType.eqb a AccessType.read
         /\ existsb (types.is_field "RWTensorBuffer<" n) body
            = types.in_write_readwrite a.
Proof.
  exists (fold_left
            (types.NDDifferentiableBufferType.gen_prim
               (types._transform_to_subscript transform)
               (str (Z.of_nat (length transform))) access)
            PrimType.all []).
  unfold types.NDDifferentiableBufferType.gen_calldata,
    types.NDDifferentiableBufferType.gen_prim, PrimType.all, types.access_at.
  destruct access as [[] []];
    cbn [fold_left fst snd AccessType.eqb PrimType.value app];
    (split; [rewrite <- ?app_assoc; reflexivity|]);
    intros []; repeat split; reflexivity.
Qed.

(** ** Raw buffers *)

(** X24. A raw buffer after the access table: [gen_calldata] of
    [StructuredBufferType] fails its assertion, before looking at the type
    and without emitting anything, unless the primal is only read, that is
    for an [in] parameter of a primal call and an [in] or [inout] parameter
    of a backward call. When the primal is only read, it emits one type
    alias for a structured or byte-address buffer type, a read-write one
    exactly when the type is writable, and raises [ValueError] for any other
    type or none. [resolve_type] and [resolve_dimensionality] accept the
    same types, and the dimensionality is then 0. *)
Theorem raw_buffer_after_differentiability
    (b : BoundVariable bindings.StructuredBufferType.SlangType) mode cgb context :
  let b' := _calculate_differentiability b mode in
  let out := bindings.StructuredBufferType.gen_calldata cgb context b' in
  (if bindings.StructuredBufferType.reads_only mode (io_type (slang b)) then
     match vector_type b with
     | Some vt =>
         if bindings.StructuredBufferType.is_raw_buffer vt then
           exists s,
             out = (cgb ++ [type_alias ("_t_" ++ variable_name b)%string s], Ok tt)
             /\ String.prefix "RW" s = bindings.StructuredBufferType.writable vt
         else out = (cgb, Raise bindings.StructuredBufferType.not_vectorizable)
     | None => out = (cgb, Raise bindings.StructuredBufferType.not_vectorizable)
     end
   else out = (cgb, Raise AssertionError))
  /\ forall t,
       bindings.StructuredBufferType.resolve_type context t
       = (if bindings.StructuredBufferType.is_raw_buffer t then Ok t
          else Raise bindings.StructuredBufferType.not_vectorizable)
       /\ bindings.StructuredBufferType.resolve_dimensionality context b' t
          = (_ <- bindings.StructuredBufferType.resolve_type context t ;; Ok 0)%result.
Proof.
  destruct b as [py sl p vn a d k cs]. cbn zeta. split.
  - unfold bindings.StructuredBufferType.gen_calldata, _calculate_differentiability,
      bindings.StructuredBufferType.reads_only.
    unfold vector_type, set_access.
    destruct mode, d, (io_type sl) eqn:Eio; cbn; rewrite ?Eio; cbn; try reflexivity;
      destruct (py_vector_type py) as [[[] e|[]|h]|]; cbn; try reflexivity;
      eexists; split; reflexivity.
  - intros t. unfold bindings.StructuredBufferType.resolve_type,
      bindings.StructuredBufferType.resolve_dimensionality.
    destruct (bindings.StructuredBufferType.is_raw_buffer t); split; reflexivity.
Qed.

(** ** Kernel-side values of the earlier interface *)

Lemma list_mapM_Forall2 {A B} (f : A -> result B) l l' :
  list_mapM f l = Ok l' -> Forall2 (fun a b => f a = Ok b) l l'.
Proof.
  revert l'. induction l as [|a r IH]; intros l'; cbn.
  - intros [= <-]. constructor.
  - destruct (f a) as [b|e] eqn:E; [|discriminate]. cbn.
    destruct (list_mapM f r) as [r'|e]; [|discriminate]. cbn.
    intros [= <-]. constructor; [exact E|now apply IH].
Qed.

Section SlangValueProperties.
Context {P : Type}.
Variable get_or_create_type : slangvalue.slang_type -> result P.
Variable differentiate : P -> result (option P).

Import slangvalue.

Lemma SlangValue_variable_unfold v parent name :
  SlangValue_variable get_or_create_type differentiate v parent name
  = (h <- head get_or_create_type differentiate (RVariable v) parent name ;;
     fields <- fields_of get_or_create_type differentiate (vr_type v)
                 (as_parent (snd h)) ;;
     Ok (snd h fields))%result.
Proof. destruct v; reflexivity. Qed.

Lemma fields_of_unfold t self0 :
  fields_of get_or_create_type differentiate t self0
  = match tr_kind t with
    | Kind.struct =>
        (d <- struct_fields get_or_create_type differentiate self0 (tr_fields t) [] ;;
         Ok (Some d))%result
    | Kind.vector =>
        (d <- vector_fields get_or_create_type differentiate t self0 ;;
         Ok (Some d))%result
    | Kind.other => Ok None
    end.
Proof. destruct t as [[] s c fs]; reflexivity. Qed.

Lemma head_variable_Ok v parent name h :
  head get_or_create_type differentiate (RVariable v) parent name = Ok h ->
  fst h = of_type (vr_type v)
  /\ forall fs,
       sv_name (snd h fs) = vr_name v
       /\ sv_io_type (snd h fs) = io_type_of (vr_modifiers v)
       /\ sv_no_diff (snd h fs) = no_diff_of (vr_modifiers v)
       /\ sv_fields (snd h fs) = fs.
Proof.
  unfold head. destruct (inherit (RVariable v) parent name) as [l|e]; [|discriminate].
  cbn. destruct (get_or_create_type _) as [p|e]; [|discriminate]. cbn.
  destruct (differentiate p) as [d|e]; [|discriminate]. cbn.
  intros [= <-]. cbn. auto.
Qed.

Lemma head_scalar_Ok s parent n h :
  head get_or_create_type differentiate (RScalar s) (Some parent) (Some n) = Ok h ->
  forall fs,
    sv_name (snd h fs) = n
    /\ sv_io_type (snd h fs) = parent_io_type parent
    /\ sv_no_diff (snd h fs) = parent_no_diff parent
    /\ sv_fields (snd h fs) = fs.
Proof.
  unfold head. cbn. destruct (get_or_create_type _) as [p|e]; [|discriminate]. cbn.
  destruct (differentiate p) as [d|e]; [|discriminate]. cbn.
  intros [= <-]. cbn. auto.
Qed.

Lemma head_function_Ok f name h :
  head get_or_create_type differentiate (RFunction f) None name = Ok h ->
  forall fs,
    sv_name (snd h fs) = "_result"
    /\ sv_io_type (snd h fs) = IOType.out
    /\ sv_no_diff (snd h fs)
       = negb (has_modifier (fr_modifiers f) ModifierID.differentiable)
    /\ sv_fields (snd h fs) = fs.
Proof.
  unfold head. cbn. destruct (get_or_create_type _) as [p|e]; [|discriminate]. cbn.
  destruct (differentiate p) as [d|e]; [|discriminate]. cbn.
  intros [= <-]. cbn. auto.
Qed.

Lemma SlangValue_variable_Ok v parent name sv :
  SlangValue_variable get_or_create_type differentiate v parent name = Ok sv ->
  sv_name sv = vr_name v
  /\ sv_io_type sv = io_type_of (vr_modifiers v)
  /\ sv_no_diff sv = no_diff_of (vr_modifiers v)
  /\ fields_of get_or_create_type differentiate (vr_type v)
       {| parent_io_type := sv_io_type sv; parent_no_diff := sv_no_diff sv |}
     = Ok (sv_fields sv).
Proof.
  rewrite SlangValue_variable_unfold.
  destruct (head _ _ _ _ _) as [h|e] eqn:Eh; [|discriminate]. cbn.
  apply head_variable_Ok in Eh as [_ Hh].
  destruct (fields_of _ _ _ _) as [fs|e] eqn:Ef; [|discriminate]. cbn.
  intros [= <-]. destruct (Hh fs) as (Hn & Hio & Hnd & Hfs).
  repeat split; try assumption.
  unfold as_parent in Ef. destruct (Hh None) as (_ & Hio0 & Hnd0 & _).
  rewrite Hio, Hnd, Hfs. rewrite Hio0, Hnd0 in Ef. exact Ef.
Qed.

Lemma SlangValue_function_Ok f name sv :
  SlangValue_init get_or_create_type differentiate (RFunction f) None name = Ok sv ->
  sv_name sv = "_result"
  /\ sv_io_type sv = IOType.out
  /\ sv_no_diff sv = negb (has_modifier (fr_modifiers f) ModifierID.differentiable).
Proof.
  unfold SlangValue_init.
  destruct (head _ _ _ _ _) as [h|e] eqn:Eh; [|discriminate]. cbn.
  pose proof (head_function_Ok _ _ _ Eh) as Hh.
  match goal with
  | |- rbind ?x _ = _ -> _ => destruct x as [fs|e]; [|discriminate]
  end.
  cbn. intros [= <-]. destruct (Hh fs) as (? & ? & ? & _). auto.
Qed.

(** X25. A [SlangValue] made from a variable takes its name, direction and
    no-derivative mark from the variable's own modifiers: what it is given
    as parent has no effect on the result, so the fields of a struct do not
    inherit the direction of the parameter. A scalar with a parent takes
    them from the parent, and without one the constructor reads [io_type]
    before it is bound. A function gives a value [_result] that is [out] and
    marked no-derivative unless the function is differentiable, and cannot
    have a parent. *)
Theorem SlangValue_init_modifiers :
  (forall v parent,
     SlangValue_init get_or_create_type differentiate (RVariable v) (Some parent) None
     = SlangValue_init get_or_create_type differentiate (RVariable v) None None)
  /\ (forall v parent name sv,
        SlangValue_init get_or_create_type differentiate (RVariable v) parent name
        = Ok sv ->
        sv_name sv = vr_name v
        /\ sv_io_type sv = io_type_of (vr_modifiers v)
        /\ sv_no_diff sv = no_diff_of (vr_modifiers v))
  /\ (forall s name,
        SlangValue_init get_or_create_type differentiate (RScalar s) None name
        = Raise (UnboundLocalError "io_type"))
  /\ (forall s parent n sv,
        SlangValue_init get_or_create_type differentiate (RScalar s) (Some parent)
          (Some n) = Ok sv ->
        sv_name sv = n /\ sv_io_type sv = parent_io_type parent
        /\ sv_no_diff sv = parent_no_diff parent /\ sv_fields sv = None)
  /\ (forall f parent name,
        SlangValue_init get_or_create_type differentiate (RFunction f) (Some parent)
          name = Raise AssertionError)
  /\ (forall f name sv,
        SlangValue_init get_or_create_type differentiate (RFunction f) None name
        = Ok sv ->
        sv_name sv = "_result" /\ sv_io_type sv = IOType.out
        /\ sv_no_diff sv
           = negb (has_modifier (fr_modifiers f) ModifierID.differentiable)).
Proof.
  repeat apply conj.
  - intros v parent. cbn [SlangValue_init]. rewrite !SlangValue_variable_unfold.
    reflexivity.
  - intros v parent name sv H. apply SlangValue_variable_Ok in H. tauto.
  - reflexivity.
  - intros s parent n sv H. unfold SlangValue_init, SlangValue_scalar in H.
    destruct (head _ _ _ _ _) as [h|e] eqn:Eh; [|discriminate].
    injection H as <-. apply (head_scalar_Ok _ _ _ _ Eh None).
  - reflexivity.
  - intros f name sv H. now apply SlangValue_function_Ok in H.
Qed.

(** *** The fields of a value *)

Lemma struct_fields_get self0 l acc d :
  struct_fields get_or_create_type differentiate self0 l acc = Ok d ->
  forall n c,
    dict_get n d = Some c ->
    dict_get n acc = Some c
    \/ exists f, In f l /\ vr_name f = n
         /\ SlangValue_variable get_or_create_type differentiate f (Some self0) None
            = Ok c.
Proof.
  revert acc. induction l as [|f r IH]; intros acc; cbn [struct_fields].
  - intros [= <-]. auto.
  - destruct (SlangValue_variable _ _ f _ _) as [c0|e] eqn:Ec; [|discriminate]. cbn.
    intros H n c Hg. destruct (IH _ H n c Hg) as [Hacc|(f' & Hin & Hn & Hc)].
    + destruct (String.eqb_spec n (vr_name f)) as [->|Hne].
      * rewrite dict_get_set_eq in Hacc. injection Hacc as <-.
        right. exists f. repeat split; [now left|exact Ec].
      * rewrite dict_get_set_ne in Hacc by exact Hne. now left.
    + right. exists f'. repeat split; [now right|exact Hn|exact Hc].
Qed.

Lemma struct_fields_keys self0 l acc d :
  struct_fields get_or_create_type differentiate self0 l acc = Ok d ->
  forall n, In n (dict_keys d) <-> In n (dict_keys acc) \/ In n (map vr_name l).
Proof.
  revert acc. induction l as [|f r IH]; intros acc; cbn [struct_fields map].
  - intros [= <-] n. cbn. tauto.
  - destruct (SlangValue_variable _ _ f _ _) as [c0|e] eqn:Ec; [|discriminate]. cbn.
    intros H n. rewrite (IH _ H n), dict_keys_set. cbn. intuition.
Qed.

Lemma slice_to_xyzw n :
  exists k, (k <= 4)%nat
    /\ slice_to ["x"; "y"; "z"; "w"]%string n = take k ["x"; "y"; "z"; "w"]%string.
Proof.
  unfold slice_to. destruct (Z.leb_spec 0 n).
  - exists (Nat.min (Z.to_nat n) 4). split; [lia|].
    destruct (Z.to_nat n) as [|[|[|[|[|m]]]]]; reflexivity.
  - exists (Z.to_nat (Z.of_nat (length ["x"; "y"; "z"; "w"]%string) + n)).
    split; [cbn [length]; lia|reflexivity].
Qed.

Lemma scalar_fields_spec s self0 k d :
  (k <= 4)%nat ->
  scalar_fields get_or_create_type differentiate s self0
    (take k ["x"; "y"; "z"; "w"]%string) [] = Ok d ->
  dict_keys d = take k ["x"; "y"; "z"; "w"]%string
  /\ forall n c,
       dict_get n d = Some c ->
       SlangValue_scalar get_or_create_type differentiate s (Some self0) (Some n)
       = Ok c.
Proof.
  intros Hk.
  destruct k as [|[|[|[|[|k]]]]]; try lia; cbn [take scalar_fields];
    repeat match goal with
      | |- context [SlangValue_scalar ?g ?df ?s0 ?p ?n] =>
          let c := fresh "c" in
          let E := fresh "E" in
          destruct (SlangValue_scalar g df s0 p n) as [c|?] eqn:E;
          [cbn [rbind dict_set String.eqb Ascii.eqb Bool.eqb]|discriminate]
      end;
    intros [= <-]; (split; [reflexivity|]); intros key val Hg; cbn in Hg;
    repeat match type of Hg with
      | (if String.eqb key ?x then _ else _) = _ =>
          destruct (String.eqb_spec key x) as [->|?];
          [injection Hg as <-; assumption|]
      end; discriminate.
Qed.

(** X26. The fields of a [SlangValue] made from a variable. For a struct
    type there is a field for each field of the type, and each has the
    direction and the no-derivative mark of its own modifiers. For a vector
    type the fields are the first [col_count] of [x], [y], [z], [w], each
    without fields and with the direction and mark of the vector. Any other
    type gives no fields. *)
Theorem SlangValue_init_fields v parent name sv :
  SlangValue_init get_or_create_type differentiate (RVariable v) parent name = Ok sv ->
  match tr_kind (vr_type v) with
  | Kind.struct =>
      exists d,
        sv_fields sv = Some d
        /\ (forall f, In f (tr_fields (vr_type v)) -> In (vr_name f) (dict_keys d))
        /\ forall n c,
             dict_get n d = Some c ->
             exists f, In f (tr_fields (vr_type v)) /\ vr_name f = n
               /\ sv_name c = n
               /\ sv_io_type c = io_type_of (vr_modifiers f)
               /\ sv_no_diff c = no_diff_of (vr_modifiers f)
  | Kind.vector =>
      exists d,
        sv_fields sv = Some d
        /\ dict_keys d
           = slice_to ["x"; "y"; "z"; "w"]%string (tr_col_count (vr_type v))
        /\ forall n c,
             dict_get n d = Some c ->
             sv_name c = n /\ sv_io_type c = sv_io_type sv
             /\ sv_no_diff c = sv_no_diff sv /\ sv_fields c = None
  | Kind.other => sv_fields sv = None
  end.
Proof.
  intros H. cbn [SlangValue_init] in H.
  apply SlangValue_variable_Ok in H as (_ & _ & _ & Hf).
  rewrite fields_of_unfold in Hf.
  destruct (tr_kind (vr_type v)).
  - destruct (struct_fields _ _ _ _ _) as [d|e] eqn:Ed; [|discriminate].
    injection Hf as Hf. exists d. split; [now symmetry|]. split.
    + intros f Hin. apply (struct_fields_keys _ _ _ _ Ed). right.
      now apply in_map.
    + intros n c Hg.
      destruct (struct_fields_get _ _ _ _ Ed n c Hg) as [Hacc|(f & Hin & Hn & Hc)];
        [discriminate|].
      apply SlangValue_variable_Ok in Hc as (Hcn & Hio & Hnd & _).
      exists f. repeat split; try assumption. congruence.
  - unfold vector_fields in Hf.
    destruct (slice_to_xyzw (tr_col_count (vr_type v))) as (k & Hk & Es).
    rewrite Es in Hf |- *.
    destruct (scalar_fields _ _ _ _ _ _) as [d|e] eqn:Ed; [|discriminate].
    injection Hf as Hf. exists d. split; [now symmetry|].
    destruct (scalar_fields_spec _ _ _ _ Hk Ed) as [Hkeys Hget].
    split; [exact Hkeys|]. intros n c Hg. apply Hget in Hg.
    unfold SlangValue_scalar in Hg.
    destruct (head _ _ _ _ _) as [h|e] eqn:Eh; [|discriminate].
    injection Hg as <-. apply (head_scalar_Ok _ _ _ _ Eh None).
  - now injection Hf as <-.
Qed.

(** X27. A [SlangFunction] that was constructed has the name of the
    function and its differentiable modifier, a parameter for each parameter
    of the function, in order, with its name and the direction of its own
    modifiers, and a return value exactly when the function has a return
    type that is not [void]; the return value is named [_result], is [out],
    and is marked no-derivative exactly when the function is not
    differentiable. *)
Theorem SlangFunction_init_spec reflection sf :
  SlangFunction_init get_or_create_type differentiate reflection = Ok sf ->
  sfn_name sf = fr_name reflection
  /\ sfn_differentiable sf
     = has_modifier (fr_modifiers reflection) ModifierID.differentiable
  /\ map sv_name (sfn_parameters sf) = map vr_name (fr_parameters reflection)
  /\ map sv_io_type (sfn_parameters sf)
     = map (fun a => io_type_of (vr_modifiers a)) (fr_parameters reflection)
  /\ (sfn_return_value sf = None <-> has_return_value reflection = false)
  /\ forall rv,
       sfn_return_value sf = Some rv ->
       sv_name rv = "_result" /\ sv_io_type rv = IOType.out
       /\ sv_no_diff rv = negb (sfn_differentiable sf).
Proof.
  unfold SlangFunction_init.
  match goal with
  | |- rbind ?x _ = _ -> _ => destruct x as [rv|e] eqn:Erv; [|discriminate]
  end.
  cbn [rbind].
  destruct (list_mapM _ _) as [ps|e] eqn:Eps; [|discriminate]. cbn [rbind].
  intros [= <-]. cbn. apply list_mapM_Forall2 in Eps.
  assert (Hps : Forall2 (fun a b => sv_name b = vr_name a
                           /\ sv_io_type b = io_type_of (vr_modifiers a))
                  (fr_parameters reflection) ps).
  { eapply Forall2_impl; [exact Eps|]. intros a b Hab. cbn in Hab.
    apply SlangValue_variable_Ok in Hab. tauto. }
  assert (Hrv : forall v, rv = Some v ->
                  sv_name v = "_result" /\ sv_io_type v = IOType.out
                  /\ sv_no_diff v
                     = negb (has_modifier (fr_modifiers reflection)
                               ModifierID.differentiable)).
  { intros v ->. destruct (has_return_value reflection); [|discriminate].
    destruct (SlangValue_init _ _ _ _ _) as [v'|e] eqn:Ev; [|discriminate].
    apply SlangValue_function_Ok in Ev. now injection Erv as <-. }
  repeat apply conj.
  - reflexivity.
  - reflexivity.
  - clear -Hps. induction Hps as [|a b l l' [Hn _] _ IH]; cbn; [reflexivity|].
    now rewrite Hn, IH.
  - clear -Hps. induction Hps as [|a b l l' [_ Hio] _ IH]; cbn; [reflexivity|].
    now rewrite Hio, IH.
  - intros ->. destruct (has_return_value reflection); [|reflexivity].
    destruct (SlangValue_init _ _ _ _ _); discriminate.
  - intros Hr. rewrite Hr in Erv. now injection Erv as <-.
  - exact Hrv.
Qed.

End SlangValueProperties.

Lemma SlangValue_init_fields_witness :
  let scalar :=
    slangvalue.mkTypeReflection slangvalue.Kind.other
      (slangvalue.ScalarType.scalar 1%positive) 0 [] in
  let float3 :=
    slangvalue.mkTypeReflection slangvalue.Kind.vector
      (slangvalue.ScalarType.scalar 1%positive) 3 [] in
  let s :=
    slangvalue.mkTypeReflection slangvalue.Kind.struct slangvalue.ScalarType.void 0
      [slangvalue.mkVariableReflection "a" scalar [];
       slangvalue.mkVariableReflection "v" float3 [slangvalue.ModifierID.inout]] in
  let p := slangvalue.mkVariableReflection "p" s [slangvalue.ModifierID.out] in
  let init :=
    slangvalue.SlangValue_init (P := unit) (fun _ => Ok tt) (fun _ => Ok None) in
  exists sv,
    init (slangvalue.RVariable p) None None = Ok sv
    /\ slangvalue.sv_io_type sv = IOType.out
    /\ exists d,
         slangvalue.sv_fields sv = Some d
         /\ (forall f, In f (slangvalue.tr_fields s) ->
               In (slangvalue.vr_name f) (dict_keys d))
         /\ forall n c,
              dict_get n d = Some c ->
              exists f, In f (slangvalue.tr_fields s) /\ slangvalue.vr_name f = n
                /\ slangvalue.sv_name c = n
                /\ slangvalue.sv_io_type c
                   = slangvalue.io_type_of (slangvalue.vr_modifiers f)
                /\ slangvalue.sv_no_diff c
                   = slangvalue.no_diff_of (slangvalue.vr_modifiers f).
Proof.
  intros scalar float3 s p init. eexists. split; [reflexivity|].
  split; [reflexivity|].
  exact (SlangValue_init_fields (fun _ => Ok tt) (fun _ => Ok None) p None None _ eq_refl).
Defined.

Lemma SlangFunction_init_spec_witness :
  let scalar :=
    slangvalue.mkTypeReflection slangvalue.Kind.other
      (slangvalue.ScalarType.scalar 1%positive) 0 [] in
  let f :=
    {| slangvalue.fr_name := "f";
       slangvalue.fr_return_type := Some scalar;
       slangvalue.fr_parameters :=
         [slangvalue.mkVariableReflection "a" scalar [];
          slangvalue.mkVariableReflection "b" scalar [slangvalue.ModifierID.out]];
       slangvalue.fr_modifiers := [slangvalue.ModifierID.differentiable] |} in
  exists sf,
    slangvalue.SlangFunction_init (P := unit) (fun _ => Ok tt) (fun _ => Ok None) f
    = Ok sf
    /\ map slangvalue.sv_name (slangvalue.sfn_parameters sf) = ["a"; "b"]%string
    /\ map slangvalue.sv_io_type (slangvalue.sfn_parameters sf)
       = [IOType.inn; IOType.out]
    /\ forall rv,
         slangvalue.sfn_return_value sf = Some rv ->
         slangvalue.sv_name rv = "_result" /\ slangvalue.sv_io_type rv = IOType.out
         /\ slangvalue.sv_no_diff rv = negb (slangvalue.sfn_differentiable sf).
Proof.
  intros scalar f. eexists. split; [reflexivity|].
  destruct (SlangFunction_init_spec (fun _ => Ok tt) (fun _ => Ok None) f _ eq_refl)
    as (_ & _ & Hn & Hio & _ & Hrv).
  split; [exact Hn|]. split; [exact Hio|exact Hrv].
Defined.

(** ** Packing after unpacking *)

Lemma dict_get_map {A B} (f : A -> B) k (d : dict A) :
  dict_get k (map (fun kv => (fst kv, f (snd kv))) d) = option_map f (dict_get k d).
Proof.
  induction d as [|[k' v] r IH]; cbn; [reflexivity|].
  destruct (String.eqb k k'); [reflexivity|exact IH].
Qed.

Lemma dict_get_In {A} k (v : A) (d : dict A) :
  NoDup (map fst d) -> In (k, v) d -> dict_get k d = Some v.
Proof.
  induction d as [|[k' v'] r IH]; cbn; [tauto|].
  intros Hnd [[= -> ->]|Hin].
  - now rewrite String.eqb_refl.
  - apply NoDup_cons in Hnd as [Hk Hnd].
    destruct (String.eqb_spec k k') as [->|_]; [|now apply IH].
    exfalso. apply Hk. apply list_elem_of_In. apply (in_map fst _ _ Hin).
Qed.

Section PackArgProperties.
Variable hasattr_update_this : handle -> bool.

Lemma pack_arg_unfold arg u :
  pack_arg hasattr_update_this arg u
  = (match arg with
     | PyObject h _ =>
         if hasattr_update_this h then smodify (fun log => log ++ [(h, u)])
         else sret tt
     | PyDict d => pack_items hasattr_update_this u d
     | PyList l => pack_elements hasattr_update_this u l 0%nat
     end ;;;
     sret arg)%se.
Proof. destruct arg; reflexivity. Qed.

Lemma pack_arg_round_trip arg :
  unique_keys arg = true ->
  forall log,
    pack_arg hasattr_update_this arg (unpack_arg arg) log
    = (log ++ flat_map (update_of hasattr_update_this) (objects arg), Ok arg).
Proof.
  induction arg as [h|h this _|d IH|l IH] using PyValue_tree_ind; intros Hu log.
  - rewrite pack_arg_unfold. cbn. destruct (hasattr_update_this h); cbn;
      now rewrite ?app_nil_r.
  - rewrite pack_arg_unfold. cbn [objects flat_map update_of].
    destruct (hasattr_update_this h); cbn; now rewrite ?app_nil_r.
  - rewrite pack_arg_unfold.
    cbn [unique_keys] in Hu. apply andb_true_iff in Hu as [Hnd Hu].
    apply bool_decide_eq_true in Hnd.
    change (unpack_arg (PyDict d))
      with (PyDict (map (fun kv => (fst kv, unpack_arg (snd kv))) d)).
    cbn [objects].
    assert (Hitems : forall l log0,
               (forall kv, In kv l -> In kv d) ->
               Forall (fun kv => unique_keys (snd kv) = true ->
                                 forall log1,
                                   pack_arg hasattr_update_this (snd kv)
                                     (unpack_arg (snd kv)) log1
                                   = (log1 ++ flat_map (update_of hasattr_update_this)
                                                (objects (snd kv)), Ok (snd kv))) l ->
               forallb (fun kv => unique_keys (snd kv)) l = true ->
               pack_items hasattr_update_this
                 (PyDict (map (fun kv => (fst kv, unpack_arg (snd kv))) d)) l log0
               = (log0 ++ flat_map (update_of hasattr_update_this)
                            (flat_map (fun kv => objects (snd kv)) l), Ok tt)).
    { induction l as [|[k v] r IHr]; intros log0 Hsub Hall Hul.
      - cbn. now rewrite app_nil_r.
      - apply List.Forall_cons_iff in Hall as [Hv Hall].
        cbn [forallb snd] in Hul, Hv. apply andb_true_iff in Hul as [Huv Hur].
        cbn [pack_items flat_map snd]. rewrite flat_map_app, app_assoc.
        unfold sbind at 1. unfold slift, subscript_key, dict_getitem.
        rewrite dict_get_map, (dict_get_In k v d Hnd (Hsub _ (or_introl eq_refl))).
        cbn [option_map]. unfold sbind at 1. rewrite (Hv Huv log0).
        apply IHr; [intros kv Hin; apply Hsub; now right|exact Hall|exact Hur]. }
    unfold sbind. rewrite (Hitems d log (fun kv H => H) IH Hu). reflexivity.
  - rewrite pack_arg_unfold. cbn [unique_keys] in Hu.
    change (unpack_arg (PyList l)) with (PyList (map unpack_arg l)).
    cbn [objects].
    assert (Hitems : forall r pre log0,
               l = pre ++ r ->
               Forall (fun v => unique_keys v = true ->
                                forall log1,
                                  pack_arg hasattr_update_this v (unpack_arg v) log1
                                  = (log1 ++ flat_map (update_of hasattr_update_this)
                                               (objects v), Ok v)) r ->
               forallb unique_keys r = true ->
               pack_elements hasattr_update_this (PyList (map unpack_arg l)) r
                 (length pre) log0
               = (log0 ++ flat_map (update_of hasattr_update_this)
                            (flat_map objects r), Ok tt)).
    { induction r as [|v r IHr]; intros pre log0 El Hall Hul.
      - cbn. now rewrite app_nil_r.
      - apply List.Forall_cons_iff in Hall as [Hv Hall].
        cbn [forallb] in Hul. apply andb_true_iff in Hul as [Huv Hur].
        cbn [pack_elements flat_map]. rewrite flat_map_app, app_assoc.
        unfold sbind at 1. unfold slift, subscript_index.
        assert (En : nth_error (map unpack_arg l) (length pre) = Some (unpack_arg v)).
        { rewrite El, map_app, nth_error_app2 by (rewrite length_map; lia).
          rewrite length_map, Nat.sub_diag. reflexivity. }
        rewrite En. unfold sbind at 1. rewrite (Hv Huv log0).
        replace (S (length pre)) with (length (pre ++ [v]))
          by (rewrite length_app; cbn; lia).
        apply IHr; [now rewrite <- app_assoc|exact Hall|exact Hur]. }
    pose proof (Hitems l [] log eq_refl IH Hu) as Hi. cbn [length] in Hi.
    unfold sbind. rewrite Hi. reflexivity.
Qed.

(** X28. [pack_arg] applied to a value and to what [unpack_arg] made of it
    does not raise: every key and every index it looks up in the unpacked
    value is there. It calls [update_this] once on each object that has the
    attribute and that the value holds directly or in dictionaries and
    lists, in order, with the unpacked value of that object, and returns the
    value. What an object gives as [get_this()] is not searched for objects
    to update. *)
Theorem pack_unpack_round_trip arg log :
  unique_keys arg = true ->
  pack_arg hasattr_update_this arg (unpack_arg arg) log
  = (log ++ flat_map (update_of hasattr_update_this) (objects arg), Ok arg).
Proof. intros Hu. now apply pack_arg_round_trip. Qed.

End PackArgProperties.

Lemma pack_unpack_round_trip_witness :
  let inner := PyObject 2%positive None in
  let o := PyObject 1%positive (Some (PyDict [("k", PyObject 2%positive (Some inner))])) in
  let arg := PyDict [("a", PyList [o]); ("b", inner)] in
  unique_keys arg = true
  /\ pack_arg (fun _ => true) arg (unpack_arg arg) []
     = ([(1%positive, PyDict [("k", inner)]); (2%positive, inner)], Ok arg).
Proof.
  intros inner o arg. split; [reflexivity|].
  exact (pack_unpack_round_trip (fun _ => true) arg [] eq_refl).
Defined.
